(** * GEOseis: signal kernel, Ms estimator, surface-wave model and station
      fail-forward, embedded from the Python sources.

    Conventions of the embedding.

    - Python floats are idealised as exact numbers.  The kernels that only
      add, multiply, divide, compare and round are written over [Q], so
      every definition computes; [calculate_ms_magnitude], which needs
      [np.log10] and [np.sqrt], is written over [R].
    - The IEEE values NaN and +/-Inf are explicit constructors of [sample]
      where the code tests for them ([np.isnan], [np.isinf], [np.isfinite])
      and in [WaveTypesArrays], which also has the raw integer counts of a
      record whose response could not be removed, with the wrap-around of
      their squares.
    - Calls into SciPy, NumPy's [sqrt]/[std], ObsPy and the FDSN client are
      parameters of the sections that use them: the theorems hold for every
      implementation of those libraries.
    - A Python exception is an explicit result ([None], [Raised], ...) that
      the enclosing [try]/[except] of the source turns into its value. *)

From Stdlib Require Import List ZArith QArith Qround Qabs Qreals Reals Psatz Bool String Sorted.
From stdpp Require Import base gmap sets strings.
Import ListNotations.

(** ** Exact arithmetic helpers shared by the Q kernels *)

Module PyNum.

(** [a < b] on Python numbers. *)
Definition Qltb (a b : Q) : bool := negb (Qle_bool b a).
(** [a <= b]. *)
Definition Qleb (a b : Q) : bool := Qle_bool a b.
(** [a == b]. *)
Definition Qeqb (a b : Q) : bool := Qeq_bool a b.

(** Python's [max(a, b)]: the first argument unless the second is
    strictly larger. *)
Definition py_max (a b : Q) : Q := if Qltb a b then b else a.
(** Python's [min(a, b)]: the first argument unless the second is
    strictly smaller. *)
Definition py_min (a b : Q) : Q := if Qltb b a then b else a.

(** Round half to even of a rational to an integer. *)
Definition round_half_even (x : Q) : Z :=
  let f := Qfloor x in
  let r := (x - inject_Z f)%Q in
  if Qltb r (1 # 2) then f
  else if Qltb (1 # 2) r then (f + 1)%Z
  else if Z.even f then f else (f + 1)%Z.

(** Python's [round(x, ndigits)] for [ndigits >= 0]. *)
Definition py_round (x : Q) (ndigits : nat) : Q :=
  let s := inject_Z (10 ^ Z.of_nat ndigits) in
  (inject_Z (round_half_even (x * s)) / s)%Q.

(** Python's [int(x)]: truncation toward zero. *)
Definition py_int (x : Q) : Z :=
  if Qltb x 0 then Qceiling x else Qfloor x.

End PyNum.

(** ** SignalKernel: [EnhancedSeismicProcessor.apply_bandpass_filter]
    (seismic_processor.py, lines 94-216) *)

Module Bandpass.
Import PyNum.

(** One element of a NumPy float array. *)
Inductive sample : Type :=
| Fin (q : Q)
| NaN
| PosInf
| NegInf.

Definition isnan (s : sample) : bool :=
  match s with NaN => true | _ => false end.
Definition isinf (s : sample) : bool :=
  match s with PosInf | NegInf => true | _ => false end.
Definition isfinite (s : sample) : bool :=
  match s with Fin _ => true | _ => false end.

(** [np.any(np.isnan(a)) or np.any(np.isinf(a))]. *)
Definition has_nonfinite (a : list sample) : bool :=
  List.existsb isnan a || List.existsb isinf a.

(** [self.filter_order]. *)
Definition filter_order : nat := 4.

Inductive btype : Type := high | low | band.

Inductive filter_type : Type := highpass | lowpass | bandpass.

(** The ['reason'] field of a failed status. *)
Inductive reason : Type :=
| empty_data
| invalid_data
| frequency_too_high
| invalid_band
| filter_produced_invalid
| filter_error
| unexpected_error.

(** The ['parameters'] dictionary of a successful status; a frequency is
    [None] when the caller passed [None]. *)
Record parameters : Type := {
  low_freq : option Q;
  high_freq : option Q;
  order : nat;
  sampling_rate : Q
}.

(** The status dictionary: [{'success': True, 'filter_type', 'parameters'}]
    or [{'success': False, 'reason', ...}] (the message and suggestion
    texts are not modelled). *)
Inductive status : Type :=
| Success (ft : filter_type) (p : parameters)
| Failure (r : reason).

Definition success (s : status) : bool :=
  match s with Success _ _ => true | Failure _ => false end.

(** What [scipy.signal.filtfilt] does: an output array, a [ValueError]
    (caught by the inner [try]) or any other exception. *)
Inductive filtfilt_result : Type :=
| FiltOut (y : list sample)
| FiltValueError
| FiltRaises.

(** Result of the filter-design part (lines 121-174): an early [return]
    with a reason, an exception, or the coefficients with the filter type
    and the (possibly adjusted) corner frequencies. *)
Inductive design (coeffs : Type) : Type :=
| Rejected (r : reason)
| Raised
| Designed (ba : coeffs) (ft : filter_type) (lo hi : option Q).
Arguments Rejected {coeffs} r.
Arguments Raised {coeffs}.
Arguments Designed {coeffs} ba ft lo hi.

Section WithSciPy.

(** The [(b, a)] pair returned by [scipy.signal.butter]. *)
Variable coeffs : Type.
(** [butter(order, Wn, btype)]; [None] when it raises. *)
Variable butter : nat -> list Q -> btype -> option coeffs.
(** [filtfilt(b, a, data)]. *)
Variable filtfilt : coeffs -> list sample -> filtfilt_result.

(** Lines 109-119: the non-finite check.  [None] is the early return with
    [invalid_data]; otherwise the array that is filtered. *)
Definition clean_nonfinite (data : list sample) : option (list sample) :=
  if has_nonfinite data then
    let clean_data := List.filter isfinite data in
    if Qltb (inject_Z (Z.of_nat (length clean_data)))
            (inject_Z (Z.of_nat (length data)) * 0.5)
    then None
    else Some clean_data
  else Some data.

(** Lines 121-174: choice of the filter and validation of its corners. *)
Definition design_filter (sampling_rate : Q) (low_freq high_freq : option Q)
    (order : nat) : design coeffs :=
  let nyquist := (sampling_rate / 2)%Q in
  let is_none_or (o : option Q) (p : Q -> bool) : bool :=
    match o with None => true | Some f => p f end in
  if is_none_or low_freq (fun f => Qleb f 0) then
    (* high-pass at high_freq *)
    match high_freq with
    | None => Raised (* None >= float: TypeError *)
    | Some hf =>
        if Qleb (nyquist * 0.95) hf then Rejected frequency_too_high
        else if Qeqb nyquist 0 then Raised (* ZeroDivisionError *)
        else match butter order [(hf / nyquist)%Q] high with
             | Some ba => Designed ba highpass low_freq high_freq
             | None => Raised
             end
    end
  else if is_none_or high_freq (fun f => Qleb nyquist f) then
    (* low-pass at low_freq *)
    match low_freq with
    | None => Raised (* not reachable: the first test caught None *)
    | Some lf =>
        if Qleb (nyquist * 0.95) lf then Rejected frequency_too_high
        else match butter order [(lf / nyquist)%Q] low with
             | Some ba => Designed ba lowpass low_freq high_freq
             | None => Raised
             end
    end
  else
    (* band-pass, the standard case *)
    match low_freq, high_freq with
    | Some lf, Some hf =>
        if Qleb hf lf then Rejected invalid_band
        else
          let hf := if Qleb (nyquist * 0.95) hf then (nyquist * 0.9)%Q else hf in
          let lf := if Qleb lf 0.001 then 0.005%Q else lf in
          match butter order [(lf / nyquist)%Q; (hf / nyquist)%Q] band with
          | Some ba => Designed ba bandpass (Some lf) (Some hf)
          | None => Raised
          end
    | _, _ => Raised (* not reachable *)
    end.

(** [apply_bandpass_filter(data, sampling_rate, low_freq, high_freq, order)]:
    the returned array and status. *)
Definition apply_bandpass_filter (data : list sample) (sampling_rate : Q)
    (low_freq high_freq : option Q) (order : option nat)
    : list sample * status :=
  let order := match order with None => filter_order | Some n => n end in
  if Nat.eqb (length data) 0 then (data, Failure empty_data)
  else
    match clean_nonfinite data with
    | None => (data, Failure invalid_data)
    | Some data =>
        match design_filter sampling_rate low_freq high_freq order with
        | Rejected r => (data, Failure r)
        | Raised => (data, Failure unexpected_error)
        | Designed ba ft lo hi =>
            match filtfilt ba data with
            | FiltOut filtered_data =>
                if has_nonfinite filtered_data
                then (data, Failure filter_produced_invalid)
                else (filtered_data,
                      Success ft {| low_freq := lo; high_freq := hi;
                                    order := order;
                                    sampling_rate := sampling_rate |})
            | FiltValueError => (data, Failure filter_error)
            | FiltRaises => (data, Failure unexpected_error)
            end
        end
    end.

(** SciPy's contract for [filtfilt]: the output has the shape of the
    input. *)
Definition filtfilt_keeps_length : Prop :=
  forall ba x y, filtfilt ba x = FiltOut y -> length y = length x.

(** The spec's scenario E6, [bandpass(x, fs=1.0, 0.1, 0.6)], as the spec
    states its status: success, band-pass, [high_freq = 0.45]. *)
Definition E6_status_claimed (x : list sample) : Prop :=
  exists p,
    snd (apply_bandpass_filter x 1.0%Q (Some 0.1%Q) (Some 0.6%Q) None)
      = Success bandpass p
    /\ match high_freq p with Some h => (h == 0.45)%Q | None => False end.

End WithSciPy.

(** A stand-in for SciPy used to run the model: [butter] accepts critical
    frequencies strictly between 0 and 1, increasing for a band (as SciPy
    does), and returns the number of coefficients; [filtfilt] rejects
    inputs not longer than its padding of three times that number (as
    SciPy does) and otherwise passes the data through. *)
Definition ref_butter (order : nat) (Wn : list Q) (bt : btype) : option nat :=
  if List.forallb (fun w => Qltb 0 w && Qltb w 1) Wn
     && match Wn with [w1; w2] => Qltb w1 w2 | _ => true end
  then Some (match bt with band => 2 * order + 1 | _ => order + 1 end)%nat
  else None.

Definition ref_filtfilt (ntaps : nat) (x : list sample) : filtfilt_result :=
  if Nat.leb (length x) (3 * ntaps) then FiltValueError else FiltOut x.

(** Thirty samples of a constant signal. *)
Definition steady_30 : list sample := List.repeat (Fin 1) 30.

(** Thirty-two samples, the second of which is NaN. *)
Definition one_nan_32 : list sample :=
  Fin 1 :: NaN :: List.repeat (Fin 2) 30.

End Bandpass.

(** ** SignalKernel: spike removal
    ([EnhancedSeismicProcessor.remove_spikes], seismic_processor.py lines
    375-400, and the older [remove_spikes] of GEOseis.py lines 209-275) *)

Module Spikes.
Import PyNum.

(** Insertion into a sorted list, and the sort NumPy's [median] and
    SciPy's [medfilt] rely on. *)
Fixpoint insert_sorted (x : Q) (l : list Q) : list Q :=
  match l with
  | [] => [x]
  | y :: l' => if Qleb x y then x :: l else y :: insert_sorted x l'
  end.

Definition sort (l : list Q) : list Q := List.fold_right insert_sorted [] l.

(** [np.median(a)]: the middle element of the sorted array, or the mean
    of the two middle ones; [None] stands for the NaN NumPy returns on an
    empty array. *)
Definition np_median (a : list Q) : option Q :=
  let s := sort a in
  let n := length a in
  match n with
  | O => None
  | _ => if Nat.even n
         then Some ((List.nth (n / 2 - 1) s 0 + List.nth (n / 2) s 0) / 2)%Q
         else Some (List.nth (n / 2) s 0%Q)
  end.

(** [scipy.signal.medfilt(a, kernel_size)] on a one-dimensional array,
    for an odd [kernel_size]: the median of the window centred on each
    sample, the array being padded with zeros.  For an even
    [kernel_size] SciPy raises a [ValueError]; the callers decide what
    becomes of it. *)
Definition medfilt (a : list Q) (kernel_size : nat) : list Q :=
  let half := (kernel_size / 2)%nat in
  let padded := List.repeat 0%Q half ++ a ++ List.repeat 0%Q half in
  List.map (fun i => List.nth half (sort (List.firstn kernel_size (List.skipn i padded))) 0%Q)
           (List.seq 0 (length a)).

(** [np.where(mask)[0]]: the indices at which the mask holds. *)
Fixpoint where_from (i : nat) (mask : list bool) : list nat :=
  match mask with
  | [] => []
  | b :: m => if b then i :: where_from (S i) m else where_from (S i) m
  end.

Definition np_where (mask : list bool) : list nat := where_from 0 mask.

(** [a[idx] = b[idx]] for an index array [idx]. *)
Definition assign_at (a b : list Q) (idx : list nat) : list Q :=
  List.fold_left (fun acc i => <[i := List.nth i b 0%Q]> acc) idx a.

(** [self.spike_threshold]. *)
Definition spike_threshold : Q := 5.0.

(** [|x - median|] for each sample. *)
Definition abs_dev (a : list Q) (median : Q) : list Q :=
  List.map (fun x => Qabs (x - median)) a.

(** [remove_spikes(data, threshold)] of seismic_processor.py: the cleaned
    array and the number of spikes. *)
Definition remove_spikes (data : list Q) (threshold : option Q) : list Q * nat :=
  let threshold := match threshold with None => spike_threshold | Some t => t end in
  let cleaned_data := data in
  match np_median cleaned_data with
  | None => (cleaned_data, 0%nat) (* NaN: [mad > 0] is false *)
  | Some median =>
      match np_median (abs_dev cleaned_data median) with
      | None => (cleaned_data, 0%nat)
      | Some mad =>
          if Qltb 0 mad then
            let z_scores :=
              List.map (fun d => (d / (1.4826 * mad))%Q) (abs_dev cleaned_data median) in
            let spike_indices := np_where (List.map (fun z => Qltb threshold z) z_scores) in
            if Nat.ltb 0 (length spike_indices) then
              let window_size := 5%nat in
              let median_filtered := medfilt cleaned_data window_size in
              (assign_at cleaned_data median_filtered spike_indices,
               length spike_indices)
            else (cleaned_data, length spike_indices)
          else (cleaned_data, 0%nat)
      end
  end.

(** The indices a pass flags: those whose score exceeds the threshold,
    none when the MAD is not positive. *)
Definition flagged (data : list Q) (threshold : option Q) : list nat :=
  let threshold := match threshold with None => spike_threshold | Some t => t end in
  match np_median data with
  | None => []
  | Some median =>
      match np_median (abs_dev data median) with
      | None => []
      | Some mad =>
          if Qltb 0 mad then
            np_where (List.map (fun z => Qltb threshold z)
                        (List.map (fun d => (d / (1.4826 * mad))%Q)
                                  (abs_dev data median)))
          else []
      end
  end.

(** The idempotence C6 states for one input: a second pass over the
    output of the first finds no spike and changes no sample. *)
Definition second_pass_unchanged (data : list Q) (threshold : option Q) : Prop :=
  let once := fst (remove_spikes data threshold) in
  List.Forall2 Qeq (fst (remove_spikes once threshold)) once
  /\ snd (remove_spikes once threshold) = 0%nat.

(** A constant signal with one outlier: 25 samples at 0 and one at 26.
    Its MAD is 0 and its standard deviation is 5. *)
Definition constant_plus_outlier : list Q := List.repeat 0%Q 25 ++ [26%Q].

(** The ['num_spikes'] and ['max_z_score'] entries of the [spike_info]
    dictionary of GEOseis.py (percentage and index array are derived from
    the same mask). *)
Record spike_info : Type := {
  num_spikes : nat;
  max_z_score : Q;
  spike_indices : list nat
}.

Section Legacy.

(** [np.std(a)]. *)
Variable np_std : list Q -> Q.

(** [np.max(a)] of a non-empty array. *)
Definition np_max (a : list Q) : option Q :=
  match a with
  | [] => None
  | x :: l => Some (List.fold_left py_max l x)
  end.

(** [remove_spikes(data, threshold, window_size)] of GEOseis.py: with
    [MAD = 0] the scores are taken against the standard deviation.  The
    median filter is called only when a sample is flagged; the
    [ValueError] it raises for an even [window_size] is caught by the
    [except] clause, which returns the data with an empty [spike_info]. *)
Definition legacy_remove_spikes (data : list Q) (threshold : option Q)
    (window_size : nat) : list Q * spike_info :=
  let on_error := (data, {| num_spikes := 0; max_z_score := 0; spike_indices := [] |}) in
  let threshold := match threshold with None => spike_threshold | Some t => t end in
  match np_median data with
  | None => on_error (* NaN scores of an empty array: np.max raises *)
  | Some median_val =>
      match np_median (abs_dev data median_val) with
      | None => on_error
      | Some mad =>
          let modified_z_scores :=
            if Qeqb mad 0
            then List.map (fun d => (d / (np_std data + 1e-10))%Q) (abs_dev data median_val)
            else List.map (fun x => (0.6745 * (x - median_val) / mad)%Q) data in
          let mask := List.map (fun z => Qltb threshold (Qabs z)) modified_z_scores in
          match
            if List.existsb (fun b => b) mask
            then if Nat.even window_size
                 then None (* ValueError of medfilt *)
                 else Some (assign_at data (medfilt data window_size) (np_where mask))
            else Some data
          with
          | None => on_error
          | Some cleaned_data =>
              match np_max (List.map Qabs modified_z_scores) with
              | None => on_error
              | Some mz =>
                  (cleaned_data,
                   {| num_spikes := length (np_where mask);
                      max_z_score := mz;
                      spike_indices := np_where mask |})
              end
          end
      end
  end.

End Legacy.

End Spikes.

(** ** ArrivalModel: [StreamlinedDataManager.calculate_surface_wave_velocities]
    (data_manager.py, lines 1490-1621) *)

Module SurfaceWaves.
Import PyNum.
Local Open Scope Q_scope.

(** The ['structure_type'] text: "Sedimentaer", "Normal skorpe",
    "Gennemsnitlig", "Krystallin", "Ukendt". *)
Inductive structure_type : Type :=
| Sedimentary
| NormalCrust
| Average
| Crystalline
| Unknown.

(** The ['calculation_factors'] dictionary. *)
Record calculation_factors : Type := {
  depth_factor : Q;
  distance_factor : Q;
  magnitude_factor : Q;
  structure_factor : Q;
  vp_vs_ratio : option Q;
  structure : structure_type
}.

(** The returned dictionary. *)
Record surface_waves : Type := {
  love_velocity : Q;
  rayleigh_velocity : Q;
  love_arrival : Q;
  rayleigh_arrival : Q;
  surface_arrival : Q;
  factors : calculation_factors
}.

Definition base_love_velocity : Q := 4.5.
Definition base_rayleigh_velocity : Q := 3.5.

(** 1. Depth effect (lines 1507-1518). *)
Definition depth_factor_of (depth_km : Q) : Q :=
  if Qltb depth_km 20 then 1.0
  else if Qltb depth_km 35 then 0.98
  else if Qltb depth_km 70 then 0.92
  else if Qltb depth_km 150 then 0.80
  else if Qltb depth_km 300 then 0.65
  else 0.50.

(** 2. Distance effect (lines 1522-1535). *)
Definition distance_factor_of (distance_km : Q) : Q :=
  if Qltb distance_km 500 then 0.92
  else if Qltb distance_km 1000 then 0.95
  else if Qltb distance_km 2000 then 0.98
  else if Qltb distance_km 4000 then 1.0
  else if Qltb distance_km 6000 then 1.02
  else if Qltb distance_km 10000 then 1.04
  else 1.06.

(** 3. Magnitude effect (lines 1539-1554). *)
Definition magnitude_factor_of (magnitude : Q) : Q :=
  if Qltb magnitude 5.0 then 0.95
  else if Qltb magnitude 5.5 then 0.97
  else if Qltb magnitude 6.0 then 0.99
  else if Qltb magnitude 6.5 then 1.0
  else if Qltb magnitude 7.0 then 1.02
  else if Qltb magnitude 7.5 then 1.04
  else if Qltb magnitude 8.0 then 1.06
  else 1.08.

(** Truth value of an optional number in a Python condition: neither
    [None] nor zero. *)
Definition truthy (o : option Q) : bool :=
  match o with None => false | Some x => negb (Qeqb x 0) end.

(** 4. Crustal structure from the P and S times (lines 1557-1584): the
    factor, the rounded Vp/Vs estimate and the structure type. *)
Definition structure_of (p_arrival_sec s_arrival_sec : option Q)
    : Q * option Q * structure_type :=
  match p_arrival_sec, s_arrival_sec with
  | Some p, Some s =>
      if truthy p_arrival_sec && truthy s_arrival_sec && Qltb 0 p then
        let ts_tp_ratio := (s / p)%Q in
        let estimated_vp_vs := ts_tp_ratio in
        let vp_vs_ratio_info := Some (py_round estimated_vp_vs 2) in
        if Qltb 1.80 estimated_vp_vs then (0.93, vp_vs_ratio_info, Sedimentary)
        else if Qltb 1.75 estimated_vp_vs then (0.97, vp_vs_ratio_info, NormalCrust)
        else if Qltb 1.70 estimated_vp_vs then (1.0, vp_vs_ratio_info, Average)
        else (1.05, vp_vs_ratio_info, Crystalline)
      else (1.0, None, Unknown)
  | _, _ => (1.0, None, Unknown)
  end.

(** Lines 1586-1595: the velocities from the four factors, before
    rounding.  The Love velocity computed from its own base value is
    overwritten by 1.12 times the Rayleigh velocity; both are then
    clamped. *)
Definition clamped_velocities (depth_factor distance_factor magnitude_factor
    structure_factor : Q) : Q * Q :=
  let love_velocity :=
    (base_love_velocity * depth_factor * distance_factor * magnitude_factor
     * structure_factor)%Q in
  let rayleigh_velocity :=
    (base_rayleigh_velocity * depth_factor * distance_factor * magnitude_factor
     * structure_factor)%Q in
  let love_velocity := (rayleigh_velocity * 1.12)%Q in
  let love_velocity := py_max 3.8 (py_min 5.2 love_velocity) in
  let rayleigh_velocity := py_max 3.0 (py_min 4.5 rayleigh_velocity) in
  (love_velocity, rayleigh_velocity).

Definition calculate_surface_wave_velocities (distance_km depth_km magnitude : Q)
    (p_arrival_sec s_arrival_sec : option Q) : surface_waves :=
  let depth_factor := depth_factor_of depth_km in
  let distance_factor := distance_factor_of distance_km in
  let magnitude_factor := magnitude_factor_of magnitude in
  let '(structure_factor, vp_vs_ratio_info, structure_type) :=
    structure_of p_arrival_sec s_arrival_sec in
  let '(love_velocity, rayleigh_velocity) :=
    clamped_velocities depth_factor distance_factor magnitude_factor
      structure_factor in
  let love_arrival := (distance_km / love_velocity)%Q in
  let rayleigh_arrival := (distance_km / rayleigh_velocity)%Q in
  {| love_velocity := py_round love_velocity 2;
     rayleigh_velocity := py_round rayleigh_velocity 2;
     love_arrival := py_round love_arrival 1;
     rayleigh_arrival := py_round rayleigh_arrival 1;
     surface_arrival := py_round rayleigh_arrival 1;
     factors := {| depth_factor := py_round depth_factor 3;
                   distance_factor := py_round distance_factor 3;
                   magnitude_factor := py_round magnitude_factor 3;
                   structure_factor := py_round structure_factor 3;
                   vp_vs_ratio := vp_vs_ratio_info;
                   structure := structure_type |} |}.

(** The values the four factors can take. *)
Definition depth_factors : list Q := [1.0; 0.98; 0.92; 0.80; 0.65; 0.50].
Definition distance_factors : list Q := [0.92; 0.95; 0.98; 1.0; 1.02; 1.04; 1.06].
Definition magnitude_factors : list Q :=
  [0.95; 0.97; 0.99; 1.0; 1.02; 1.04; 1.06; 1.08].
Definition structure_factors : list Q := [0.93; 0.97; 1.0; 1.05].

(** The rounded velocities for given factors. *)
Definition rounded_velocities (df xf mf sf : Q) : Q * Q :=
  let '(l, r) := clamped_velocities df xf mf sf in
  (py_round l 2, py_round r 2).

(** The bounds of C4 on a pair of returned velocities. *)
Definition in_bounds (v : Q * Q) : bool :=
  Qleb 3.8 (fst v) && Qleb (fst v) 5.2 && Qleb 3.0 (snd v) && Qleb (snd v) 4.5.

(** The Love velocity is within 0.44 km/s above and 0.011 km/s below
    1.12 times the Rayleigh velocity. *)
Definition near_ratio (v : Q * Q) : bool :=
  Qleb (1.12 * snd v - 0.011) (fst v) && Qleb (fst v) (1.12 * snd v + 0.44).

(** The rounded velocities of every combination of factor values. *)
Definition all_rounded_velocities : list (Q * Q) :=
  List.flat_map (fun df =>
    List.flat_map (fun xf =>
      List.flat_map (fun mf =>
        List.map (fun sf => rounded_velocities df xf mf sf) structure_factors)
        magnitude_factors)
      distance_factors)
    depth_factors.

(** C4 as stated, for one input. *)
Definition velocity_claim (distance_km depth_km magnitude : Q)
    (p_arrival_sec s_arrival_sec : option Q) : Prop :=
  let w := calculate_surface_wave_velocities distance_km depth_km magnitude
             p_arrival_sec s_arrival_sec in
  (3.8 <= love_velocity w <= 5.2)%Q
  /\ (3.0 <= rayleigh_velocity w <= 4.5)%Q
  /\ (love_velocity w == 1.12 * rayleigh_velocity w)%Q.

End SurfaceWaves.

(** ** StationSelector and fail-forward
    ([StreamlinedDataManager.search_stations], [_process_stations],
    [handle_failed_station_download], [search_stations_excluding_failed],
    [clear_failed_stations] and [_fallback_station_list_optimized],
    data_manager.py) *)

Module Stations.
Import PyNum.
Local Open Scope Q_scope.

(** The earthquake dictionary; [time] is [None] when the entry is missing
    or does not convert to a [UTCDateTime]. *)
Record earthquake : Type := {
  time : option Z;
  latitude : Q;
  longitude : Q;
  depth : option Q
}.

(** A station of an ObsPy inventory, and a network with its stations. *)
Record inv_station : Type := {
  inv_code : string;
  inv_latitude : Q;
  inv_longitude : Q;
  inv_channels : list string;
  inv_end_date : option Z
}.

Record inv_network : Type := {
  net_code : string;
  net_stations : list inv_station
}.

Definition inventory : Type := list inv_network.

(** What [client.get_stations] does for one call: an exception (no
    connection, timeout, no data) or an inventory. *)
Inductive query_result : Type :=
| QueryRaises
| QueryOk (inv : inventory).

(** The station dictionary built by [_process_stations] and by the
    fallback; a key the dictionary does not have is [None]. *)
Record station_data : Type := {
  network : string;
  station : string;
  sta_latitude : Q;
  sta_longitude : Q;
  distance_deg : Q;
  distance_km : Q;
  azimuth : Q;
  p_arrival : option Q;
  s_arrival : option Q;
  love_arrival : Q;
  rayleigh_arrival : Q;
  surface_arrival : Q;
  network_priority : option nat;
  channel_priority : option nat;
  data_source : string;
  operational_years : option nat
}.

(** The entries of [st.session_state] the selector reads and writes; an
    attribute that is not set is [None]. *)
Record session_state : Type := {
  station_results : option (gmap string (list station_data));
  executing_search : option string;
  failed_station_downloads : option (gset string);
  search_min_dist : option Q;
  search_max_dist : option Q;
  search_target_stations : option nat
}.

Definition with_station_results (r : gmap string (list station_data))
    (s : session_state) : session_state :=
  {| station_results := Some r;
     executing_search := executing_search s;
     failed_station_downloads := failed_station_downloads s;
     search_min_dist := search_min_dist s;
     search_max_dist := search_max_dist s;
     search_target_stations := search_target_stations s |}.

Definition with_executing_search (e : option string) (s : session_state)
    : session_state :=
  {| station_results := station_results s;
     executing_search := e;
     failed_station_downloads := failed_station_downloads s;
     search_min_dist := search_min_dist s;
     search_max_dist := search_max_dist s;
     search_target_stations := search_target_stations s |}.

Definition with_failed_station_downloads (f : gset string) (s : session_state)
    : session_state :=
  {| station_results := station_results s;
     executing_search := executing_search s;
     failed_station_downloads := Some f;
     search_min_dist := search_min_dist s;
     search_max_dist := search_max_dist s;
     search_target_stations := search_target_stations s |}.

(** [d.get(key, default)] on a small literal dictionary. *)
Fixpoint dict_get (d : list (string * nat)) (key : string) (default : nat) : nat :=
  match d with
  | [] => default
  | (k, v) :: d' => if String.eqb k key then v else dict_get d' key default
  end.

Definition network_scores : list (string * nat) :=
  [("IU", 1); ("II", 1); ("G", 2); ("GE", 2); ("GT", 3); ("IC", 4);
   ("CU", 5); ("US", 6); ("TA", 7); ("N4", 8)]%string%nat.

Definition channel_scores : list (string * nat) :=
  [("BHZ", 1); ("BHE", 1); ("BHN", 1); ("HHZ", 2); ("HHE", 2); ("HHN", 2);
   ("SHZ", 3); ("SHE", 3); ("SHN", 3); ("LHZ", 4); ("LHE", 4); ("LHN", 4)]%string%nat.

(** The key under which a station is recorded as failed:
    [f"{station['network']}.{station['station']}"]. *)
Definition station_key (s : station_data) : string :=
  String.append (network s) (String.append "." (station s)).

Section WithServices.

(** [gps2dist_azimuth(lat1, lon1, lat2, lon2)]: distance in metres and
    azimuth; [None] when it raises. *)
Variable gps2dist_azimuth : Q -> Q -> Q -> Q -> option (Q * Q).
(** [kilometers2degrees(km)]. *)
Variable kilometers2degrees : Q -> Q.
(** [self.taup_model]: [None] when ObsPy's TauP is not available;
    otherwise [get_travel_times(depth, degrees, ["P", "S"])] returning the
    phase names with their times, or [None] when it raises. *)
Variable taup_model : option (Q -> Q -> option (list (string * Q))).
(** [str] of the values that enter the cache key. *)
Variable str_time : option Z -> string.
Variable str_num : Q -> string.
Variable str_int : nat -> string.

(** The loop over the TauP arrivals (lines 474-478): the first P and the
    first S time. *)
Fixpoint first_arrivals (arrivals : list (string * Q)) (p_arrival s_arrival : Q)
    : Q * Q :=
  match arrivals with
  | [] => (p_arrival, s_arrival)
  | (name, t) :: rest =>
      if String.eqb name "P" && Qeqb p_arrival 0 then first_arrivals rest t s_arrival
      else if String.eqb name "S" && Qeqb s_arrival 0 then first_arrivals rest p_arrival t
      else first_arrivals rest p_arrival s_arrival
  end.

(** The body of the station loop of [_process_stations] (lines 442-511):
    [None] when the station is skipped (out of range, or an exception). *)
Definition process_station (eq_lat eq_lon eq_depth min_distance_km max_distance_km : Q)
    (net : inv_network) (sta : inv_station) : option station_data :=
  match gps2dist_azimuth eq_lat eq_lon (inv_latitude sta) (inv_longitude sta) with
  | None => None
  | Some (distance_m, azimuth) =>
      let distance_km := distance_m / 1000.0 in
      let distance_deg := distance_km / 111.32 in
      if negb (Qleb min_distance_km distance_km && Qleb distance_km max_distance_km)
      then None
      else
        let net_priority := dict_get network_scores (net_code net) 99 in
        let best_channel_priority :=
          List.fold_left (fun best code => Nat.min best (dict_get channel_scores code 99))
                         (inv_channels sta) 99%nat in
        let '(p_arrival, s_arrival) :=
          match taup_model with
          | Some get_travel_times =>
              if Qltb 0 distance_deg then
                match get_travel_times eq_depth distance_deg with
                | Some arrivals => first_arrivals arrivals 0 0
                | None => (0, 0)
                end
              else (0, 0)
          | None => (0, 0)
          end in
        let love_arrival := distance_km / 4.5 in
        let rayleigh_arrival := distance_km / 3.5 in
        let surface_arrival := rayleigh_arrival in
        Some {| network := net_code net;
                station := inv_code sta;
                sta_latitude := inv_latitude sta;
                sta_longitude := inv_longitude sta;
                distance_deg := py_round distance_deg 2;
                distance_km := py_round distance_km 1;
                azimuth := py_round azimuth 1;
                p_arrival := if Qltb 0 p_arrival then Some (py_round p_arrival 3) else None;
                s_arrival := if Qltb 0 s_arrival then Some (py_round s_arrival 3) else None;
                love_arrival := py_round love_arrival 3;
                rayleigh_arrival := py_round rayleigh_arrival 3;
                surface_arrival := py_round surface_arrival 3;
                network_priority := Some net_priority;
                channel_priority := Some best_channel_priority;
                data_source := "ULTRA_FAST_FORBEDRET";
                operational_years :=
                  Some (match inv_end_date sta with None => 1 | Some _ => 0 end)%nat |}
  end.

(** [_process_stations]. *)
Definition _process_stations (inv : inventory)
    (eq_lat eq_lon eq_depth min_distance_km max_distance_km : Q)
    : list station_data :=
  List.flat_map (fun net =>
    List.flat_map (fun sta =>
      match process_station eq_lat eq_lon eq_depth min_distance_km max_distance_km
              net sta with
      | Some s => [s]
      | None => []
      end) (net_stations net)) inv.

(** The sort key of [search_stations] (lines 318-323) and its
    lexicographic order. *)
Definition sort_key (x : station_data) : nat * Z * nat * Q :=
  let get (o : option nat) := match o with Some n => n | None => 99%nat end in
  (get (network_priority x),
   if Nat.leb (get (network_priority x)) 2 then 0%Z
   else Qfloor (distance_km x / 500),
   get (channel_priority x),
   distance_km x).

Definition key_le (a b : nat * Z * nat * Q) : bool :=
  let '(a1, a2, a3, a4) := a in
  let '(b1, b2, b3, b4) := b in
  if Nat.ltb a1 b1 then true else if Nat.ltb b1 a1 then false
  else if Z.ltb a2 b2 then true else if Z.ltb b2 a2 then false
  else if Nat.ltb a3 b3 then true else if Nat.ltb b3 a3 then false
  else Qleb a4 b4.

(** [list.sort(key=...)]: a stable sort. *)
Fixpoint insert_by_key (x : station_data) (l : list station_data) : list station_data :=
  match l with
  | [] => [x]
  | y :: l' =>
      if key_le (sort_key y) (sort_key x) then y :: insert_by_key x l' else x :: l
  end.

Definition sort_stations (l : list station_data) : list station_data :=
  List.fold_left (fun acc x => insert_by_key x acc) l [].

Definition execution_key (eq : earthquake) (min_distance_km max_distance_km : Q)
    (target_stations : nat) : string :=
  String.concat "_"
    ["exec"%string; str_time (time eq); str_num min_distance_km;
     str_num max_distance_km; str_int target_stations].

(** The [finally] clause of [search_stations]: the execution flag is
    removed if it is this search's. *)
Definition clear_execution_flag (key : string) (s : session_state) : session_state :=
  match executing_search s with
  | Some k => if String.eqb k key then with_executing_search None s else s
  | None => s
  end.

(** [search_stations(earthquake, min_distance_km, max_distance_km,
    target_stations)] for the given answer of the FDSN client: the
    returned list and the session state after the call. *)
Definition search_stations (response : query_result) (s : session_state)
    (eq : earthquake) (min_distance_km max_distance_km : Q) (target_stations : nat)
    : list station_data * session_state :=
  let key := execution_key eq min_distance_km max_distance_km target_stations in
  let cached :=
    match station_results s with
    | Some results => results !! key
    | None => None
    end in
  match cached with
  | Some stations => (stations, s)
  | None =>
      let results := match station_results s with Some r => r | None => ∅ end in
      let s := with_station_results results s in
      if match executing_search s with Some k => String.eqb k key | None => false end
      then ([], s)
      else
        let s := with_executing_search (Some key) s in
        (* try *)
        let '(result, s) :=
          match time eq with
          | None => ([], s)
          | Some eq_time =>
              match response with
              | QueryRaises => ([], s) (* except Exception: return [] *)
              | QueryOk inv =>
                  match inv with
                  | [] => ([], s)
                  | _ =>
                      let all_stations :=
                        _process_stations inv (latitude eq) (longitude eq)
                          (match depth eq with Some d => d | None => 10.0 end)
                          min_distance_km max_distance_km in
                      match all_stations with
                      | [] => ([], s)
                      | _ =>
                          let selected_stations :=
                            List.firstn target_stations (sort_stations all_stations) in
                          (selected_stations,
                           with_station_results (<[key := selected_stations]> results) s)
                      end
                  end
              end
          end in
        (* finally *)
        (result, clear_execution_flag key s)
  end.

(** [search_stations_excluding_failed]. *)
Definition search_stations_excluding_failed (response : query_result)
    (s : session_state) (eq : earthquake) (min_distance_km max_distance_km : Q)
    (target_stations : nat) : list station_data * session_state :=
  let '(all_stations, s) :=
    search_stations response s eq min_distance_km max_distance_km
      (target_stations * 2) in
  match all_stations with
  | [] => ([], s)
  | _ =>
      let failed_stations :=
        match failed_station_downloads s with Some f => f | None => ∅ end in
      let available_stations :=
        List.filter (fun st => bool_decide (station_key st ∉ failed_stations))
                    all_stations in
      (List.firstn target_stations available_stations, s)
  end.

(** [handle_failed_station_download(failed_station, earthquake)]. *)
Definition handle_failed_station_download (response : query_result)
    (s : session_state) (failed_station : station_data) (eq : earthquake)
    : list station_data * session_state :=
  let failed :=
    match failed_station_downloads s with Some f => f | None => ∅ end in
  let failed_key := station_key failed_station in
  let s := with_failed_station_downloads ({[failed_key]} ∪ failed) s in
  search_stations_excluding_failed response s eq
    (match search_min_dist s with Some d => d | None => 1500 end)
    (match search_max_dist s with Some d => d | None => 3000 end)
    (match search_target_stations s with Some n => n | None => 3%nat end).

(** [clear_failed_stations]. *)
Definition clear_failed_stations (s : session_state) : session_state :=
  with_failed_station_downloads ∅ s.

(** The curated list of [_fallback_station_list_optimized] in
    data_manager.py (lines 1080-1088). *)
Definition analysis_ready_stations : list (string * string * Q * Q) :=
  [("IU", "KEV", 69.76, 27.01);
   ("II", "BFO", 48.33, 8.33);
   ("GE", "STU", 48.77, 9.19);
   ("DK", "BSD", 55.11, 14.91);
   ("DK", "COP", 55.68, 12.43);
   ("NS", "BSEG", 62.20, 5.22);
   ("UP", "UDD", 64.51, 21.04)]%string.

(** The names bound when the station dictionary of the fallback is built
    (lines 1109-1124): [p_arrival] and [s_arrival] are assigned nowhere in
    the function and are no module globals, so reading them raises
    [NameError]. *)
Definition fallback_p_arrival : option Q := None.
Definition fallback_s_arrival : option Q := None.

(** The body of the loop of the fallback (lines 1092-1127): [None] when
    the station is skipped, by the range test or by the bare [except]. *)
Definition fallback_station (eq_lat eq_lon min_distance_km max_distance_km : Q)
    (sta_data : string * string * Q * Q) : option station_data :=
  let '(net, sta, lat, lon) := sta_data in
  match gps2dist_azimuth eq_lat eq_lon lat lon with
  | None => None
  | Some (distance_m, azimuth) =>
      let distance_km := distance_m / 1000.0 in
      let distance_deg := kilometers2degrees distance_km in
      if Qleb min_distance_km distance_km && Qleb distance_km max_distance_km then
        let love_arrival := distance_km / 4.5 in
        let rayleigh_arrival := distance_km / 3.5 in
        let surface_arrival := rayleigh_arrival in
        match fallback_p_arrival, fallback_s_arrival with
        | Some p_arrival, Some s_arrival =>
            Some {| network := net;
                    station := sta;
                    sta_latitude := lat;
                    sta_longitude := lon;
                    distance_deg := py_round distance_deg 2;
                    distance_km := py_round distance_km 1;
                    azimuth := py_round azimuth 1;
                    p_arrival := Some (py_round p_arrival 3);
                    s_arrival := Some (py_round s_arrival 3);
                    love_arrival := py_round love_arrival 3;
                    rayleigh_arrival := py_round rayleigh_arrival 3;
                    surface_arrival := py_round surface_arrival 3;
                    network_priority := None;
                    channel_priority := None;
                    data_source := "ANALYSIS_READY_FALLBACK";
                    operational_years := None |}
        | _, _ => None (* NameError, caught by [except: continue] *)
        end
      else None
  end.

Fixpoint insert_by_distance (x : station_data) (l : list station_data)
    : list station_data :=
  match l with
  | [] => [x]
  | y :: l' =>
      if Qleb (distance_km y) (distance_km x) then y :: insert_by_distance x l'
      else x :: l
  end.

(** [_fallback_station_list_optimized] of data_manager.py. *)
Definition _fallback_station_list_optimized (eq : earthquake)
    (min_distance_km max_distance_km : Q) (target_stations : nat)
    : list station_data :=
  let stations :=
    List.flat_map (fun sta_data =>
      match fallback_station (latitude eq) (longitude eq)
              min_distance_km max_distance_km sta_data with
      | Some s => [s]
      | None => []
      end) analysis_ready_stations in
  List.firstn target_stations
    (List.fold_left (fun acc x => insert_by_distance x acc) stations []).

(** The operations of a session that touch the failed-station set,
    except the explicit reset; each carries the answer the FDSN client
    gives to its inventory query. *)
Inductive command : Type :=
| Search (response : query_result) (eq : earthquake)
    (min_distance_km max_distance_km : Q) (target_stations : nat)
| SearchExcludingFailed (response : query_result) (eq : earthquake)
    (min_distance_km max_distance_km : Q) (target_stations : nat)
| HandleFailed (response : query_result) (failed_station : station_data)
    (eq : earthquake).

Definition step (c : command) (s : session_state)
    : list station_data * session_state :=
  match c with
  | Search r eq lo hi n => search_stations r s eq lo hi n
  | SearchExcludingFailed r eq lo hi n =>
      search_stations_excluding_failed r s eq lo hi n
  | HandleFailed r st eq => handle_failed_station_download r s st eq
  end.

(** Running a sequence of commands: the results in order and the final
    state. *)
Fixpoint run (cs : list command) (s : session_state)
    : list (list station_data) * session_state :=
  match cs with
  | [] => ([], s)
  | c :: cs' =>
      let '(r, s1) := step c s in
      let '(rs, s2) := run cs' s1 in
      (r :: rs, s2)
  end.

(** Whether a command returns the list of
    [search_stations_excluding_failed]. *)
Definition excludes_failed (c : command) : bool :=
  match c with Search _ _ _ _ _ => false | _ => true end.

End WithServices.

(** [S] is recorded in [failed_station_downloads]. *)
Definition marked_failed (S : station_data) (s : session_state) : Prop :=
  match failed_station_downloads s with
  | Some f => station_key S ∈ f
  | None => False
  end.

(** A returned list does not contain [S]: none of its stations has the
    network and station codes of [S]. *)
Definition absent (S : station_data) (l : list station_data) : Prop :=
  List.Forall (fun st => ~ (network st = network S /\ station st = station S)) l.

(** A stand-in for the services, used to run the model: the distance is
    taken along the meridian (111.32 km per degree of latitude), TauP is
    not loaded, and the key texts are constant. *)
Definition meridian_gps2dist (lat1 lon1 lat2 lon2 : Q) : option (Q * Q) :=
  Some (Qabs (lat2 - lat1) * 111320, 0).

(** An inventory with three IU stations 10, 12 and 14 degrees north of
    the event of scenario E1. *)
Definition three_stations : inventory :=
  [ {| net_code := "IU";
       net_stations :=
         [ {| inv_code := "AAA"; inv_latitude := 48.30; inv_longitude := 142.37;
              inv_channels := ["BHZ"%string]; inv_end_date := None |};
           {| inv_code := "BBB"; inv_latitude := 50.30; inv_longitude := 142.37;
              inv_channels := ["BHZ"%string]; inv_end_date := None |};
           {| inv_code := "CCC"; inv_latitude := 52.30; inv_longitude := 142.37;
              inv_channels := ["BHZ"%string]; inv_end_date := None |} ] |} ].

(** The station dictionary of the nearest of the three. *)
Definition first_station : station_data :=
  {| network := "IU"; station := "AAA";
     sta_latitude := 48.30; sta_longitude := 142.37;
     distance_deg := 10.0; distance_km := 1113.2; azimuth := 0.0;
     p_arrival := None; s_arrival := None;
     love_arrival := 247.378; rayleigh_arrival := 318.057;
     surface_arrival := 318.057;
     network_priority := Some 1%nat; channel_priority := Some 1%nat;
     data_source := "ULTRA_FAST_FORBEDRET";
     operational_years := Some 1%nat |}.

(** A session in which nothing has been set. *)
Definition fresh_session : session_state :=
  {| station_results := None;
     executing_search := None;
     failed_station_downloads := None;
     search_min_dist := None;
     search_max_dist := None;
     search_target_stations := None |}.

(** A session in which the search window 500-3000 km and three target
    stations have been chosen. *)
Definition searching_session : session_state :=
  {| station_results := None;
     executing_search := None;
     failed_station_downloads := None;
     search_min_dist := Some 500;
     search_max_dist := Some 3000;
     search_target_stations := Some 3%nat |}.

(** The event of the spec's scenario E1 (2011-03-11T05:46:23Z). *)
Definition tohoku : earthquake :=
  {| time := Some 1299822383%Z;
     latitude := 38.30;
     longitude := 142.37;
     depth := Some 29 |}.

End Stations.

(** ** WaveClassifier: [EnhancedSeismicProcessor.detect_wave_types] and
    [_interpret_wave_type] (seismic_processor.py, lines 402-522), on
    float64 arrays of finite samples

    The samples are rationals: this is the classifier on the arrays the
    response removal produces, float64 without NaN or Inf.
    [WaveTypesArrays] below takes arrays of any dtype, with the
    wrap-around of integer counts and the NaN and Inf of floats;
    [WaveTypesArraysFacts.detect_finite] shows that the two agree on
    float64 arrays of finite samples. *)

Module WaveTypes.
Import PyNum.
Local Open Scope Q_scope.

(** The ['displacement_data'] dictionary; a missing component is [None].
    The dictionary counts as empty when it has none of the three. *)
Record displacement_data : Type := {
  north : option (list Q);
  east : option (list Q);
  vertical : option (list Q)
}.

(** The entries of [waveform_data] the classifier reads. *)
Record waveform_data : Type := {
  displacement : option displacement_data;
  time : option (list Q);
  sampling_rate : option Q
}.

Inductive dominant : Type := Love | Rayleigh | Mixed.

(** The six texts of [_interpret_wave_type]. *)
Inductive interpretation : Type :=
| StrongLove
| LoveDominates
| MixedLoveRayleigh
| MixedRayleighTendency
| RayleighDominates
| StrongRayleigh.

Record component_energy : Type := {
  energy_north : Q;
  energy_east : Q;
  energy_vertical : Q;
  energy_horizontal_total : Q
}.

Record rms_amplitudes : Type := {
  rms_north : Q;
  rms_east : Q;
  rms_vertical : Q;
  rms_horizontal : Q
}.

(** The returned dictionary. *)
Record wave_types : Type := {
  dominant_type : dominant;
  confidence : Q;
  love_rayleigh_ratio : Q;
  horizontal_ratio : Q;
  vertical_ratio : Q;
  energy : component_energy;
  rms : rms_amplitudes;
  interpreted : interpretation
}.

(** Either [{'error': ...}] or the analysis. *)
Inductive detection : Type :=
| Error
| Detected (r : wave_types).

(** [a[start:end]] for [start >= 0]: a negative [end] counts from the end
    of the array. *)
Definition py_slice (a : list Q) (start_idx end_idx : Z) : list Q :=
  let n := Z.of_nat (length a) in
  let stop := if (end_idx <? 0)%Z then Z.max 0 (end_idx + n) else Z.min end_idx n in
  let start := Z.min start_idx n in
  List.firstn (Z.to_nat (stop - start)) (List.skipn (Z.to_nat start) a).

(** [np.sum(a)] and [np.sum(a**2)]. *)
Definition np_sum (a : list Q) : Q := List.fold_left Qplus a 0.
Definition energy_of (a : list Q) : Q := np_sum (List.map (fun x => x ^ 2) a).

(** [np.mean(a)] of a non-empty array. *)
Definition np_mean (a : list Q) : Q := np_sum a / inject_Z (Z.of_nat (length a)).

Definition _interpret_wave_type (ratio : Q) : interpretation :=
  if Qltb 5.0 ratio then StrongLove
  else if Qltb 3.0 ratio then LoveDominates
  else if Qltb 1.5 ratio then MixedLoveRayleigh
  else if Qltb 0.5 ratio then MixedRayleighTendency
  else if Qltb 0.2 ratio then RayleighDominates
  else StrongRayleigh.

Section WithNumPy.

(** [np.sqrt]. *)
Variable np_sqrt : Q -> Q.

Definition detect_wave_types (waveform : waveform_data)
    (time_window : option (Q * Q)) : detection :=
  match displacement waveform with
  | None => Error
  | Some d =>
      if match north d, east d, vertical d with
         | None, None, None => true
         | _, _, _ => false
         end
      then Error
      else
        let get (o : option (list Q)) := match o with Some a => a | None => [] end in
        let or_zero (a : list Q) := if Nat.ltb 0 (length a) then a else [0] in
        let north := or_zero (get (north d)) in
        let east := or_zero (get (east d)) in
        let vertical := or_zero (get (vertical d)) in
        let '(north, east, vertical) :=
          match time_window, time waveform with
          | Some (t0, t1), Some time_array =>
              let sampling_rate :=
                match sampling_rate waveform with Some r => r | None => 100 end in
              let start_idx := py_int (t0 * sampling_rate) in
              let end_idx := py_int (t1 * sampling_rate) in
              let start_idx := Z.max 0 start_idx in
              let end_idx :=
                Z.min (Z.min (Z.min end_idx (Z.of_nat (length north)))
                             (Z.of_nat (length east)))
                      (Z.of_nat (length vertical)) in
              (py_slice north start_idx end_idx,
               py_slice east start_idx end_idx,
               py_slice vertical start_idx end_idx)
          | _, _ => (north, east, vertical)
          end in
        let north_energy := energy_of north in
        let east_energy := energy_of east in
        let vertical_energy := energy_of vertical in
        let horizontal_energy := north_energy + east_energy in
        let total_energy := horizontal_energy + vertical_energy in
        let '(horizontal_ratio, vertical_ratio) :=
          if Qltb 0 total_energy
          then (horizontal_energy / total_energy, vertical_energy / total_energy)
          else (0, 0) in
        let love_rayleigh_ratio := horizontal_energy / (vertical_energy + 1e-10) in
        let '(dominant_type, confidence) :=
          if Qltb 3.0 love_rayleigh_ratio
          then (Love, py_min (love_rayleigh_ratio / 5.0) 1.0)
          else if Qltb love_rayleigh_ratio 0.5
          then (Rayleigh, py_min (2.0 / (love_rayleigh_ratio + 0.1)) 1.0)
          else (Mixed, 1.0 - Qabs (love_rayleigh_ratio - 1.5) / 1.5) in
        let rms_of (a : list Q) :=
          if Nat.ltb 0 (length a)
          then np_sqrt (np_mean (List.map (fun x => x ^ 2) a)) else 0 in
        let north_rms := rms_of north in
        let east_rms := rms_of east in
        let vertical_rms := rms_of vertical in
        let horizontal_rms := np_sqrt ((north_rms ^ 2 + east_rms ^ 2) / 2) in
        Detected
          {| dominant_type := dominant_type;
             confidence := py_round confidence 2;
             love_rayleigh_ratio := py_round love_rayleigh_ratio 2;
             horizontal_ratio := py_round horizontal_ratio 3;
             vertical_ratio := py_round vertical_ratio 3;
             energy := {| energy_north := py_round north_energy 2;
                          energy_east := py_round east_energy 2;
                          energy_vertical := py_round vertical_energy 2;
                          energy_horizontal_total := py_round horizontal_energy 2 |};
             rms := {| rms_north := py_round north_rms 3;
                       rms_east := py_round east_rms 3;
                       rms_vertical := py_round vertical_rms 3;
                       rms_horizontal := py_round horizontal_rms 3 |};
             interpreted := _interpret_wave_type love_rayleigh_ratio |}
  end.

End WithNumPy.

(** A window dominated by the vertical component. *)
Definition vertical_pulse : waveform_data :=
  {| displacement := Some {| north := Some [0; 0.1; 0];
                             east := Some [0; -0.1; 0];
                             vertical := Some [0; 1; -1] |};
     time := Some [0; 1; 2];
     sampling_rate := Some 1 |}.

End WaveTypes.

(** ** [detect_wave_types] on NumPy arrays of any dtype
    (seismic_processor.py, lines 402-522)

    The displacement arrays reach the classifier as they were stored:
    float64 after the response removal, or the raw int32 counts when the
    response removal failed (data_manager.py, lines 1313-1337 and
    1383-1386).  NumPy computes [north**2] in the dtype of the array, so
    that squares of integer counts wrap around; a float array may hold
    NaN and Inf.  Finite floats are idealised as exact rationals. *)

Module WaveTypesArrays.
Import PyNum Bandpass.
Local Open Scope Q_scope.

(** *** float64 scalars *)

Definition fneg (a : sample) : sample :=
  match a with
  | Fin x => Fin (- x)
  | NaN => NaN
  | PosInf => NegInf
  | NegInf => PosInf
  end.

Definition fadd (a b : sample) : sample :=
  match a, b with
  | NaN, _ | _, NaN => NaN
  | Fin x, Fin y => Fin (x + y)
  | PosInf, NegInf | NegInf, PosInf => NaN
  | PosInf, _ | _, PosInf => PosInf
  | NegInf, _ | _, NegInf => NegInf
  end.

Definition fsub (a b : sample) : sample := fadd a (fneg b).

(** [a ** 2]. *)
Definition fsquare (a : sample) : sample :=
  match a with
  | Fin x => Fin (x ^ 2)
  | NaN => NaN
  | PosInf | NegInf => PosInf
  end.

(** [a / b] on NumPy scalars: a division by zero gives an infinity or
    NaN, not an exception (zero is taken as positive). *)
Definition fdiv (a b : sample) : sample :=
  match a, b with
  | NaN, _ | _, NaN => NaN
  | Fin x, Fin y =>
      if Qeqb y 0
      then if Qeqb x 0 then NaN else if Qltb 0 x then PosInf else NegInf
      else Fin (x / y)
  | Fin _, (PosInf | NegInf) => Fin 0
  | (PosInf | NegInf), (PosInf | NegInf) => NaN
  | PosInf, Fin y => if Qltb y 0 then NegInf else PosInf
  | NegInf, Fin y => if Qltb y 0 then PosInf else NegInf
  end.

Definition fabs (a : sample) : sample :=
  match a with
  | Fin x => Fin (Qabs x)
  | NaN => NaN
  | PosInf | NegInf => PosInf
  end.

(** [a < b]: false as soon as one side is NaN. *)
Definition fltb (a b : sample) : bool :=
  match a, b with
  | NaN, _ | _, NaN => false
  | Fin x, Fin y => Qltb x y
  | NegInf, (Fin _ | PosInf) => true
  | Fin _, PosInf => true
  | _, _ => false
  end.

(** Python's [min(a, b)]: [b] if [b < a], else [a]. *)
Definition fmin (a b : sample) : sample := if fltb b a then b else a.

(** [round(a, ndigits)]. *)
Definition fround (a : sample) (ndigits : nat) : sample :=
  match a with
  | Fin x => Fin (py_round x ndigits)
  | _ => a
  end.

(** *** Integer and float arrays *)

Inductive int_width : Type := W32 | W64.

Definition int_bits (w : int_width) : Z :=
  match w with W32 => 32 | W64 => 64 end.

(** Two's-complement wrap-around to [w] bits. *)
Definition wrap (w : int_width) (z : Z) : Z :=
  let m := (2 ^ int_bits w)%Z in
  ((z + m / 2) mod m - m / 2)%Z.

(** A one-dimensional array: int32 or int64 (each element within the
    range of its width), or float64. *)
Inductive array : Type :=
| IntArray (w : int_width) (data : list Z)
| FloatArray (data : list sample).

Definition len (a : array) : nat :=
  match a with
  | IntArray _ data => length data
  | FloatArray data => length data
  end.

(** [l[start:end]] for [start >= 0]: a negative [end] counts from the
    end of the list. *)
Definition slice_list {A : Type} (l : list A) (start_idx end_idx : Z) : list A :=
  let n := Z.of_nat (length l) in
  let stop := if (end_idx <? 0)%Z then Z.max 0 (end_idx + n) else Z.min end_idx n in
  let start := Z.min start_idx n in
  List.firstn (Z.to_nat (stop - start)) (List.skipn (Z.to_nat start) l).

Definition slice (a : array) (start_idx end_idx : Z) : array :=
  match a with
  | IntArray w data => IntArray w (slice_list data start_idx end_idx)
  | FloatArray data => FloatArray (slice_list data start_idx end_idx)
  end.

(** A NumPy scalar: int64 or float64. *)
Inductive number : Type :=
| IntV (z : Z)
| FloatV (s : sample).

Definition to_float (n : number) : sample :=
  match n with
  | IntV z => Fin (inject_Z z)
  | FloatV s => s
  end.

(** [a + b]: two int64 scalars add with wrap-around, otherwise the sum
    is a float. *)
Definition nadd (a b : number) : number :=
  match a, b with
  | IntV x, IntV y => IntV (wrap W64 (x + y))
  | _, _ => FloatV (fadd (to_float a) (to_float b))
  end.

(** [round(n, ndigits)]: an integer is returned as it is. *)
Definition nround (n : number) (ndigits : nat) : number :=
  match n with
  | IntV z => IntV z
  | FloatV s => FloatV (fround s ndigits)
  end.

(** [a ** 2], in the dtype of the array. *)
Definition int_squares (w : int_width) (data : list Z) : list Z :=
  List.map (fun x => wrap w (x * x)) data.

(** [np.sum(a ** 2)]: the squares of an integer array are summed in
    int64. *)
Definition energy_of (a : array) : number :=
  match a with
  | IntArray w data =>
      IntV (List.fold_left (fun acc x => wrap W64 (acc + x)) (int_squares w data) 0%Z)
  | FloatArray data =>
      FloatV (List.fold_left fadd (List.map fsquare data) (Fin 0))
  end.

(** [np.mean(a ** 2)] of a non-empty array: a float. *)
Definition mean_square (a : array) : sample :=
  match a with
  | IntArray w data =>
      Fin (List.fold_left Qplus (List.map inject_Z (int_squares w data)) 0
           / inject_Z (Z.of_nat (length data)))
  | FloatArray data =>
      fdiv (List.fold_left fadd (List.map fsquare data) (Fin 0))
           (Fin (inject_Z (Z.of_nat (length data))))
  end.

(** *** The classifier *)

Record displacement_data : Type := {
  north : option array;
  east : option array;
  vertical : option array
}.

Record waveform_data : Type := {
  displacement : option displacement_data;
  time : option (list Q);
  sampling_rate : option Q
}.

Record component_energy : Type := {
  energy_north : number;
  energy_east : number;
  energy_vertical : number;
  energy_horizontal_total : number
}.

Record rms_amplitudes : Type := {
  rms_north : sample;
  rms_east : sample;
  rms_vertical : sample;
  rms_horizontal : sample
}.

Record wave_types : Type := {
  dominant_type : WaveTypes.dominant;
  confidence : sample;
  love_rayleigh_ratio : sample;
  horizontal_ratio : sample;
  vertical_ratio : sample;
  energy : component_energy;
  rms : rms_amplitudes;
  interpreted : WaveTypes.interpretation
}.

Inductive detection : Type :=
| Error
| Detected (r : wave_types).

Definition _interpret_wave_type (ratio : sample) : WaveTypes.interpretation :=
  if fltb (Fin 5.0) ratio then WaveTypes.StrongLove
  else if fltb (Fin 3.0) ratio then WaveTypes.LoveDominates
  else if fltb (Fin 1.5) ratio then WaveTypes.MixedLoveRayleigh
  else if fltb (Fin 0.5) ratio then WaveTypes.MixedRayleighTendency
  else if fltb (Fin 0.2) ratio then WaveTypes.RayleighDominates
  else WaveTypes.StrongRayleigh.

(** Lines 455-465: the energy shares and the Love/Rayleigh ratio. *)
Definition energy_ratios (horizontal_energy vertical_energy : number)
    : sample * sample * sample :=
  let total_energy := nadd horizontal_energy vertical_energy in
  let '(horizontal_ratio, vertical_ratio) :=
    if fltb (Fin 0) (to_float total_energy)
    then (fdiv (to_float horizontal_energy) (to_float total_energy),
          fdiv (to_float vertical_energy) (to_float total_energy))
    else (Fin 0, Fin 0) in
  let love_rayleigh_ratio :=
    fdiv (to_float horizontal_energy) (fadd (to_float vertical_energy) (Fin 1e-10)) in
  (horizontal_ratio, vertical_ratio, love_rayleigh_ratio).

(** Lines 467-477: the dominant type and its confidence. *)
Definition dominant_of (love_rayleigh_ratio : sample) : WaveTypes.dominant * sample :=
  if fltb (Fin 3.0) love_rayleigh_ratio
  then (WaveTypes.Love, fmin (fdiv love_rayleigh_ratio (Fin 5.0)) (Fin 1.0))
  else if fltb love_rayleigh_ratio (Fin 0.5)
  then (WaveTypes.Rayleigh,
        fmin (fdiv (Fin 2.0) (fadd love_rayleigh_ratio (Fin 0.1))) (Fin 1.0))
  else (WaveTypes.Mixed,
        fsub (Fin 1.0) (fdiv (fabs (fsub love_rayleigh_ratio (Fin 1.5))) (Fin 1.5))).

Section WithNumPy.

(** [np.sqrt] of a finite number that is not negative. *)
Variable np_sqrt : Q -> Q.

Definition fsqrt (a : sample) : sample :=
  match a with
  | Fin x => if Qltb x 0 then NaN else Fin (np_sqrt x)
  | PosInf => PosInf
  | NaN | NegInf => NaN
  end.

Definition detect_wave_types (waveform : waveform_data)
    (time_window : option (Q * Q)) : detection :=
  match displacement waveform with
  | None => Error
  | Some d =>
      if match north d, east d, vertical d with
         | None, None, None => true
         | _, _, _ => false
         end
      then Error
      else
        let get (o : option array) :=
          match o with Some a => a | None => FloatArray [] end in
        let or_zero (a : array) :=
          if Nat.ltb 0 (len a) then a else IntArray W64 [0%Z] in
        let north := or_zero (get (north d)) in
        let east := or_zero (get (east d)) in
        let vertical := or_zero (get (vertical d)) in
        let '(north, east, vertical) :=
          match time_window, time waveform with
          | Some (t0, t1), Some time_array =>
              let sampling_rate :=
                match sampling_rate waveform with Some r => r | None => 100 end in
              let start_idx := py_int (t0 * sampling_rate) in
              let end_idx := py_int (t1 * sampling_rate) in
              let start_idx := Z.max 0 start_idx in
              let end_idx :=
                Z.min (Z.min (Z.min end_idx (Z.of_nat (len north)))
                             (Z.of_nat (len east)))
                      (Z.of_nat (len vertical)) in
              (slice north start_idx end_idx,
               slice east start_idx end_idx,
               slice vertical start_idx end_idx)
          | _, _ => (north, east, vertical)
          end in
        let north_energy := energy_of north in
        let east_energy := energy_of east in
        let vertical_energy := energy_of vertical in
        let horizontal_energy := nadd north_energy east_energy in
        let '(horizontal_ratio, vertical_ratio, love_rayleigh_ratio) :=
          energy_ratios horizontal_energy vertical_energy in
        let '(dominant_type, confidence) := dominant_of love_rayleigh_ratio in
        let rms_of (a : array) :=
          if Nat.ltb 0 (len a) then fsqrt (mean_square a) else Fin 0 in
        let north_rms := rms_of north in
        let east_rms := rms_of east in
        let vertical_rms := rms_of vertical in
        let horizontal_rms :=
          fsqrt (fdiv (fadd (fsquare north_rms) (fsquare east_rms)) (Fin 2)) in
        Detected
          {| dominant_type := dominant_type;
             confidence := fround confidence 2;
             love_rayleigh_ratio := fround love_rayleigh_ratio 2;
             horizontal_ratio := fround horizontal_ratio 3;
             vertical_ratio := fround vertical_ratio 3;
             energy := {| energy_north := nround north_energy 2;
                          energy_east := nround east_energy 2;
                          energy_vertical := nround vertical_energy 2;
                          energy_horizontal_total := nround horizontal_energy 2 |};
             rms := {| rms_north := fround north_rms 3;
                       rms_east := fround east_rms 3;
                       rms_vertical := fround vertical_rms 3;
                       rms_horizontal := fround horizontal_rms 3 |};
             interpreted := _interpret_wave_type love_rayleigh_ratio |}
  end.

End WithNumPy.

(** The float64 array of the finite samples [values]. *)
Definition float_array (values : list Q) : array :=
  FloatArray (List.map Fin values).

(** A waveform of float64 arrays of finite samples, as [WaveTypes]
    takes it. *)
Definition float_displacement (d : WaveTypes.displacement_data) : displacement_data :=
  {| north := option_map float_array (WaveTypes.north d);
     east := option_map float_array (WaveTypes.east d);
     vertical := option_map float_array (WaveTypes.vertical d) |}.

Definition float_waveform (w : WaveTypes.waveform_data) : waveform_data :=
  {| displacement := option_map float_displacement (WaveTypes.displacement w);
     time := WaveTypes.time w;
     sampling_rate := WaveTypes.sampling_rate w |}.

(** The array [a] holds the finite samples [l]: it is the float64 array
    of [l], or both are the zeros that stand for a missing component. *)
Definition holds (a : array) (l : list Q) : Prop :=
  a = float_array l
  \/ exists k, a = IntArray W64 (List.repeat 0%Z k) /\ l = List.repeat 0 k.

(** An energy of such arrays: the integer 0 or a float. *)
Definition zero_or_float (n : number) : Prop :=
  match n with
  | IntV z => z = 0%Z
  | FloatV _ => True
  end.

(** The scalar [s] is the finite number [q]. *)
Definition is_number (s : sample) (q : Q) : Prop :=
  exists x, s = Fin x /\ x == q.

(** The analysis [r'] holds the values of the analysis [r] of
    [WaveTypes]. *)
Definition same_analysis (r' : wave_types) (r : WaveTypes.wave_types) : Prop :=
  dominant_type r' = WaveTypes.dominant_type r
  /\ interpreted r' = WaveTypes.interpreted r
  /\ is_number (confidence r') (WaveTypes.confidence r)
  /\ is_number (love_rayleigh_ratio r') (WaveTypes.love_rayleigh_ratio r)
  /\ is_number (horizontal_ratio r') (WaveTypes.horizontal_ratio r)
  /\ is_number (vertical_ratio r') (WaveTypes.vertical_ratio r)
  /\ (is_number (to_float (energy_north (energy r')))
                (WaveTypes.energy_north (WaveTypes.energy r))
      /\ is_number (to_float (energy_east (energy r')))
                   (WaveTypes.energy_east (WaveTypes.energy r))
      /\ is_number (to_float (energy_vertical (energy r')))
                   (WaveTypes.energy_vertical (WaveTypes.energy r))
      /\ is_number (to_float (energy_horizontal_total (energy r')))
                   (WaveTypes.energy_horizontal_total (WaveTypes.energy r)))
  /\ (is_number (rms_north (rms r')) (WaveTypes.rms_north (WaveTypes.rms r))
      /\ is_number (rms_east (rms r')) (WaveTypes.rms_east (WaveTypes.rms r))
      /\ is_number (rms_vertical (rms r')) (WaveTypes.rms_vertical (WaveTypes.rms r))
      /\ is_number (rms_horizontal (rms r'))
                   (WaveTypes.rms_horizontal (WaveTypes.rms r))).

(** A float64 array of finite samples. *)
Definition finite_float (a : array) : Prop :=
  exists values, a = float_array values.

(** Every component that is present is a float64 array of finite
    samples. *)
Definition finite_floats (d : displacement_data) : Prop :=
  forall a, north d = Some a \/ east d = Some a \/ vertical d = Some a ->
            finite_float a.

(** A number between 0 and 1. *)
Definition in_unit_interval (s : sample) : Prop :=
  match s with
  | Fin x => 0 <= x /\ x <= 1
  | _ => False
  end.

(** Raw int32 counts, as stored when the response removal fails: one
    sample of 46341 counts on the north component and one of 40000 on
    the vertical. *)
Definition raw_counts : waveform_data :=
  {| displacement := Some {| north := Some (IntArray W32 [46341%Z]);
                             east := None;
                             vertical := Some (IntArray W32 [40000%Z]) |};
     time := Some [0];
     sampling_rate := Some 40 |}.

(** The same two samples as float64. *)
Definition float_counts : waveform_data :=
  {| displacement := Some {| north := Some (FloatArray [Fin 46341]);
                             east := None;
                             vertical := Some (FloatArray [Fin 40000]) |};
     time := Some [0];
     sampling_rate := Some 40 |}.

End WaveTypesArrays.

(** ** MagnitudeEstimator: [EnhancedSeismicProcessor.calculate_ms_magnitude]
    (seismic_processor.py, lines 524-720), over the reals

    The three arrays are float64 arrays of finite samples, the
    displacement in mm the docstring asks for, and the period is
    positive.  Outside this domain the code leaves the reals: on raw
    int32 counts [north_data**2 + east_data**2] wraps around
    ([int32_vector_amplitude]); a period of 0 gives an infinite magnitude,
    or a [ZeroDivisionError] at [1.0/period_s] when the filter is
    applied; a negative period gives NaN. *)

Module Ms.
Local Open Scope R_scope.

(** [np.log10]. *)
Definition log10 (x : R) : R := ln x / ln 10.

(** Round half to even. *)
Definition Rround_half_even (x : R) : Z :=
  let f := Zfloor x in
  let r := x - IZR f in
  if Rlt_dec r (1 / 2) then f
  else if Rlt_dec (1 / 2) r then (f + 1)%Z
  else if Z.even f then f else (f + 1)%Z.

(** [round(x, ndigits)]. *)
Definition py_round (x : R) (ndigits : nat) : R :=
  IZR (Rround_half_even (x * 10 ^ ndigits)) / 10 ^ ndigits.

(** Python's [max(a, b)]. *)
Definition py_max (a b : R) : R := if Rlt_dec a b then b else a.
(** Python's [min(a, b)]. *)
Definition py_min (a b : R) : R := if Rlt_dec b a then b else a.

(** [np.max(a)] of a non-empty array; 0 stands for the [ValueError] of an
    empty one, which the callers exclude. *)
Definition np_max (a : list R) : R :=
  match a with
  | [] => 0
  | x :: l => List.fold_left Rmax l x
  end.

(** [np.max(np.abs(a)) * 1000 if len(a) > 0 else 0]. *)
Definition peak_um (a : list R) : R :=
  match a with
  | [] => 0
  | _ => np_max (List.map Rabs a) * 1000
  end.

(** NumPy broadcasting of two one-dimensional arrays: equal lengths, or
    one of them of length one; [None] is the [ValueError] otherwise. *)
Definition broadcast (a b : list R) : option (list (R * R)) :=
  if Nat.eqb (length a) (length b) then Some (List.combine a b)
  else match a, b with
       | [x], _ => Some (List.map (fun y => (x, y)) b)
       | _, [y] => Some (List.map (fun x => (x, y)) a)
       | _, _ => None
       end.

(** The failure of the band-pass used inside the estimator: its status
    says success or gives the reason of the failure. *)
Inductive filter_status : Type :=
| FilterOk
| FilterFailed (r : Bandpass.reason).

Inductive ms_error : Type :=
| distance_too_short
| sampling_rate_too_low
| no_amplitude
| calculation_error.

(** The entries of ['validation']['issues']: the distance below 2000 km,
    the distance above 16000 km, the depth above 60 km. *)
Inductive issue : Type :=
| issue_distance_short
| issue_distance_long
| issue_depth.

Inductive component : Type := vertikal | horizontal.

Record amplitudes : Type := {
  amp_north : R;
  amp_east : R;
  amp_vertical : R;
  amp_horizontal : R;
  amp_used : R
}.

Record ms_parameters : Type := {
  period : R;
  period_is_standard : bool;
  distance_km : R;
  distance_deg : R;
  sampling_rate : R
}.

Record filter_info : Type := {
  applied : bool;
  low_freq : option R;
  high_freq : option R;
  nyquist : option R;
  center_freq : option R
}.

Record calculation : Type := {
  amplitude_period_ratio : R;
  log_amp_period : R;
  log_distance : R;
  distance_term : R;
  constant : R;
  raw_result : R
}.

Record depth_correction_info : Type := {
  depth_applied : bool;
  depth_km : option R;
  depth_correction : R
}.

Record distance_correction_info : Type := {
  distance_applied : bool;
  correction_distance_km : R;
  distance_correction : R;
  factor : R
}.

Record validation : Type := {
  issues : list issue;
  requires_correction : bool;
  is_standard_compliant : bool
}.

(** The explanation dictionary. *)
Record explanation : Type := {
  magnitude : R;
  used_component : component;
  amps : amplitudes;
  parameters : ms_parameters;
  filter : filter_info;
  calc : calculation;
  depth_corr : depth_correction_info;
  distance_corr : distance_correction_info;
  valid : validation
}.

(** [(None, error_dict)] or [(ms_magnitude, explanation)]. *)
Inductive ms_result : Type :=
| MsError (e : ms_error)
| MsValue (ms : R) (x : explanation).

(** Truth value of the optional depth in a condition and its comparison
    with a bound: [depth and depth > bound]. *)
Definition depth_above (depth : option R) (bound : R) : bool :=
  match depth with
  | None => false
  | Some d => if Req_dec_T d 0 then false else if Rlt_dec bound d then true else false
  end.

(** Lines 545-578: the validation issues and [requires_correction]. *)
Definition validate (distance_km : R) (earthquake_depth_km : option R)
    : list issue * bool :=
  let i1 := if Rlt_dec distance_km 2000 then [issue_distance_short] else [] in
  let i2 := if Rlt_dec 16000 distance_km then [issue_distance_long] else [] in
  let i3 := if depth_above earthquake_depth_km 60 then [issue_depth] else [] in
  ((i1 ++ i2 ++ i3)%list,
   (if Rlt_dec distance_km 2000 then true else false)
   || depth_above earthquake_depth_km 60).

(** Line 643-646: the depth correction. *)
Definition depth_correction_of (earthquake_depth_km : option R) : R :=
  match earthquake_depth_km with
  | Some d => if depth_above earthquake_depth_km 50 then -0.0035 * (d - 50) else 0
  | None => 0
  end.

(** Lines 649-656: the distance factor and correction. *)
Definition distance_factor_of (distance_km : R) : R :=
  if Rlt_dec distance_km 2000 then (2000 - distance_km) / 2000 else 0.

Definition distance_correction_of (distance_km : R) : R :=
  if Rlt_dec distance_km 2000 then 0.3 * distance_factor_of distance_km else 0.

Section WithFilter.

(** [self.apply_bandpass_filter(data, sampling_rate, low_freq, high_freq)]
    on real-valued data: the returned array and status. *)
Variable apply_bandpass_filter : list R -> R -> R -> R -> list R * filter_status.

Definition calculate_ms_magnitude (north_data east_data vertical_data : list R)
    (distance_km sampling_rate period : R) (earthquake_depth_km : option R)
    (apply_filter : bool) : ms_result :=
  let '(validation_issues, requires_correction) :=
    validate distance_km earthquake_depth_km in
  if Rlt_dec distance_km 200 then MsError distance_too_short
  else
    let nyquist := sampling_rate / 2 in
    if apply_filter && (if Rlt_dec nyquist 0.5 then true else false)
    then MsError sampling_rate_too_low
    else
      let low_freq := 0.02 in
      let high_freq := py_min 0.5 (nyquist * 0.9) in
      let '(vertical_data, north_data, east_data) :=
        if apply_filter then
          let '(vertical_data, _) :=
            apply_bandpass_filter vertical_data sampling_rate low_freq high_freq in
          let '(north_data, _) :=
            apply_bandpass_filter north_data sampling_rate low_freq high_freq in
          let '(east_data, _) :=
            apply_bandpass_filter east_data sampling_rate low_freq high_freq in
          (vertical_data, north_data, east_data)
        else (vertical_data, north_data, east_data) in
      let filter_applied := apply_filter in
      let max_vert := peak_um vertical_data in
      let max_north := peak_um north_data in
      let max_east := peak_um east_data in
      match
        match north_data, east_data with
        | _ :: _, _ :: _ =>
            match broadcast north_data east_data with
            | Some pairs =>
                Some (np_max (List.map (fun p => sqrt (fst p ^ 2 + snd p ^ 2) * 1000) pairs))
            | None => None (* ValueError, caught by the outer except *)
            end
        | _, _ => Some (py_max max_north max_east)
        end
      with
      | None => MsError calculation_error
      | Some max_horizontal =>
          let amplitude_um := py_max max_vert max_horizontal in
          let used_component :=
            if Rge_dec max_vert max_horizontal then vertikal else horizontal in
          if Req_dec_T amplitude_um 0 then MsError no_amplitude
          else
            let period_s := period in
            let distance_deg := distance_km / 111.195 in
            let log_amp_over_period := log10 (amplitude_um / period_s) in
            let log_distance := log10 distance_deg in
            let distance_term := 1.66 * log_distance in
            let ms_magnitude := log_amp_over_period + distance_term + 3.3 in
            let depth_correction := depth_correction_of earthquake_depth_km in
            let ms_magnitude := ms_magnitude + depth_correction in
            let distance_factor := distance_factor_of distance_km in
            let distance_correction := distance_correction_of distance_km in
            let ms_magnitude := ms_magnitude + distance_correction in
            let ms_magnitude := py_round ms_magnitude 1 in
            MsValue ms_magnitude
              {| magnitude := ms_magnitude;
                 used_component := used_component;
                 amps := {| amp_north := max_north;
                            amp_east := max_east;
                            amp_vertical := max_vert;
                            amp_horizontal := max_horizontal;
                            amp_used := amplitude_um |};
                 parameters :=
                   {| period := period_s;
                      period_is_standard :=
                        if Req_dec_T period_s 20 then true else false;
                      distance_km := distance_km;
                      distance_deg := distance_deg;
                      sampling_rate := sampling_rate |};
                 filter :=
                   {| applied := filter_applied;
                      low_freq := if apply_filter then Some low_freq else None;
                      high_freq := if apply_filter then Some high_freq else None;
                      nyquist := if apply_filter then Some nyquist else None;
                      center_freq :=
                        if filter_applied then Some (1 / period_s) else None |};
                 calc :=
                   {| amplitude_period_ratio := amplitude_um / period_s;
                      log_amp_period := log_amp_over_period;
                      log_distance := log_distance;
                      distance_term := distance_term;
                      constant := 3.3;
                      raw_result := log_amp_over_period + distance_term + 3.3 |};
                 depth_corr :=
                   {| depth_applied :=
                        if Req_dec_T depth_correction 0 then false else true;
                      depth_km := earthquake_depth_km;
                      depth_correction := depth_correction |};
                 distance_corr :=
                   {| distance_applied :=
                        if Rlt_dec 0 distance_correction then true else false;
                      correction_distance_km := distance_km;
                      distance_correction := distance_correction;
                      factor :=
                        if Rlt_dec distance_km 2000 then distance_factor else 0 |};
                 valid :=
                   {| issues := validation_issues;
                      requires_correction := requires_correction;
                      is_standard_compliant :=
                        Nat.eqb (length validation_issues) 0 |} |}
      end.


End WithFilter.

(** A float64 array without NaN or Inf, the displacement the estimator
    is written for: its samples are rationals, read as reals. *)
Definition float_samples (values : list Q) : list R := List.map Q2R values.

(** [np.sqrt(north_data**2 + east_data**2) * 1000] at one pair of int32
    samples: the squares and their sum wrap around to 32 bits, and the
    root of a negative sum is NaN ([None]). *)
Definition int32_vector_amplitude (north east : Z) : option R :=
  let s := WaveTypesArrays.wrap WaveTypesArrays.W32
             (WaveTypesArrays.wrap WaveTypesArrays.W32 (north * north)
              + WaveTypesArrays.wrap WaveTypesArrays.W32 (east * east)) in
  if (s <? 0)%Z then None else Some (sqrt (IZR s) * 1000).


(** [r1] is at most [r2]: both calls fail, or both return a magnitude
    and the first is not above the second. *)
Definition ms_le (r1 r2 : ms_result) : Prop :=
  match r1, r2 with
  | MsValue m1 _, MsValue m2 _ => m1 <= m2
  | MsError _, MsError _ => True
  | _, _ => False
  end.

(** A band-pass that rejects arrays of at most 27 samples, as
    [filtfilt] does for the 9 coefficients of a fourth-order band-pass,
    and passes longer ones through. *)
Definition short_data_filter (data : list R) (fs lo hi : R) : list R * filter_status :=
  if Nat.leb (length data) 27 then (data, FilterFailed Bandpass.filter_error)
  else (data, FilterOk).

End Ms.

(** * Further parts of the station selector and of the processor *)

Module StationsSearch.
Import PyNum Stations.
Local Open Scope Q_scope.

(** The result cache of the session holds nothing under [key]. *)
Definition not_cached (s : session_state) (key : string) : Prop :=
  match station_results s with
  | Some results => results !! key = None
  | None => True
  end.

(** The order of the sort keys on two stations. *)
Definition key_order (a b : station_data) : Prop :=
  key_le (sort_key a) (sort_key b) = true.

End StationsSearch.

(** ** [get_station_fallback_stats] (data_manager.py, lines 589-601) *)

Module FallbackStats.
Import PyNum Stations.
Local Open Scope Q_scope.

Record fallback_stats : Type := {
  failed_stations : nat;
  total_searches : nat;
  success_rate : Q
}.

Definition get_station_fallback_stats (s : session_state) : fallback_stats :=
  let failed : gset string :=
    match failed_station_downloads s with Some f => f | None => ∅ end in
  let total_searched :=
    size (match station_results s with Some r => r | None => ∅ end) in
  {| failed_stations := size failed;
     total_searches := total_searched;
     success_rate :=
       inject_Z (Z.of_nat total_searched - Z.of_nat (size failed))
       / inject_Z (Z.of_nat (Nat.max total_searched 1)) * 100 |}.

End FallbackStats.

(** ** The time-stamped caches (data_manager.py, lines 1917-1942) *)

Module Cache.
Import PyNum.
Local Open Scope Q_scope.

Section WithData.

(** The cached values. *)
Variable D : Type.

(** A cache is a Python dictionary from keys to [(data, timestamp)]:
    the items in insertion order.  Times are in seconds. *)
Definition cache : Type := list (string * (D * Q)).

(** The entries of [st.session_state] that hold caches, by cache
    type. *)
Definition session : Type := gmap string cache.

(** [cache[key]], if [key in cache]. *)
Fixpoint dict_lookup (c : cache) (key : string) : option (D * Q) :=
  match c with
  | [] => None
  | (k, v) :: c' => if String.eqb k key then Some v else dict_lookup c' key
  end.

(** [cache[key] = v]: an existing key keeps its place, a new one goes to
    the end. *)
Fixpoint dict_set (c : cache) (key : string) (v : D * Q) : cache :=
  match c with
  | [] => [(key, v)]
  | (k, w) :: c' =>
      if String.eqb k key then (k, v) :: c' else (k, w) :: dict_set c' key v
  end.

(** [dict(items)]. *)
Definition dict_of (items : list (string * (D * Q))) : cache :=
  List.fold_left (fun acc kv => dict_set acc (fst kv) (snd kv)) items [].

(** [sorted(items, key=lambda x: x[1][1], reverse=True)]: by timestamp,
    newest first; items of equal timestamp keep their order. *)
Fixpoint insert_newest (x : string * (D * Q)) (l : list (string * (D * Q)))
    : list (string * (D * Q)) :=
  match l with
  | [] => [x]
  | y :: l' =>
      if Qleb (snd (snd x)) (snd (snd y)) then y :: insert_newest x l' else x :: l
  end.

Definition sorted_newest_first (items : list (string * (D * Q)))
    : list (string * (D * Q)) :=
  List.fold_left (fun acc x => insert_newest x acc) items [].

(** [_check_cache(cache_type, key, max_age_hours)] at the time [now]. *)
Definition _check_cache (st : session) (cache_type key : string) (now : Q)
    (max_age_hours : Q) : option D :=
  let cache := match st !! cache_type with Some c => c | None => [] end in
  match dict_lookup cache key with
  | Some (data, timestamp) =>
      let age := (now - timestamp) / 3600 in
      if Qltb age max_age_hours then Some data else None
  | None => None
  end.

(** [_clean_cache(cache_type, max_entries)]. *)
Definition _clean_cache (st : session) (cache_type : string) (max_entries : nat)
    : session :=
  let cache := match st !! cache_type with Some c => c | None => [] end in
  if Nat.ltb max_entries (length cache) then
    let sorted_items := sorted_newest_first cache in
    <[cache_type := dict_of (List.firstn max_entries sorted_items)]> st
  else st.

(** [_update_cache(cache_type, key, data)] at the time [now]. *)
Definition _update_cache (st : session) (cache_type key : string) (data : D)
    (now : Q) : session :=
  let st := match st !! cache_type with
            | Some _ => st
            | None => <[cache_type := []]> st
            end in
  let cache := match st !! cache_type with Some c => c | None => [] end in
  let st := <[cache_type := dict_set cache key (data, now)]> st in
  _clean_cache st cache_type 50.

(** The cache of a type, empty when the session has none. *)
Definition cache_of (st : session) (cache_type : string) : cache :=
  match st !! cache_type with Some c => c | None => [] end.

(** All entries of a cache are older than [now]. *)
Definition older_than (now : Q) (c : cache) : Prop :=
  List.Forall (fun kv => snd (snd kv) < now) c.

End WithData.

(** Three entries written at the times 10, 20 and 30. *)
Definition three_entries : session nat :=
  {[ "earthquake_cache"%string :=
       [("a"%string, (1%nat, 10)); ("b"%string, (2%nat, 20));
        ("c"%string, (3%nat, 30))] ]}.

End Cache.

(** ** Detailed surface waves of one station (data_manager.py,
    lines 656-704) *)

Module DetailedStation.
Import PyNum.
Local Open Scope Q_scope.

(** The entries of the earthquake dictionary the calculation reads. *)
Record earthquake : Type := {
  depth : option Q;
  magnitude : option Q
}.

(** A station dictionary as the search built it, with the entries the
    detailed calculation adds; an entry that is missing is [None]. *)
Record station : Type := {
  basic : Stations.station_data;
  love_velocity : option Q;
  rayleigh_velocity : option Q;
  surface_factors : option SurfaceWaves.calculation_factors;
  detailed_calculated : option bool
}.

(** [station.get('detailed_calculated', False)] as a condition. *)
Definition is_calculated (s : station) : bool :=
  match detailed_calculated s with Some b => b | None => false end.

(** The three arrival entries of the station dictionary replaced. *)
Definition with_arrivals (love rayleigh surface : Q) (b : Stations.station_data)
    : Stations.station_data :=
  {| Stations.network := Stations.network b;
     Stations.station := Stations.station b;
     Stations.sta_latitude := Stations.sta_latitude b;
     Stations.sta_longitude := Stations.sta_longitude b;
     Stations.distance_deg := Stations.distance_deg b;
     Stations.distance_km := Stations.distance_km b;
     Stations.azimuth := Stations.azimuth b;
     Stations.p_arrival := Stations.p_arrival b;
     Stations.s_arrival := Stations.s_arrival b;
     Stations.love_arrival := love;
     Stations.rayleigh_arrival := rayleigh;
     Stations.surface_arrival := surface;
     Stations.network_priority := Stations.network_priority b;
     Stations.channel_priority := Stations.channel_priority b;
     Stations.data_source := Stations.data_source b;
     Stations.operational_years := Stations.operational_years b |}.

Definition calculate_detailed_surface_waves_for_station (s : station)
    (eq : earthquake) : station :=
  if is_calculated s then s
  else
    let distance_km := Stations.distance_km (basic s) in
    let eq_depth := match depth eq with Some d => d | None => 10.0 end in
    let magnitude := match magnitude eq with Some m => m | None => 6.5 end in
    let p_arrival := Stations.p_arrival (basic s) in
    let s_arrival := Stations.s_arrival (basic s) in
    let surface_waves :=
      SurfaceWaves.calculate_surface_wave_velocities distance_km eq_depth magnitude
        p_arrival s_arrival in
    {| basic := with_arrivals (SurfaceWaves.love_arrival surface_waves)
                  (SurfaceWaves.rayleigh_arrival surface_waves)
                  (SurfaceWaves.surface_arrival surface_waves) (basic s);
       love_velocity := Some (SurfaceWaves.love_velocity surface_waves);
       rayleigh_velocity := Some (SurfaceWaves.rayleigh_velocity surface_waves);
       surface_factors := Some (SurfaceWaves.factors surface_waves);
       detailed_calculated := Some true |}.

Definition get_station_with_detailed_calculations (s : station) (eq : earthquake)
    : station :=
  if negb (is_calculated s)
  then calculate_detailed_surface_waves_for_station s eq
  else s.

(** The station of the three-station inventory nearest to the event, as
    the search returns it. *)
Definition searched_station : station :=
  {| basic := Stations.first_station;
     love_velocity := None;
     rayleigh_velocity := None;
     surface_factors := None;
     detailed_calculated := None |}.

End DetailedStation.

(** ** [design_custom_filter] (seismic_processor.py, lines 808-824) *)

Module CustomFilter.
Import PyNum.
Local Open Scope Q_scope.

(** [self.filter_bands]. *)
Definition filter_bands : list (string * option (Q * Q)) :=
  [("broadband", None);
   ("p_waves", Some (1.0, 10.0));
   ("s_waves", Some (0.5, 5.0));
   ("surface", Some (0.02, 0.5));
   ("long_period", Some (0.005, 0.1))]%string.

(** [d[key]] if [key in d]. *)
Fixpoint band_of (d : list (string * option (Q * Q))) (key : string)
    : option (option (Q * Q)) :=
  match d with
  | [] => None
  | (k, v) :: d' => if String.eqb k key then Some v else band_of d' key
  end.

(** The result: [(None, None, "No filter")], [(None, None, "Unknown
    filter")], an exception (division by a zero Nyquist frequency, or
    [butter] rejecting the corners), or the coefficients with the corner
    frequencies named in the label. *)
Inductive custom_design (coeffs : Type) : Type :=
| NoFilter
| UnknownFilter
| Raised
| Designed (ba : coeffs) (low_freq high_freq : Q).

Arguments NoFilter {coeffs}.
Arguments UnknownFilter {coeffs}.
Arguments Raised {coeffs}.
Arguments Designed {coeffs} ba low_freq high_freq.

Section WithSciPy.

Variable coeffs : Type.
(** [scipy.signal.butter(order, Wn, btype)]; [None] when it raises. *)
Variable butter : nat -> list Q -> Bandpass.btype -> option coeffs.

Definition design_custom_filter (filter_type : string) (sampling_rate : Q)
    (order : nat) : custom_design coeffs :=
  let nyquist := sampling_rate / 2.0 in
  match band_of filter_bands filter_type with
  | None => UnknownFilter
  | Some None => NoFilter
  | Some (Some (low_freq, high_freq)) =>
      let high_freq :=
        if Qltb (nyquist * 0.95) high_freq then nyquist * 0.9 else high_freq in
      if Qeqb nyquist 0 then Raised (* ZeroDivisionError *)
      else
        match butter order [low_freq / nyquist; high_freq / nyquist] Bandpass.band with
        | Some ba => Designed ba low_freq high_freq
        | None => Raised
        end
  end.

End WithSciPy.

(** A stand-in for [butter] that accepts exactly the increasing corner
    pairs inside (0, 1), and returns them. *)
Definition checking_butter (order : nat) (Wn : list Q) (bt : Bandpass.btype)
    : option (Q * Q) :=
  match Wn with
  | [lo; hi] => if Qltb 0 lo && Qltb lo hi && Qltb hi 1 then Some (lo, hi) else None
  | _ => None
  end.

End CustomFilter.

(** ** [validate_earthquake_timing] (seismic_processor.py, lines 722-806) *)

Module Timing.
Import PyNum.
Local Open Scope Q_scope.

(** The ['p_arrival'] entry of the station: missing or [None]; a number
    of seconds; a text that contains "UTCDateTime", with the seconds
    after the earthquake it converts to ([None] when the pattern does
    not match or the conversion raises); anything else. *)
Inductive p_arrival_value : Type :=
| PMissing
| PSeconds (t : Q)
| PUtcText (converted : option Q)
| POther.

Inductive timing_message : Type :=
| MissingPArrival
| TimingValidated
| LargeTimingDifference
| CouldNotValidate.

Record timing_info : Type := {
  expected_p_time : Q;
  observed_p_time : Q;
  time_difference : Q;
  threshold : Q;
  distance_km : Q
}.

(** [validate_earthquake_timing(earthquake, station, waveform_data)]:
    [time_parses] is false when the earthquake time is a text that
    [UTCDateTime] rejects; [distance] is the ['distance_km'] entry of the
    station.  The info dictionary is empty ([None]) when nothing was
    compared. *)
Definition validate_earthquake_timing (time_parses : bool) (distance : option Q)
    (p_arrival : p_arrival_value) : bool * timing_message * option timing_info :=
  let on_error := (true, CouldNotValidate, None) in
  if negb time_parses then on_error
  else
    let distance_km := match distance with Some d => d | None => 0 end in
    let compare (p_arrival_seconds : Q) :=
      let avg_p_velocity := 7.5 in
      let expected_p_time := distance_km / avg_p_velocity in
      let time_diff := Qabs (p_arrival_seconds - expected_p_time) in
      let threshold := py_max (expected_p_time * 0.1) 5.0 in
      let is_valid := Qltb time_diff threshold in
      (is_valid,
       if is_valid then TimingValidated else LargeTimingDifference,
       Some {| expected_p_time := expected_p_time;
               observed_p_time := p_arrival_seconds;
               time_difference := time_diff;
               threshold := threshold;
               distance_km := distance_km |}) in
    match p_arrival with
    | PUtcText (Some t) => compare t
    | PUtcText None => on_error (* the name is unbound, or the conversion raises *)
    | PSeconds t => compare t
    | PMissing | POther => (true, MissingPArrival, None)
    end.

End Timing.

(** ** [calculate_wave_arrivals] (GEOseis.py, lines 506-570) *)

Module WaveArrivals.
Import PyNum.
Local Open Scope Q_scope.

(** The returned dictionary: every entry is set by the end of the
    function. *)
Record arrivals : Type := {
  P : Q;
  S : Q;
  Surface : Q
}.

(** [phase_name in [...]]. *)
Definition name_in (name : string) (names : list string) : bool :=
  List.existsb (String.eqb name) names.

(** The loop over the TauP arrivals: the first time of a P phase and
    the first time of an S phase. *)
Fixpoint first_phases (arrivals_taup : list (string * Q)) (p s : option Q)
    : option Q * option Q :=
  match arrivals_taup with
  | [] => (p, s)
  | (phase_name, t) :: rest =>
      if name_in phase_name ["P"; "Pn"; "Pg"]%string
         && match p with None => true | Some _ => false end
      then first_phases rest (Some t) s
      else if name_in phase_name ["S"; "Sn"; "Sg"]%string
              && match s with None => true | Some _ => false end
      then first_phases rest p (Some t)
      else first_phases rest p s
  end.

Section WithTauP.

(** [self.taup_model]: [None] when there is no model; otherwise
    [get_travel_times(depth, degrees, ['P', 'S'])], the phase names with
    their times, or [None] when it raises. *)
Variable taup_model : option (Q -> Q -> option (list (string * Q))).

Definition calculate_wave_arrivals (distance_deg depth_km : Q) : arrivals :=
  let '(p, s, surface) :=
    match taup_model with
    | Some get_travel_times =>
        match get_travel_times depth_km distance_deg with
        | Some arrivals_taup =>
            let '(p, s) := first_phases arrivals_taup None None in
            (p, s,
             if Qltb 5 distance_deg
             then Some (distance_deg * 111.32 / 3.5)
             else None)
        | None => (None, None, None) (* except Exception *)
        end
    | None => (None, None, None)
    end in
  {| P := match p with Some t => t | None => distance_deg * 111.32 / 8.0 end;
     S := match s with Some t => t | None => distance_deg * 111.32 / 4.5 end;
     Surface := match surface with
                | Some t => t
                | None => distance_deg * 111.32 / 3.5
                end |}.

End WithTauP.

End WaveArrivals.

(** ** [process_waveform_with_filtering] (seismic_processor.py,
    lines 218-373), on arrays of finite samples *)

Module Pipeline.
Import PyNum.
Local Open Scope Q_scope.

(** The waveform dictionary: the sampling rate, the high-resolution
    arrays by channel suffix, whether another key starts with
    "waveform_", the displacement arrays, and whether there is any other
    key.  A key that is missing is [None]. *)
Record waveform_data : Type := {
  sampling_rate : option Q;
  waveform_N : option (list Q);
  waveform_1 : option (list Q);
  waveform_E : option (list Q);
  waveform_2 : option (list Q);
  waveform_Z : option (list Q);
  waveform_3 : option (list Q);
  other_waveform_key : bool;
  displacement_data : option WaveTypes.displacement_data;
  other_key : bool
}.

(** The [filter_type] argument: a tuple of two corners, or a name. *)
Inductive filter_choice : Type :=
| Custom (low_freq high_freq : option Q)
| Named (name : string).

Inductive filter_label : Type :=
| CustomLabel (low_freq high_freq : option Q)
| BandLabel (name : string)
| BroadbandLabel.

Record filter_info : Type := {
  label : filter_label;
  low_freq : option Q;
  high_freq : option Q;
  info_sampling_rate : Q
}.

(** The entry of ['filter_status'] for a component: "no_data",
    "success", the reason of a failed filter, or "error: ..." *)
Inductive component_status : Type :=
| no_data
| success
| failed (r : Bandpass.reason)
| error.

(** The entry of ['noise_info']; the noise level is [None] when it is
    NaN. *)
Record noise : Type := {
  noise_level : option Q;
  signal_level : Q;
  snr : Q
}.

(** What the result holds for one component; an entry that was not
    written is [None]. *)
Record component_result : Type := {
  original_data : option (list Q);
  filtered_data : option (list Bandpass.sample);
  spike_info : option nat;
  noise_info : option noise;
  filter_status : option component_status
}.

Record processed_data : Type := {
  north : component_result;
  east : component_result;
  vertical : component_result;
  info : filter_info;
  used_highres : bool
}.

Inductive component : Type := North | East | Vertical.

(** The values of an array that holds no NaN or Inf. *)
Definition finite_values (a : list Bandpass.sample) : list Q :=
  List.flat_map (fun s => match s with Bandpass.Fin q => [q] | _ => [] end) a.

Section WithLibraries.

Variable coeffs : Type.
Variable butter : nat -> list Q -> Bandpass.btype -> option coeffs.
Variable filtfilt : coeffs -> list Bandpass.sample -> Bandpass.filtfilt_result.
(** [np.std]; [None] is the NaN of an empty array. *)
Variable np_std : list Q -> option Q.

(** The search for the data of a component (lines 276-297). *)
Definition find_data (w : waveform_data) (has_highres : bool) (c : component)
    : option (list Q) :=
  let first (a b : option (list Q)) :=
    match a with Some _ => a | None => b end in
  let highres :=
    if has_highres then
      match c with
      | North => first (waveform_N w) (waveform_1 w)
      | East => first (waveform_E w) (waveform_2 w)
      | Vertical => first (waveform_Z w) (waveform_3 w)
      end
    else None in
  match highres with
  | Some _ => highres
  | None =>
      match displacement_data w with
      | Some d =>
          match c with
          | North => WaveTypes.north d
          | East => WaveTypes.east d
          | Vertical => WaveTypes.vertical d
          end
      | None => None
      end
  end.

(** The body of the loop over the components (lines 274-371). *)
Definition process_component (w : waveform_data) (has_highres : bool)
    (sampling_rate : Q) (low_freq high_freq : option Q)
    (remove_spikes calculate_noise : bool) (c : component) : component_result :=
  match find_data w has_highres c with
  | None =>
      {| original_data := None; filtered_data := None; spike_info := None;
         noise_info := None; filter_status := Some no_data |}
  | Some data =>
      let original := data in
      let '(data, spike_count) :=
        if remove_spikes
        then let '(data_cleaned, spike_count) := Spikes.remove_spikes data None in
             (data_cleaned, Some spike_count)
        else (data, None) in
      let '(filtered, filter_success, status) :=
        match low_freq, high_freq with
        | None, None => (List.map Bandpass.Fin data, true, success)
        | _, _ =>
            let '(filtered, filter_result) :=
              Bandpass.apply_bandpass_filter coeffs butter filtfilt
                (List.map Bandpass.Fin data) sampling_rate low_freq high_freq None in
            match filter_result with
            | Bandpass.Success _ _ => (filtered, true, success)
            | Bandpass.Failure r => (filtered, false, failed r)
            end
        end in
      if calculate_noise && filter_success then
        let values := finite_values filtered in
        let noise_level :=
          np_std (WaveTypes.py_slice values 0 (py_int (5 * sampling_rate))) in
        match Spikes.np_max (List.map Qabs values) with
        | None => (* ValueError of np.max, caught by the except clause *)
            {| original_data := Some original;
               filtered_data := Some (List.map Bandpass.Fin original);
               spike_info := spike_count;
               noise_info := None;
               filter_status := Some error |}
        | Some signal_level =>
            let snr :=
              match noise_level with
              | Some n => if Qltb 0 n then signal_level / n else 0
              | None => 0
              end in
            {| original_data := Some original;
               filtered_data := Some filtered;
               spike_info := spike_count;
               noise_info := Some {| noise_level := noise_level;
                                     signal_level := signal_level;
                                     snr := snr |};
               filter_status := Some status |}
        end
      else
        {| original_data := Some original;
           filtered_data := Some filtered;
           spike_info := spike_count;
           noise_info := None;
           filter_status := Some status |}
  end.

Definition process_waveform_with_filtering (w : waveform_data)
    (filter_type : filter_choice) (remove_spikes calculate_noise : bool)
    : option processed_data :=
  let has_highres :=
    match waveform_N w, waveform_1 w, waveform_E w, waveform_2 w,
          waveform_Z w, waveform_3 w with
    | None, None, None, None, None, None => other_waveform_key w
    | _, _, _, _, _, _ => true
    end in
  let is_empty :=
    negb has_highres && negb (other_key w)
    && match sampling_rate w, displacement_data w with
       | None, None => true
       | _, _ => false
       end in
  if is_empty then None
  else
    let sampling_rate :=
      match sampling_rate w with Some r => r | None => 100.0 end in
    let '(low_freq, high_freq, filter_name) :=
      match filter_type with
      | Custom low_freq high_freq =>
          (low_freq, high_freq, CustomLabel low_freq high_freq)
      | Named name =>
          match CustomFilter.band_of CustomFilter.filter_bands name with
          | Some (Some (low_freq, high_freq)) =>
              (Some low_freq, Some high_freq, BandLabel name)
          | Some None => (None, None, BroadbandLabel)
          | None => (None, None, BroadbandLabel)
          end
      end in
    let run := process_component w has_highres sampling_rate low_freq high_freq
                 remove_spikes calculate_noise in
    Some {| north := run North;
            east := run East;
            vertical := run Vertical;
            info := {| label := filter_name;
                       low_freq := low_freq;
                       high_freq := high_freq;
                       info_sampling_rate := sampling_rate |};
            used_highres := has_highres |}.

End WithLibraries.

(** The result of one component. *)
Definition component_of (pd : processed_data) (c : component) : component_result :=
  match c with
  | North => north pd
  | East => east pd
  | Vertical => vertical pd
  end.

(** A record of three displacement components of 40 samples, the
    vertical one with a spike. *)
Definition three_components : waveform_data :=
  {| sampling_rate := Some 1;
     waveform_N := None; waveform_1 := None;
     waveform_E := None; waveform_2 := None;
     waveform_Z := None; waveform_3 := None;
     other_waveform_key := false;
     displacement_data :=
       Some {| WaveTypes.north := Some (List.repeat 1 40);
               WaveTypes.east := Some (List.repeat 2 40);
               WaveTypes.vertical :=
                 Some ([0; 1; 2; 1; 0; 100; 0; 1; 2; 1] ++ List.repeat 1 30) |};
     other_key := false |}.

End Pipeline.

(** * Properties *)

(** ** Comparisons and rounding on [Q] *)

Module PyNumFacts.
Import PyNum.

Lemma Qltb_lt a b : Qltb a b = true <-> (a < b)%Q.
Proof.
  unfold Qltb. rewrite negb_true_iff.
  split; intros H.
  - apply Qnot_le_lt. intros Hle. apply Qle_bool_iff in Hle. congruence.
  - destruct (Qle_bool b a) eqn:E; [|reflexivity].
    apply Qle_bool_iff in E. exfalso. apply (Qlt_not_le _ _ H E).
Qed.

Lemma Qltb_ge a b : Qltb a b = false <-> (b <= a)%Q.
Proof.
  unfold Qltb. rewrite negb_false_iff. apply Qle_bool_iff.
Qed.

Lemma Qleb_le a b : Qleb a b = true <-> (a <= b)%Q.
Proof. apply Qle_bool_iff. Qed.

Lemma Qleb_gt a b : Qleb a b = false <-> (b < a)%Q.
Proof.
  unfold Qleb. split; intros H.
  - apply Qnot_le_lt. intros Hle. apply Qle_bool_iff in Hle. congruence.
  - destruct (Qle_bool a b) eqn:E; [|reflexivity].
    apply Qle_bool_iff in E. exfalso. apply (Qlt_not_le _ _ H E).
Qed.

End PyNumFacts.

(** ** Band-pass: corner validation, length and finiteness *)

Module BandpassFacts.
Import PyNum PyNumFacts Bandpass.
Local Open Scope Q_scope.

Lemma existsb_false_forallb {A} (p q : A -> bool) (l : list A) :
  (forall a, p a = false -> q a = true) ->
  List.existsb p l = false -> List.forallb q l = true.
Proof.
  intros Hpq. induction l as [|a l IH]; simpl; [reflexivity|].
  intros H. apply orb_false_iff in H as [Ha Hl].
  rewrite (Hpq a Ha), (IH Hl). reflexivity.
Qed.

Lemma has_nonfinite_false_forallb (a : list sample) :
  has_nonfinite a = false -> List.forallb isfinite a = true.
Proof.
  unfold has_nonfinite. intros H. apply orb_false_iff in H as [Hn Hi].
  induction a as [|s a IH]; simpl in *; [reflexivity|].
  apply orb_false_iff in Hn as [Hn1 Hn2].
  apply orb_false_iff in Hi as [Hi1 Hi2].
  rewrite (IH Hn2 Hi2). destruct s; simpl in *; congruence.
Qed.

Lemma forallb_filter_id {A} (p : A -> bool) (l : list A) :
  List.forallb p l = true -> List.filter p l = l.
Proof.
  induction l as [|a l IH]; simpl; [reflexivity|].
  intros H. apply andb_true_iff in H as [Ha Hl].
  rewrite Ha, (IH Hl). reflexivity.
Qed.

Lemma forallb_filter {A} (p : A -> bool) (l : list A) :
  List.forallb p (List.filter p l) = true.
Proof.
  induction l as [|a l IH]; simpl; [reflexivity|].
  destruct (p a) eqn:E; simpl; [rewrite E|]; assumption.
Qed.

(** The array that reaches the filter holds the finite samples of the
    input, in order. *)
Lemma clean_nonfinite_Some (data c : list sample) :
  clean_nonfinite data = Some c -> c = List.filter isfinite data.
Proof.
  unfold clean_nonfinite. destruct (has_nonfinite data) eqn:E.
  - destruct (Qltb _ _); intros H; inversion H; reflexivity.
  - intros H. inversion H. subst c. symmetry.
    apply forallb_filter_id, has_nonfinite_false_forallb, E.
Qed.

(** Data of which at least half is finite passes the non-finite check. *)
Lemma clean_nonfinite_half (data : list sample) :
  (length data <= 2 * length (List.filter isfinite data))%nat ->
  clean_nonfinite data = Some (List.filter isfinite data).
Proof.
  intros Hhalf. unfold clean_nonfinite.
  destruct (has_nonfinite data) eqn:E.
  - destruct (Qltb _ _) eqn:Hlt; [|reflexivity].
    exfalso. apply Qltb_lt in Hlt.
    unfold Qlt in Hlt. simpl in Hlt. lia.
  - f_equal. symmetry.
    apply forallb_filter_id, has_nonfinite_false_forallb, E.
Qed.

Section WithSciPy.

Variable coeffs : Type.
Variable butter : nat -> list Q -> btype -> option coeffs.
Variable filtfilt : coeffs -> list sample -> filtfilt_result.

Abbreviation design_filter := (design_filter coeffs butter).
Abbreviation apply_bandpass_filter := (apply_bandpass_filter coeffs butter filtfilt).
Abbreviation filtfilt_keeps_length := (filtfilt_keeps_length coeffs filtfilt).

(** A successful status carries the filter type and corners chosen by the
    design step. *)
Lemma success_design data fs lo hi ord ft p :
  snd (apply_bandpass_filter data fs lo hi ord) = Success ft p ->
  exists ba,
    design_filter fs lo hi (match ord with None => filter_order | Some n => n end)
      = Designed ba ft (low_freq p) (high_freq p).
Proof.
  unfold Bandpass.apply_bandpass_filter.
  destruct (Nat.eqb (length data) 0); [discriminate|].
  destruct (clean_nonfinite data) as [c|]; [|discriminate].
  destruct (Bandpass.design_filter _ _ _ _ _ _) as [r| |ba ft' lo' hi'];
    [discriminate|discriminate|].
  destruct (filtfilt ba c) as [y| |]; [|discriminate|discriminate].
  destruct (has_nonfinite y); [discriminate|].
  simpl. intros H. inversion H. subst. simpl. exists ba. reflexivity.
Qed.

(** With two corners [0 < lo < hi] and [hi] at or above 95 % of Nyquist,
    the design step clamps [hi] to 90 % of Nyquist only while [hi] is
    below Nyquist; from Nyquist on it designs a low-pass at [lo] and
    leaves [hi] as it is. *)
Lemma design_high_corner fs lo hi ord ba ft lo' hi' :
  (0 < lo)%Q -> (lo < hi)%Q -> (fs / 2 * 0.95 <= hi)%Q ->
  design_filter fs (Some lo) (Some hi) ord = Designed ba ft lo' hi' ->
  (ft, hi') = if Qltb hi (fs / 2)
              then (bandpass, Some (fs / 2 * 0.9)%Q)
              else (lowpass, Some hi).
Proof.
  intros Hlo Hlh Hhi. unfold Bandpass.design_filter.
  assert (E1 : Qleb lo 0 = false) by (apply Qleb_gt; exact Hlo).
  rewrite E1.
  destruct (Qltb hi (fs / 2)) eqn:Eny.
  - assert (E2 : Qleb (fs / 2) hi = false)
      by (apply Qleb_gt, Qltb_lt; exact Eny).
    rewrite E2.
    assert (E3 : Qleb hi lo = false) by (apply Qleb_gt; exact Hlh).
    rewrite E3.
    assert (E4 : Qleb (fs / 2 * 0.95) hi = true) by (apply Qleb_le; exact Hhi).
    rewrite E4.
    destruct (butter _ _ _); [|discriminate].
    intros H. inversion H. reflexivity.
  - assert (E2 : Qleb (fs / 2) hi = true)
      by (apply Qleb_le, Qltb_ge; exact Eny).
    rewrite E2.
    destruct (Qleb (fs / 2 * 0.95) lo); [discriminate|].
    destruct (butter _ _ _); [|discriminate].
    intros H. inversion H. reflexivity.
Qed.

(** The same, read off the status of a successful call. *)
Lemma success_high_corner data fs lo hi ord ft p :
  (0 < lo)%Q -> (lo < hi)%Q -> (fs / 2 * 0.95 <= hi)%Q ->
  snd (apply_bandpass_filter data fs (Some lo) (Some hi) ord) = Success ft p ->
  (ft, high_freq p) = if Qltb hi (fs / 2)
                      then (bandpass, Some (fs / 2 * 0.9)%Q)
                      else (lowpass, Some hi).
Proof.
  intros Hlo Hlh Hhi Hs.
  destruct (success_design _ _ _ _ _ _ _ Hs) as [ba Hd].
  exact (design_high_corner _ _ _ _ _ _ _ _ Hlo Hlh Hhi Hd).
Qed.

(** Every array the function returns is either the array that reached the
    filter or a finite output of [filtfilt]. *)
Lemma output_cases data fs lo hi ord :
  let out := fst (apply_bandpass_filter data fs lo hi ord) in
  out = data \/
  out = List.filter isfinite data \/
  (exists ba, filtfilt ba (List.filter isfinite data) = FiltOut out
              /\ has_nonfinite out = false).
Proof.
  unfold Bandpass.apply_bandpass_filter.
  destruct (Nat.eqb (length data) 0); [left; reflexivity|].
  destruct (clean_nonfinite data) as [c|] eqn:Ec; [|left; reflexivity].
  apply clean_nonfinite_Some in Ec. subst c.
  destruct (Bandpass.design_filter _ _ _ _ _ _) as [r| |ba ft' lo' hi'];
    [right; left; reflexivity|right; left; reflexivity|].
  destruct (filtfilt ba _) as [y| |] eqn:Ef;
    [|right; left; reflexivity|right; left; reflexivity].
  destruct (has_nonfinite y) eqn:Ey; [right; left; reflexivity|].
  right; right. exists ba. split; assumption.
Qed.

(** Length and finiteness of the returned array when at most half of
    the input is non-finite. *)
Lemma output_length_finite data fs lo hi ord :
  filtfilt_keeps_length ->
  (length data <= 2 * length (List.filter isfinite data))%nat ->
  length (fst (apply_bandpass_filter data fs lo hi ord))
    = length (List.filter isfinite data)
  /\ List.forallb isfinite (fst (apply_bandpass_filter data fs lo hi ord)) = true.
Proof.
  intros Hlen Hhalf.
  unfold Bandpass.apply_bandpass_filter.
  destruct (Nat.eqb (length data) 0) eqn:E0.
  - apply Nat.eqb_eq in E0. destruct data; [|discriminate].
    simpl. split; reflexivity.
  - rewrite (clean_nonfinite_half _ Hhalf).
    destruct (Bandpass.design_filter _ _ _ _ _ _) as [r| |ba ft' lo' hi'];
      simpl; try (split; [reflexivity|apply forallb_filter]).
    destruct (filtfilt ba _) as [y| |] eqn:Ef;
      simpl; try (split; [reflexivity|apply forallb_filter]).
    destruct (has_nonfinite y) eqn:Ey;
      simpl; try (split; [reflexivity|apply forallb_filter]).
    split.
    + exact (Hlen _ _ _ Ef).
    + apply has_nonfinite_false_forallb, Ey.
Qed.


(** C1 (amended).  For corners [0 < f_lo < f_hi] with
    [f_hi >= 0.95*(fs/2)], a successful call reports a band-pass whose
    [high_freq] is clamped to [0.9*(fs/2)] when [f_hi < fs/2], and a
    low-pass whose [high_freq] is the unchanged [f_hi] when
    [f_hi >= fs/2]. *)
Theorem bandpass_high_corner data fs lo hi ord ft p :
  (0 < lo)%Q -> (lo < hi)%Q -> (fs / 2 * 0.95 <= hi)%Q ->
  snd (apply_bandpass_filter data fs (Some lo) (Some hi) ord) = Success ft p ->
  (ft, high_freq p) = if Qltb hi (fs / 2)
                      then (bandpass, Some (fs / 2 * 0.9)%Q)
                      else (lowpass, Some hi).
Proof. apply success_high_corner. Qed.

(** C3 (amended).  When at most half of the samples of [x] are
    non-finite, the returned array has as many samples as [x] has finite
    ones (the non-finite ones are dropped, so the length is that of [x]
    only if [x] is finite throughout) and holds no NaN or Inf. *)
Theorem bandpass_length_finite data fs lo hi ord :
  filtfilt_keeps_length ->
  (length data <= 2 * length (List.filter isfinite data))%nat ->
  length (fst (apply_bandpass_filter data fs lo hi ord))
    = length (List.filter isfinite data)
  /\ List.forallb isfinite (fst (apply_bandpass_filter data fs lo hi ord)) = true.
Proof. apply output_length_finite. Qed.

End WithSciPy.

(** C1 (as stated) fails: at [fs = 1.0], [0.1], [0.6] no input array and
    no SciPy make the status a band-pass with [high_freq = 0.45]. *)
Lemma E6_not_bandpass :
  ~ (exists coeffs butter filtfilt x, E6_status_claimed coeffs butter filtfilt x).
Proof.
  intros (coeffs & butter & filtfilt & x & p & Hs & _).
  apply (success_high_corner coeffs butter filtfilt) in Hs;
    [|reflexivity|reflexivity|discriminate].
  vm_compute in Hs. discriminate.
Qed.

Lemma ref_filtfilt_keeps_length : filtfilt_keeps_length nat ref_filtfilt.
Proof.
  intros ba x y. unfold ref_filtfilt.
  destruct (Nat.leb _ _); [discriminate|].
  intros H. inversion H. reflexivity.
Qed.

(** With the stand-in SciPy, scenario E6 succeeds as a low-pass and
    reports [high_freq = 0.6]. *)
Example E6_runs_lowpass :
  snd (apply_bandpass_filter nat ref_butter ref_filtfilt
         steady_30 1.0 (Some 0.1) (Some 0.6) None)
  = Success lowpass {| low_freq := Some 0.1; high_freq := Some 0.6;
                       order := 4%nat; sampling_rate := 1.0 |}.
Proof. vm_compute. reflexivity. Qed.

Lemma bandpass_high_corner_witness :
  exists ft p,
    snd (apply_bandpass_filter nat ref_butter ref_filtfilt
           steady_30 1.0 (Some 0.1) (Some 0.48) None) = Success ft p
    /\ (ft, high_freq p) = (bandpass, Some (1.0 / 2 * 0.9)%Q).
Proof.
  eexists _, _. split.
  - vm_compute. reflexivity.
  - apply (bandpass_high_corner nat ref_butter ref_filtfilt
             steady_30 1.0 0.1 0.48 None);
      [reflexivity|reflexivity|discriminate|vm_compute; reflexivity].
Defined.

(** C3 (as stated) fails: an array of 32 samples with one NaN comes back
    with 31 samples, whatever SciPy does. *)
Lemma bandpass_drops_nonfinite :
  ~ (exists coeffs butter filtfilt,
        filtfilt_keeps_length coeffs filtfilt
        /\ length (fst (apply_bandpass_filter coeffs butter filtfilt
                          one_nan_32 100 (Some 1) (Some 10) None))
           = length one_nan_32).
Proof.
  intros (coeffs & butter & filtfilt & Hk & Hlen).
  destruct (output_length_finite coeffs butter filtfilt
              one_nan_32 100 (Some 1) (Some 10) None Hk) as [H _].
  - vm_compute. lia.
  - rewrite H in Hlen. vm_compute in Hlen. discriminate.
Qed.

Lemma bandpass_length_finite_witness :
  length (fst (apply_bandpass_filter nat ref_butter ref_filtfilt
                 one_nan_32 100 (Some 1) (Some 10) None)) = 31%nat
  /\ List.forallb isfinite
       (fst (apply_bandpass_filter nat ref_butter ref_filtfilt
               one_nan_32 100 (Some 1) (Some 10) None)) = true.
Proof.
  apply (bandpass_length_finite nat ref_butter ref_filtfilt
           one_nan_32 100 (Some 1) (Some 10) None).
  - exact ref_filtfilt_keeps_length.
  - vm_compute. lia.
Defined.

End BandpassFacts.

(** ** Spike removal: the MAD = 0 branch and repeated passes *)

Module SpikesFacts.
Import PyNum PyNumFacts Spikes.
Local Open Scope Q_scope.

(** A pass that reports no spike returns its input. *)
Lemma no_spike_no_change (data : list Q) (threshold : option Q) :
  snd (remove_spikes data threshold) = 0%nat ->
  fst (remove_spikes data threshold) = data.
Proof.
  unfold remove_spikes.
  destruct (np_median data) as [median|]; [|reflexivity].
  destruct (np_median (abs_dev data median)) as [mad|]; [|reflexivity].
  destruct (Qltb 0 mad); [|reflexivity].
  destruct (Nat.ltb 0 _) eqn:E; [|reflexivity].
  simpl. intros H. rewrite H in E. discriminate.
Qed.

Lemma assign_at_length (a b : list Q) (idx : list nat) :
  length (assign_at a b idx) = length a.
Proof.
  unfold assign_at. revert a.
  induction idx as [|i idx IH]; intros a; simpl; [reflexivity|].
  rewrite IH. apply length_insert.
Qed.

(** Assignment through an index array leaves the other positions alone. *)
Lemma assign_at_other (a b : list Q) (idx : list nat) (j : nat) :
  ~ List.In j idx -> assign_at a b idx !! j = a !! j.
Proof.
  unfold assign_at. revert a.
  induction idx as [|i idx IH]; intros a Hj; simpl; [reflexivity|].
  rewrite IH.
  - apply list_lookup_insert_ne. intros ->. apply Hj. left. reflexivity.
  - intros Hin. apply Hj. right. exact Hin.
Qed.

(** The cleaned array has the length of the input. *)
Lemma remove_spikes_length (data : list Q) (threshold : option Q) :
  length (fst (remove_spikes data threshold)) = length data.
Proof.
  unfold remove_spikes.
  destruct (np_median data) as [median|]; [|reflexivity].
  destruct (np_median (abs_dev data median)) as [mad|]; [|reflexivity].
  destruct (Qltb 0 mad); [|reflexivity].
  destruct (Nat.ltb 0 _); [|reflexivity].
  simpl. apply assign_at_length.
Qed.

(** The count is the number of flagged indices, and only flagged
    samples can differ from the input. *)
Lemma remove_spikes_count (data : list Q) (threshold : option Q) :
  snd (remove_spikes data threshold) = length (flagged data threshold).
Proof.
  unfold remove_spikes, flagged.
  destruct (np_median data) as [median|]; [|reflexivity].
  destruct (np_median (abs_dev data median)) as [mad|]; [|reflexivity].
  destruct (Qltb 0 mad); [|reflexivity].
  destruct (Nat.ltb 0 _); reflexivity.
Qed.

Lemma remove_spikes_keeps_unflagged (data : list Q) (threshold : option Q) (j : nat) :
  ~ List.In j (flagged data threshold) ->
  fst (remove_spikes data threshold) !! j = data !! j.
Proof.
  unfold remove_spikes, flagged.
  destruct (np_median data) as [median|]; [|reflexivity].
  destruct (np_median (abs_dev data median)) as [mad|]; [|reflexivity].
  destruct (Qltb 0 mad); [|reflexivity].
  destruct (Nat.ltb 0 _); [|reflexivity].
  simpl. apply assign_at_other.
Qed.

(** With [MAD = 0] (or an empty array) nothing is detected, whatever the
    threshold. *)
Lemma mad_zero_no_detection (data : list Q) (threshold : option Q) median mad :
  np_median data = Some median ->
  np_median (abs_dev data median) = Some mad ->
  mad == 0 ->
  remove_spikes data threshold = (data, 0%nat).
Proof.
  intros Hm Hmad H0. unfold remove_spikes. rewrite Hm, Hmad.
  assert (E : Qltb 0 mad = false).
  { apply Qltb_ge. rewrite H0. apply Qle_refl. }
  rewrite E. reflexivity.
Qed.

(** C5: on the constant-plus-outlier signal (MAD = 0) the processor's
    [remove_spikes] reports no spike and leaves the outlier in place. *)
Theorem remove_spikes_mad_zero_keeps_outlier :
  (exists median mad,
      np_median constant_plus_outlier = Some median
      /\ np_median (abs_dev constant_plus_outlier median) = Some mad
      /\ mad == 0)
  /\ remove_spikes constant_plus_outlier None = (constant_plus_outlier, 0%nat).
Proof.
  split.
  - eexists _, _. split; [|split]; [vm_compute; reflexivity ..|].
    reflexivity.
  - vm_compute. reflexivity.
Qed.

(** The older [remove_spikes] of GEOseis.py falls back to the standard
    deviation (5 for this signal), flags the outlier and replaces it. *)
Lemma legacy_remove_spikes_detects_outlier (np_std : list Q -> Q) :
  np_std constant_plus_outlier = 5 ->
  let r := legacy_remove_spikes np_std constant_plus_outlier None 5 in
  num_spikes (snd r) = 1%nat
  /\ spike_indices (snd r) = [25%nat]
  /\ fst r = List.repeat 0 26.
Proof.
  intros Hstd.
  change (legacy_remove_spikes np_std constant_plus_outlier None 5)
    with (legacy_remove_spikes (fun _ => np_std constant_plus_outlier)
            constant_plus_outlier None 5).
  rewrite Hstd. vm_compute. repeat split.
Qed.

(** C6 (as stated) fails: on [0, 1, 10, 100] the first pass replaces 100
    by 1, and a second pass over [0, 1, 10, 1] flags the 10. *)
Lemma second_pass_flags_new_spike :
  ~ second_pass_unchanged [0; 1; 10; 100] None.
Proof.
  unfold second_pass_unchanged.
  change (fst (remove_spikes [0; 1; 10; 100] None)) with [0; 1; 10; 1].
  change (remove_spikes [0; 1; 10; 1] None) with ([0; 1; 1; 1], 1%nat).
  simpl. intros [_ H]. discriminate.
Qed.

Example second_pass_changes_sample :
  remove_spikes [0; 1; 10; 100] None = ([0; 1; 10; 1], 1%nat)
  /\ remove_spikes [0; 1; 10; 1] None = ([0; 1; 1; 1], 1%nat).
Proof. split; vm_compute; reflexivity. Qed.

(** C6 (amended).  Applying [remove_spikes] to its own output returns
    that output unchanged whenever the second pass detects no spike; the
    second pass recomputes median and MAD on the cleaned array and may
    flag samples the first pass kept. *)
Theorem remove_spikes_second_pass (data : list Q) (threshold : option Q) :
  let once := fst (remove_spikes data threshold) in
  snd (remove_spikes once threshold) = 0%nat ->
  remove_spikes once threshold = (once, 0%nat).
Proof.
  intros once H.
  rewrite (surjective_pairing (remove_spikes once threshold)).
  rewrite H, (no_spike_no_change _ _ H). reflexivity.
Qed.

Lemma remove_spikes_second_pass_witness :
  remove_spikes (fst (remove_spikes [0; 1; 2; 3; 100] None)) None
  = (fst (remove_spikes [0; 1; 2; 3; 100] None), 0%nat).
Proof.
  apply (remove_spikes_second_pass [0; 1; 2; 3; 100] None).
  vm_compute. reflexivity.
Defined.

End SpikesFacts.

(** ** Surface-wave velocities: bounds and the Love/Rayleigh ratio *)

Module SurfaceWavesFacts.
Import PyNum PyNumFacts SurfaceWaves.
Local Open Scope Q_scope.

Lemma depth_factor_in depth_km : List.In (depth_factor_of depth_km) depth_factors.
Proof.
  unfold depth_factor_of, depth_factors.
  repeat (match goal with |- context [if ?b then _ else _] => destruct b end);
    simpl; tauto.
Qed.

Lemma distance_factor_in distance_km :
  List.In (distance_factor_of distance_km) distance_factors.
Proof.
  unfold distance_factor_of, distance_factors.
  repeat (match goal with |- context [if ?b then _ else _] => destruct b end);
    simpl; tauto.
Qed.

Lemma magnitude_factor_in magnitude :
  List.In (magnitude_factor_of magnitude) magnitude_factors.
Proof.
  unfold magnitude_factor_of, magnitude_factors.
  repeat (match goal with |- context [if ?b then _ else _] => destruct b end);
    simpl; tauto.
Qed.

Lemma structure_factor_in p s :
  List.In (fst (fst (structure_of p s))) structure_factors.
Proof.
  unfold structure_of, structure_factors.
  destruct p as [p|], s as [s|]; simpl; try tauto.
  repeat (match goal with |- context [if ?b then _ else _] => destruct b end);
    simpl; tauto.
Qed.

(** The returned velocities are the rounded velocities of the four
    factors. *)
Lemma velocities_from_factors distance_km depth_km magnitude p s :
  let w := calculate_surface_wave_velocities distance_km depth_km magnitude p s in
  (love_velocity w, rayleigh_velocity w)
  = rounded_velocities (depth_factor_of depth_km) (distance_factor_of distance_km)
      (magnitude_factor_of magnitude) (fst (fst (structure_of p s))).
Proof.
  unfold calculate_surface_wave_velocities, rounded_velocities.
  destruct (structure_of p s) as [[sf info] ty]. simpl fst.
  destruct (clamped_velocities _ _ _ _) as [l r]. reflexivity.
Qed.

Lemma rounded_velocities_listed df xf mf sf :
  List.In df depth_factors -> List.In xf distance_factors ->
  List.In mf magnitude_factors -> List.In sf structure_factors ->
  List.In (rounded_velocities df xf mf sf) all_rounded_velocities.
Proof.
  intros Hd Hx Hm Hs. unfold all_rounded_velocities.
  apply in_flat_map. exists df. split; [exact Hd|].
  apply in_flat_map. exists xf. split; [exact Hx|].
  apply in_flat_map. exists mf. split; [exact Hm|].
  apply in_map. exact Hs.
Qed.

Lemma all_rounded_velocities_checked :
  List.forallb (fun v => in_bounds v && near_ratio v) all_rounded_velocities = true.
Proof. vm_compute. reflexivity. Qed.

(** C4 (amended).  For all inputs the returned [love_velocity] lies in
    [3.8, 5.2] and [rayleigh_velocity] in [3.0, 4.5]; the Love velocity is
    1.12 times the Rayleigh velocity only before clamping and rounding,
    so that on the returned values
    [1.12*rayleigh - 0.011 <= love <= 1.12*rayleigh + 0.44]. *)
Theorem surface_wave_velocity_bounds distance_km depth_km magnitude p s :
  let w := calculate_surface_wave_velocities distance_km depth_km magnitude p s in
  (3.8 <= love_velocity w <= 5.2)
  /\ (3.0 <= rayleigh_velocity w <= 4.5)
  /\ (1.12 * rayleigh_velocity w - 0.011 <= love_velocity w
      <= 1.12 * rayleigh_velocity w + 0.44).
Proof.
  intros w.
  pose proof (velocities_from_factors distance_km depth_km magnitude p s) as Hv.
  fold w in Hv. simpl in Hv.
  pose proof (rounded_velocities_listed _ _ _ _
                (depth_factor_in depth_km) (distance_factor_in distance_km)
                (magnitude_factor_in magnitude) (structure_factor_in p s)) as Hin.
  rewrite <- Hv in Hin.
  pose proof all_rounded_velocities_checked as Hall.
  rewrite List.forallb_forall in Hall. specialize (Hall _ Hin).
  unfold in_bounds, near_ratio in Hall. simpl fst in Hall. simpl snd in Hall.
  repeat match goal with
         | H : _ && _ = true |- _ => apply andb_true_iff in H as [? ?]
         end.
  repeat match goal with H : Qleb _ _ = true |- _ => apply Qleb_le in H end.
  repeat split; assumption.
Qed.

(** C4 (as stated) fails: for a 300 km deep event at 3000 km both clamps
    apply, the velocities are 3.8 and 3.0, and 3.8 is not 1.12 * 3.0. *)
Lemma deep_event_breaks_ratio : ~ velocity_claim 3000 300 6.2 None None.
Proof.
  unfold velocity_claim. intros (_ & _ & H).
  vm_compute in H. discriminate.
Qed.

(** Without any clamp the rounding to two decimals breaks the equality
    as well: 3.84 against 1.12 * 3.43 = 3.8416. *)
Example rounding_breaks_ratio :
  let w := calculate_surface_wave_velocities 3000 25 6.2 None None in
  love_velocity w == 3.84 /\ rayleigh_velocity w == 3.43
  /\ ~ love_velocity w == 1.12 * rayleigh_velocity w.
Proof.
  vm_compute. repeat split; discriminate.
Qed.

End SurfaceWavesFacts.

(** ** Station selection: fail-forward and the inventory failure path *)

Module StationsFacts.
Import PyNum Stations.
Local Open Scope Q_scope.

Lemma firstn_Forall {A} (P : A -> Prop) (n : nat) (l : list A) :
  List.Forall P l -> List.Forall P (List.firstn n l).
Proof.
  intros H. revert n. induction H as [|a l Ha Hl IH]; intros [|n]; simpl;
    constructor; auto.
Qed.

Lemma filter_Forall {A} (p : A -> bool) (l : list A) :
  List.Forall (fun a => p a = true) (List.filter p l).
Proof.
  induction l as [|a l IH]; simpl; [constructor|].
  destruct (p a) eqn:E; [constructor|]; assumption.
Qed.

Section WithServices.

Variable gps2dist_azimuth : Q -> Q -> Q -> Q -> option (Q * Q).
Variable kilometers2degrees : Q -> Q.
Variable taup_model : option (Q -> Q -> option (list (string * Q))).
Variable str_time : option Z -> string.
Variable str_num : Q -> string.
Variable str_int : nat -> string.

Abbreviation search_stations :=
  (search_stations gps2dist_azimuth taup_model str_time str_num str_int).
Abbreviation search_stations_excluding_failed :=
  (search_stations_excluding_failed gps2dist_azimuth taup_model str_time str_num str_int).
Abbreviation handle_failed_station_download :=
  (handle_failed_station_download gps2dist_azimuth taup_model str_time str_num str_int).
Abbreviation step := (step gps2dist_azimuth taup_model str_time str_num str_int).
Abbreviation run := (run gps2dist_azimuth taup_model str_time str_num str_int).
Abbreviation _fallback_station_list_optimized :=
  (_fallback_station_list_optimized gps2dist_azimuth kilometers2degrees).

(** [search_stations] reads and writes the result cache and the
    execution flag only. *)
Lemma search_stations_failed_set r s eq lo hi n :
  failed_station_downloads (snd (search_stations r s eq lo hi n))
  = failed_station_downloads s.
Proof.
  unfold Stations.search_stations.
  destruct (match station_results s with Some _ => _ | None => _ end);
    [reflexivity|].
  match goal with |- context [if ?b then _ else _] => destruct b end;
    [reflexivity|].
  assert (Hflag : forall k t, failed_station_downloads (clear_execution_flag k t)
                              = failed_station_downloads t).
  { intros k t. unfold clear_execution_flag.
    destruct (executing_search t) as [k'|]; [|reflexivity].
    destruct (String.eqb k' k); reflexivity. }
  destruct (time eq); [|simpl; rewrite Hflag; reflexivity].
  destruct r as [|inv]; [simpl; rewrite Hflag; reflexivity|].
  destruct inv as [|net inv]; [simpl; rewrite Hflag; reflexivity|].
  destruct (_process_stations _ _ _ _ _ _ _ _);
    simpl; rewrite Hflag; reflexivity.
Qed.

(** The list returned by [search_stations_excluding_failed] holds no
    station whose key is in the failed set at the time of the call. *)
Lemma excluding_failed_filters r s eq lo hi n :
  List.Forall
    (fun st => match failed_station_downloads s with
               | Some f => station_key st ∉ f
               | None => True
               end)
    (fst (search_stations_excluding_failed r s eq lo hi n)).
Proof.
  unfold Stations.search_stations_excluding_failed.
  pose proof (search_stations_failed_set r s eq lo hi (n * 2)) as Hf.
  destruct (search_stations r s eq lo hi (n * 2)) as [all s1].
  simpl in Hf.
  destruct all as [|st0 all]; [constructor|].
  cbv zeta. cbn [fst]. apply firstn_Forall.
  rewrite Hf.
  eapply List.Forall_impl; [|apply filter_Forall].
  intros st Hst. cbv beta in Hst.
  apply bool_decide_eq_true in Hst.
  destruct (failed_station_downloads s); [exact Hst|exact I].
Qed.

Lemma excluding_failed_state r s eq lo hi n :
  failed_station_downloads (snd (search_stations_excluding_failed r s eq lo hi n))
  = failed_station_downloads s.
Proof.
  unfold Stations.search_stations_excluding_failed.
  pose proof (search_stations_failed_set r s eq lo hi (n * 2)) as Hf.
  destruct (search_stations r s eq lo hi (n * 2)) as [all s1].
  simpl in Hf. destruct all; exact Hf.
Qed.

Lemma key_absent (S : station_data) (l : list station_data) :
  List.Forall (fun st => station_key st <> station_key S) l -> absent S l.
Proof.
  apply List.Forall_impl. intros st Hne [Hn Hs]. apply Hne.
  unfold station_key. rewrite Hn, Hs. reflexivity.
Qed.

(** A marked station is absent from the list of
    [search_stations_excluding_failed]. *)
Lemma excluding_failed_absent r s eq lo hi n S :
  marked_failed S s ->
  absent S (fst (search_stations_excluding_failed r s eq lo hi n)).
Proof.
  unfold marked_failed. intros HS. apply key_absent.
  eapply List.Forall_impl; [|apply excluding_failed_filters].
  intros st Hst. cbv beta in Hst.
  destruct (failed_station_downloads s) as [f|]; [|contradiction].
  intros Heq. rewrite Heq in Hst. exact (Hst HS).
Qed.

(** [handle_failed_station_download] marks its station. *)
Lemma handle_failed_marks r s S eq :
  marked_failed S (snd (handle_failed_station_download r s S eq))
  /\ absent S (fst (handle_failed_station_download r s S eq)).
Proof.
  unfold Stations.handle_failed_station_download. cbv zeta.
  set (s1 := with_failed_station_downloads _ s).
  assert (H1 : marked_failed S s1).
  { unfold marked_failed, s1. simpl. set_solver. }
  split.
  - unfold marked_failed. rewrite excluding_failed_state. exact H1.
  - apply excluding_failed_absent. exact H1.
Qed.

(** No command other than the explicit reset removes a mark. *)
Lemma step_keeps_mark c s S :
  marked_failed S s -> marked_failed S (snd (step c s)).
Proof.
  intros HS. destruct c as [r eq lo hi n|r eq lo hi n|r S' eq]; simpl.
  - unfold marked_failed. rewrite search_stations_failed_set. exact HS.
  - unfold marked_failed. rewrite excluding_failed_state. exact HS.
  - unfold Stations.handle_failed_station_download. cbv zeta.
    unfold marked_failed. rewrite excluding_failed_state.
    unfold marked_failed in HS. simpl.
    destruct (failed_station_downloads s); [set_solver|contradiction].
Qed.

Lemma step_absent c s S :
  marked_failed S s -> excludes_failed c = true -> absent S (fst (step c s)).
Proof.
  intros HS Hc. destruct c as [r eq lo hi n|r eq lo hi n|r S' eq]; simpl.
  - discriminate.
  - apply excluding_failed_absent. exact HS.
  - unfold Stations.handle_failed_station_download. cbv zeta.
    apply excluding_failed_absent.
    unfold marked_failed in *. simpl.
    destruct (failed_station_downloads s); [set_solver|contradiction].
Qed.

Lemma run_absent cs s S :
  marked_failed S s ->
  List.Forall2 (fun c r => excludes_failed c = true -> absent S r)
    cs (fst (run cs s)).
Proof.
  revert s. induction cs as [|c cs IH]; intros s HS; simpl; [constructor|].
  pose proof (step_absent c s S HS) as Hc.
  pose proof (step_keeps_mark c s S HS) as Hk.
  destruct (step c s) as [r s1]. simpl in Hc, Hk.
  specialize (IH s1 Hk).
  destruct (run cs s1) as [rs s2]. simpl in *.
  constructor; assumption.
Qed.

(** The explicit reset is the one operation that removes the marks. *)
Lemma clear_failed_stations_unmarks s S :
  ~ marked_failed S (clear_failed_stations s).
Proof. unfold marked_failed, clear_failed_stations. simpl. set_solver. Qed.

(** C7.  Once a station [S] is recorded in the failed-station set, every
    later call of [search_stations_excluding_failed] (directly or through
    [handle_failed_station_download]) in the session returns a list that
    does not contain [S], whatever the FDSN client answers. *)
Theorem failed_station_never_returned (cs : list command) (s : session_state)
    (S : station_data) :
  marked_failed S s ->
  List.Forall2 (fun c r => excludes_failed c = true -> absent S r)
    cs (fst (run cs s)).
Proof. apply run_absent. Qed.

(** When the inventory query raises and the search is not cached,
    [search_stations] returns the empty list: the fallback list is not
    consulted. *)
Lemma query_failure_returns_nothing s eq lo hi n :
  match station_results s with
  | Some results => results !! execution_key str_time str_num str_int eq lo hi n = None
  | None => True
  end ->
  fst (search_stations QueryRaises s eq lo hi n) = [].
Proof.
  intros Hc. unfold Stations.search_stations.
  assert (E : match station_results s with
              | Some results => results !! execution_key str_time str_num str_int eq lo hi n
              | None => None
              end = None).
  { destruct (station_results s); [exact Hc|reflexivity]. }
  rewrite E.
  match goal with |- context [if ?b then _ else _] => destruct b end;
    [reflexivity|].
  destruct (time eq); reflexivity.
Qed.

(** The fallback of data_manager.py never returns a station: building the
    dictionary of an in-range station raises [NameError], which the bare
    [except] turns into [continue]. *)
Lemma fallback_returns_nothing eq lo hi n :
  _fallback_station_list_optimized eq lo hi n = [].
Proof.
  unfold Stations._fallback_station_list_optimized.
  assert (H : forall l,
             List.flat_map (fun sta_data =>
               match fallback_station gps2dist_azimuth kilometers2degrees
                       (latitude eq) (longitude eq) lo hi sta_data with
               | Some s => [s]
               | None => []
               end) l = []).
  { induction l as [|x l IH]; simpl; [reflexivity|].
    rewrite IH. destruct x as [[[net sta] lat] lon].
    unfold fallback_station.
    destruct (gps2dist_azimuth _ _ _ _) as [[dm az]|]; [|reflexivity].
    destruct (_ && _); reflexivity. }
  rewrite H. simpl. destruct n; reflexivity.
Qed.

(** C8.  In the first search of a session for the event of scenario E1 the
    inventory query raises: [search_stations] returns no candidate, and so
    does [search_stations_excluding_failed]; the curated list has 7
    entries and the fallback function returns none of them. *)
Theorem inventory_failure_returns_no_candidates :
  fst (search_stations QueryRaises fresh_session tohoku 500 3000 3) = []
  /\ fst (search_stations_excluding_failed QueryRaises fresh_session tohoku 500 3000 3) = []
  /\ length analysis_ready_stations = 7%nat
  /\ _fallback_station_list_optimized tohoku 500 3000 3 = [].
Proof.
  split; [|split; [|split]].
  - reflexivity.
  - reflexivity.
  - reflexivity.
  - apply fallback_returns_nothing.
Qed.

End WithServices.

(** Scenario E5 on the stand-in services: the candidates are AAA, BBB,
    CCC by rank; after AAA failed, the next candidate list is BBB, CCC. *)
Example auto_fallback_scenario :
  let svc_search :=
    search_stations meridian_gps2dist None
      (fun _ => "t"%string) (fun _ => "d"%string) (fun _ => "n"%string) in
  let svc_handle :=
    handle_failed_station_download meridian_gps2dist None
      (fun _ => "t"%string) (fun _ => "d"%string) (fun _ => "n"%string) in
  List.map station
    (fst (svc_search (QueryOk three_stations) searching_session tohoku 500 3000 3%nat))
  = ["AAA"; "BBB"; "CCC"]%string
  /\ List.map station
       (fst (svc_handle (QueryOk three_stations) searching_session first_station tohoku))
     = ["BBB"; "CCC"]%string.
Proof. split; vm_compute; reflexivity. Qed.

Lemma failed_station_never_returned_witness :
  let svc_handle :=
    handle_failed_station_download meridian_gps2dist None
      (fun _ => "t"%string) (fun _ => "d"%string) (fun _ => "n"%string) in
  let svc_run :=
    run meridian_gps2dist None
      (fun _ => "t"%string) (fun _ => "d"%string) (fun _ => "n"%string) in
  let AAA := first_station in
  let s1 := snd (svc_handle (QueryOk three_stations) fresh_session AAA tohoku) in
  let cs := [SearchExcludingFailed (QueryOk three_stations) tohoku 500 3000 3;
             Search (QueryOk three_stations) tohoku 500 3000 3;
             SearchExcludingFailed QueryRaises tohoku 1000 2000 2] in
  marked_failed AAA s1
  /\ List.Forall2 (fun c r => excludes_failed c = true -> absent AAA r)
       cs (fst (svc_run cs s1)).
Proof.
  intros svc_handle svc_run AAA s1 cs.
  assert (H : marked_failed AAA s1).
  { unfold marked_failed. vm_compute. set_solver. }
  split; [exact H|].
  exact (failed_station_never_returned meridian_gps2dist None
           (fun _ => "t"%string) (fun _ => "d"%string) (fun _ => "n"%string)
           cs s1 AAA H).
Defined.

End StationsFacts.

(** ** Wave-type classifier on float64 arrays of finite samples: confidence
    of a Rayleigh verdict *)

Module WaveTypesFacts.
Import PyNum PyNumFacts WaveTypes.
Local Open Scope Q_scope.

Lemma np_sum_from_nonneg (a : list Q) (acc : Q) :
  0 <= acc -> List.Forall (fun x => 0 <= x) a ->
  0 <= List.fold_left Qplus a acc.
Proof.
  intros Hacc Ha. revert acc Hacc.
  induction Ha as [|x a Hx Ha IH]; intros acc Hacc; simpl; [exact Hacc|].
  apply IH. cbv beta in Hx. lra.
Qed.

(** On finite samples without wrap-around a component energy, the sum
    of the squared samples, is not negative. *)
Lemma energy_nonneg (a : list Q) : 0 <= energy_of a.
Proof.
  unfold energy_of, np_sum. apply np_sum_from_nonneg; [lra|].
  induction a as [|x a IH]; simpl; constructor; [|exact IH].
  change (x ^ 2) with (x * x). nra.
Qed.

(** The confidence computed in the Rayleigh branch. *)
Lemma rayleigh_confidence (horizontal_energy vertical_energy : Q) :
  0 <= horizontal_energy -> 0 <= vertical_energy ->
  let ratio := horizontal_energy / (vertical_energy + 1e-10) in
  Qltb ratio 0.5 = true ->
  py_min (2.0 / (ratio + 0.1)) 1.0 = 1.0.
Proof.
  intros HH HV ratio Hlt. apply Qltb_lt in Hlt.
  assert (H0 : 0 <= ratio).
  { unfold ratio. change 1e-10 with (1 # 10000000000).
    apply Qle_shift_div_l; lra. }
  unfold py_min.
  assert (E : Qltb 1.0 (2.0 / (ratio + 0.1)) = true).
  { apply Qltb_lt. apply Qlt_shift_div_l; lra. }
  rewrite E. reflexivity.
Qed.

Lemma horizontal_energy_nonneg (n e : list Q) : 0 <= energy_of n + energy_of e.
Proof.
  pose proof (energy_nonneg n). pose proof (energy_nonneg e). lra.
Qed.

Section WithNumPy.

Variable np_sqrt : Q -> Q.

(** On finite samples without wrap-around, whenever the dominant type
    is Rayleigh the confidence is 1.0: the ratio of the horizontal to
    the vertical energy is then in [0, 0.5), so that [2.0/(ratio + 0.1)]
    exceeds 1. *)
Lemma rational_rayleigh_confidence (waveform : waveform_data)
    (time_window : option (Q * Q)) (r : wave_types) :
  detect_wave_types np_sqrt waveform time_window = Detected r ->
  dominant_type r = Rayleigh ->
  confidence r == 1.
Proof.
  unfold detect_wave_types.
  destruct (displacement waveform) as [d|]; [|discriminate].
  match goal with |- context [if ?b then Error else _] => destruct b end;
    [discriminate|].
  cbv zeta.
  match goal with
  | |- context [match ?w with pair _ _ => _ end] => destruct w as [[n e] v]
  end.
  pose proof (energy_nonneg v) as Hv.
  destruct (Qltb 0 (energy_of n + energy_of e + energy_of v)).
  - destruct (Qltb 3.0 _) eqn:E3.
    + intros H; inversion H; subst r; simpl. discriminate.
    + destruct (Qltb _ 0.5) eqn:E5.
      * intros H; inversion H; subst r; simpl. intros _.
        rewrite (rayleigh_confidence _ _ (horizontal_energy_nonneg n e) Hv E5).
        reflexivity.
      * intros H; inversion H; subst r; simpl. discriminate.
  - destruct (Qltb 3.0 _) eqn:E3.
    + intros H; inversion H; subst r; simpl. discriminate.
    + destruct (Qltb _ 0.5) eqn:E5.
      * intros H; inversion H; subst r; simpl. intros _.
        rewrite (rayleigh_confidence _ _ (horizontal_energy_nonneg n e) Hv E5).
        reflexivity.
      * intros H; inversion H; subst r; simpl. discriminate.
Qed.

End WithNumPy.

End WaveTypesFacts.

(** ** Ms: rounding, the corrections and the discarded filter status *)

Module MsFacts.
Import Ms.
Local Open Scope R_scope.

Lemma round_half_even_bounds (x : R) :
  x - 1 / 2 <= IZR (Rround_half_even x) <= x + 1 / 2.
Proof.
  unfold Rround_half_even.
  pose proof (Zfloor_bound x) as [Hl Hu].
  destruct (Rlt_dec (x - IZR (Zfloor x)) (1 / 2)) as [H1|H1]; [lra|].
  destruct (Rlt_dec (1 / 2) (x - IZR (Zfloor x))) as [H2|H2].
  - rewrite plus_IZR. lra.
  - destruct (Z.even (Zfloor x)); [lra|rewrite plus_IZR; lra].
Qed.

Lemma round_half_even_mono (x y : R) :
  x <= y -> (Rround_half_even x <= Rround_half_even y)%Z.
Proof.
  intros Hxy.
  pose proof (Zfloor_le x y Hxy) as Hf.
  pose proof (Zfloor_bound x) as [Hxl Hxu].
  pose proof (Zfloor_bound y) as [Hyl Hyu].
  assert (Hx1 : (Rround_half_even x <= Zfloor x + 1)%Z).
  { unfold Rround_half_even.
    repeat match goal with |- context [if ?b then _ else _] => destruct b end; lia. }
  assert (Hy0 : (Zfloor y <= Rround_half_even y)%Z).
  { unfold Rround_half_even.
    repeat match goal with |- context [if ?b then _ else _] => destruct b end; lia. }
  destruct (Z.eq_dec (Zfloor x) (Zfloor y)) as [E|E]; [|lia].
  unfold Rround_half_even. rewrite <- E.
  destruct (Rlt_dec (x - IZR (Zfloor x)) (1 / 2)) as [H1|H1].
  - repeat match goal with |- context [if ?b then _ else _] => destruct b end; lia.
  - destruct (Rlt_dec (y - IZR (Zfloor x)) (1 / 2)) as [H3|H3]; [lra|].
    destruct (Rlt_dec (1 / 2) (x - IZR (Zfloor x))) as [H2|H2].
    + destruct (Rlt_dec (1 / 2) (y - IZR (Zfloor x))) as [H4|H4]; [lia|lra].
    + repeat match goal with |- context [if ?b then _ else _] => destruct b end; lia.
Qed.

Lemma pow10_pos (n : nat) : 0 < 10 ^ n.
Proof. apply pow_lt. lra. Qed.

(** [round(x, ndigits)] is monotone. *)
Lemma py_round_mono (x y : R) (n : nat) : x <= y -> py_round x n <= py_round y n.
Proof.
  intros Hxy. unfold py_round.
  pose proof (pow10_pos n) as Hp.
  apply Rmult_le_compat_r; [left; apply Rinv_0_lt_compat; exact Hp|].
  apply IZR_le, round_half_even_mono.
  apply Rmult_le_compat_r; lra.
Qed.

(** Values more than a tenth apart stay apart after rounding to one
    decimal. *)
Lemma py_round_1_separates (x y : R) :
  x + 0.11 <= y -> py_round x 1 < py_round y 1.
Proof.
  intros Hxy. unfold py_round.
  pose proof (round_half_even_bounds (x * 10 ^ 1)) as [_ Hx].
  pose proof (round_half_even_bounds (y * 10 ^ 1)) as [Hy _].
  simpl pow in *. lra.
Qed.

Lemma ln_10_pos : 0 < ln 10.
Proof. rewrite <- ln_1. apply ln_increasing; lra. Qed.

Lemma ln_le_minus_1 (x : R) : 0 < x -> ln x <= x - 1.
Proof.
  intros Hx. pose proof (exp_ineq1_le (ln x)) as H.
  rewrite exp_ln in H by exact Hx. lra.
Qed.

Lemma ln_10_le_4 : ln 10 <= 4.
Proof.
  assert (H2 : ln 2 <= 1) by (pose proof (ln_le_minus_1 2); lra).
  assert (H16 : ln 16 = 4 * ln 2).
  { replace 16 with ((2 * 2) * (2 * 2)) by lra.
    rewrite !ln_mult by lra. lra. }
  assert (H : ln 10 < ln 16) by (apply ln_increasing; lra).
  lra.
Qed.

(** [ln d2 - ln d1 >= (d2 - d1)/d2] for [0 < d1 <= d2]. *)
Lemma ln_diff_lower (d1 d2 : R) :
  0 < d1 -> d1 <= d2 -> (d2 - d1) / d2 <= ln d2 - ln d1.
Proof.
  intros H1 H12.
  assert (Hq : 0 < d1 / d2) by (apply Rdiv_lt_0_compat; lra).
  pose proof (ln_le_minus_1 (d1 / d2) Hq) as H.
  unfold Rdiv in H at 1. rewrite ln_mult in H; [|lra|apply Rinv_0_lt_compat; lra].
  rewrite ln_Rinv in H by lra.
  replace ((d2 - d1) / d2) with (1 - d1 / d2) by (field; lra).
  lra.
Qed.

(** [log10] of a distance in degrees, for two distances in kilometres. *)
Lemma log10_deg_diff (d1 d2 : R) :
  0 < d1 -> d1 <= d2 ->
  (d2 - d1) / d2 / ln 10 <= log10 (d2 / 111.195) - log10 (d1 / 111.195).
Proof.
  intros H1 H12. unfold log10.
  pose proof ln_10_pos as H10.
  assert (E : forall d, 0 < d -> ln (d / 111.195) = ln d - ln 111.195).
  { intros d Hd. unfold Rdiv. rewrite ln_mult; [|lra|apply Rinv_0_lt_compat; lra].
    rewrite ln_Rinv by lra. lra. }
  rewrite !E by lra.
  replace ((ln d2 - ln 111.195) / ln 10 - (ln d1 - ln 111.195) / ln 10)
    with ((ln d2 - ln d1) / ln 10) by (field; lra).
  apply Rmult_le_compat_r; [left; apply Rinv_0_lt_compat; exact H10|].
  apply ln_diff_lower; assumption.
Qed.

(** The distance term and the short-distance correction together do not
    decrease with the distance up to 2000 km. *)
Lemma distance_terms_mono (d1 d2 : R) :
  200 <= d1 -> d1 <= d2 -> d2 <= 2000 ->
  1.66 * log10 (d1 / 111.195) + distance_correction_of d1
  <= 1.66 * log10 (d2 / 111.195) + distance_correction_of d2.
Proof.
  intros H1 H12 H2.
  assert (Hc : forall d, d <= 2000 ->
                 distance_correction_of d = 0.3 * ((2000 - d) / 2000)).
  { intros d Hd. unfold distance_correction_of, distance_factor_of.
    destruct (Rlt_dec d 2000); [reflexivity|].
    replace d with 2000 by lra. lra. }
  rewrite !Hc by lra.
  pose proof (log10_deg_diff d1 d2 ltac:(lra) H12) as Hlog.
  pose proof ln_10_pos as H10. pose proof ln_10_le_4 as H4.
  assert (Hfrac : (d2 - d1) / 2000 / 4 <= (d2 - d1) / d2 / ln 10).
  { unfold Rdiv. rewrite !Rmult_assoc.
    apply Rmult_le_compat_l; [lra|].
    rewrite <- !Rinv_mult.
    apply Rinv_le_contravar; nra. }
  lra.
Qed.

(** The depth correction does not increase with the depth beyond
    50 km. *)
Lemma depth_correction_mono (depth1 depth2 : R) :
  50 < depth1 -> depth1 <= depth2 ->
  depth_correction_of (Some depth2) <= depth_correction_of (Some depth1).
Proof.
  intros H1 H12. unfold depth_correction_of, depth_above.
  destruct (Req_dec_T depth2 0); [lra|].
  destruct (Req_dec_T depth1 0); [lra|].
  destruct (Rlt_dec 50 depth2); [|lra].
  destruct (Rlt_dec 50 depth1); lra.
Qed.

Lemma log10_times_10 (x : R) : 0 < x -> log10 (10 * x) = 1 + log10 x.
Proof.
  intros Hx. unfold log10. pose proof ln_10_pos.
  rewrite ln_mult by lra. field. lra.
Qed.

Section WithFilter.

Variable apply_bandpass_filter : list R -> R -> R -> R -> list R * filter_status.

Abbreviation calculate_ms_magnitude := (calculate_ms_magnitude apply_bandpass_filter).

(** With the other arguments fixed, Ms does not decrease with the
    distance on [200, 2000] km. *)
Lemma ms_distance_mono n e v fs T depth af d1 d2 :
  200 <= d1 -> d1 <= d2 -> d2 <= 2000 ->
  ms_le (calculate_ms_magnitude n e v d1 fs T depth af)
        (calculate_ms_magnitude n e v d2 fs T depth af).
Proof.
  intros H1 H12 H2. unfold ms_le, Ms.calculate_ms_magnitude.
  destruct (validate d1 depth) as [i1 r1].
  destruct (validate d2 depth) as [i2 r2].
  destruct (Rlt_dec d1 200); [lra|]. destruct (Rlt_dec d2 200); [lra|].
  destruct (af && _); [exact I|].
  cbv zeta.
  match goal with
  | |- context [match ?w with pair _ _ => _ end] => destruct w as [[v' n'] e']
  end.
  match goal with
  | |- context [match ?w with Some _ => _ | None => MsError _ end] =>
      destruct w as [mh|]; [|exact I]
  end.
  destruct (Req_dec_T _ 0); [exact I|].
  apply py_round_mono.
  pose proof (distance_terms_mono d1 d2 H1 H12 H2). lra.
Qed.

(** With the other arguments fixed, Ms does not increase with the depth
    beyond 50 km. *)
Lemma ms_depth_mono n e v fs T af d depth1 depth2 :
  50 < depth1 -> depth1 <= depth2 ->
  ms_le (calculate_ms_magnitude n e v d fs T (Some depth2) af)
        (calculate_ms_magnitude n e v d fs T (Some depth1) af).
Proof.
  intros H1 H12. unfold ms_le, Ms.calculate_ms_magnitude.
  destruct (validate d (Some depth1)) as [i1 r1].
  destruct (validate d (Some depth2)) as [i2 r2].
  destruct (Rlt_dec d 200); [exact I|].
  destruct (af && _); [exact I|].
  cbv zeta.
  match goal with
  | |- context [match ?w with pair _ _ => _ end] => destruct w as [[v' n'] e']
  end.
  match goal with
  | |- context [match ?w with Some _ => _ | None => MsError _ end] =>
      destruct w as [mh|]; [|exact I]
  end.
  destruct (Req_dec_T _ 0); [exact I|].
  apply py_round_mono.
  pose proof (depth_correction_mono depth1 depth2 H1 H12). lra.
Qed.

(** C2 (amended).  With all other arguments fixed, the Ms returned by
    [calculate_ms_magnitude] is non-increasing in the depth for depths
    above 50 km, and non-decreasing (not non-increasing) in the distance
    on [200, 2000] km: the growth of [1.66*log10(distance)] outweighs the
    short-distance correction. *)
Theorem ms_correction_monotonicity n e v fs T af d d1 d2 depth depth1 depth2 :
  50 < depth1 -> depth1 <= depth2 ->
  200 <= d1 -> d1 <= d2 -> d2 <= 2000 ->
  ms_le (calculate_ms_magnitude n e v d fs T (Some depth2) af)
        (calculate_ms_magnitude n e v d fs T (Some depth1) af)
  /\ ms_le (calculate_ms_magnitude n e v d1 fs T depth af)
           (calculate_ms_magnitude n e v d2 fs T depth af).
Proof.
  intros Hd1 Hd12 H1 H12 H2. split.
  - apply ms_depth_mono; assumption.
  - apply ms_distance_mono; assumption.
Qed.




End WithFilter.

(** Resolution of the comparisons of a run on concrete numbers. *)
Ltac decide_comparisons :=
  repeat match goal with
         | |- context [Rlt_dec ?a ?b] =>
             destruct (Rlt_dec a b); [try (exfalso; lra)|try (exfalso; lra)]
         | |- context [Rge_dec ?a ?b] =>
             destruct (Rge_dec a b); [try (exfalso; lra)|try (exfalso; lra)]
         | |- context [Req_dec_T ?a ?b] =>
             destruct (Req_dec_T a b); [try (exfalso; lra)|try (exfalso; lra)]
         end.

(** A run on a single vertical sample of 1 mm, without filter: the
    magnitude as a function of the distance and the depth. *)
Lemma single_sample_run (d : R) (depth : option R) :
  200 <= d ->
  exists x,
    calculate_ms_magnitude short_data_filter [] [] [1] d 1 20 depth false
    = MsValue (py_round (log10 (1 * 1000 / 20) + 1.66 * log10 (d / 111.195) + 3.3
                         + depth_correction_of depth + distance_correction_of d) 1) x.
Proof.
  intros Hd. unfold calculate_ms_magnitude.
  destruct (validate d depth) as [i r].
  unfold peak_um, np_max, py_max. simpl. rewrite Rabs_R1.
  decide_comparisons; eexists; reflexivity.
Qed.

(** C2 (as stated) fails: for one and the same record, Ms at 2000 km is
    above Ms at 200 km. *)
Lemma ms_increases_with_distance :
  ~ ms_le (calculate_ms_magnitude short_data_filter [] [] [1] 2000 1 20 None false)
          (calculate_ms_magnitude short_data_filter [] [] [1] 200 1 20 None false).
Proof.
  destruct (single_sample_run 2000 None ltac:(lra)) as [x2 E2].
  destruct (single_sample_run 200 None ltac:(lra)) as [x1 E1].
  rewrite E2, E1. unfold ms_le. apply Rlt_not_le.
  apply py_round_1_separates.
  replace (2000 / 111.195) with (10 * (200 / 111.195)) by lra.
  rewrite log10_times_10 by lra.
  unfold distance_correction_of, distance_factor_of, depth_correction_of.
  decide_comparisons. lra.
Qed.

Lemma ms_correction_monotonicity_witness :
  (50 < 100 /\ 100 <= 300 /\ 200 <= 500 /\ 500 <= 1500 /\ 1500 <= 2000)
  /\ (exists m x, calculate_ms_magnitude short_data_filter [] [] [1] 4000 1 20
                    (Some 300) false = MsValue m x)
  /\ (exists m x, calculate_ms_magnitude short_data_filter [] [] [1] 500 1 20
                    None false = MsValue m x)
  /\ ms_le (calculate_ms_magnitude short_data_filter [] [] [1] 4000 1 20 (Some 300) false)
           (calculate_ms_magnitude short_data_filter [] [] [1] 4000 1 20 (Some 100) false)
  /\ ms_le (calculate_ms_magnitude short_data_filter [] [] [1] 500 1 20 None false)
           (calculate_ms_magnitude short_data_filter [] [] [1] 1500 1 20 None false).
Proof.
  split; [lra|].
  split; [destruct (single_sample_run 4000 (Some 300) ltac:(lra)) as [x E];
          eexists _, x; exact E|].
  split; [destruct (single_sample_run 500 None ltac:(lra)) as [x E];
          eexists _, x; exact E|].
  apply (ms_correction_monotonicity short_data_filter [] [] [1] 1 20 false
           4000 500 1500 None 100 300); lra.
Defined.



End MsFacts.

(** ** Rounding on [Q]: monotonicity and error *)

Module RoundingFacts.
Import PyNum PyNumFacts.
Local Open Scope Q_scope.

Lemma floor_bounds (x : Q) : inject_Z (Qfloor x) <= x /\ x < inject_Z (Qfloor x) + 1.
Proof.
  split; [apply Qfloor_le|].
  pose proof (Qlt_floor x) as H. rewrite inject_Z_plus in H. exact H.
Qed.

Lemma Qround_half_even_bounds (x : Q) :
  x - (1 # 2) <= inject_Z (round_half_even x) <= x + (1 # 2).
Proof.
  unfold round_half_even.
  destruct (floor_bounds x) as [Hl Hu].
  destruct (Qltb (x - inject_Z (Qfloor x)) (1 # 2)) eqn:E1.
  - apply Qltb_lt in E1. lra.
  - apply Qltb_ge in E1.
    destruct (Qltb (1 # 2) (x - inject_Z (Qfloor x))) eqn:E2.
    + rewrite inject_Z_plus. change (inject_Z 1) with 1. lra.
    + apply Qltb_ge in E2.
      destruct (Z.even (Qfloor x)); [lra|].
      rewrite inject_Z_plus. change (inject_Z 1) with 1. lra.
Qed.

Lemma Qround_half_even_mono (x y : Q) :
  x <= y -> (round_half_even x <= round_half_even y)%Z.
Proof.
  intros Hxy.
  pose proof (Qfloor_resp_le x y Hxy) as Hf.
  destruct (floor_bounds x) as [Hxl Hxu].
  destruct (floor_bounds y) as [Hyl Hyu].
  assert (Hx1 : (round_half_even x <= Qfloor x + 1)%Z).
  { unfold round_half_even.
    repeat match goal with |- context [if ?b then _ else _] => destruct b end; lia. }
  assert (Hy0 : (Qfloor y <= round_half_even y)%Z).
  { unfold round_half_even.
    repeat match goal with |- context [if ?b then _ else _] => destruct b end; lia. }
  destruct (Z.eq_dec (Qfloor x) (Qfloor y)) as [E|E]; [|lia].
  unfold round_half_even. rewrite <- E.
  destruct (Qltb (x - inject_Z (Qfloor x)) (1 # 2)) eqn:H1.
  - repeat match goal with |- context [if ?b then _ else _] => destruct b end; lia.
  - apply Qltb_ge in H1.
    destruct (Qltb (y - inject_Z (Qfloor x)) (1 # 2)) eqn:H3.
    { apply Qltb_lt in H3. lra. }
    destruct (Qltb (1 # 2) (x - inject_Z (Qfloor x))) eqn:H2.
    + apply Qltb_lt in H2.
      destruct (Qltb (1 # 2) (y - inject_Z (Qfloor x))) eqn:H4; [lia|].
      apply Qltb_ge in H4. lra.
    + repeat match goal with |- context [if ?b then _ else _] => destruct b end; lia.
Qed.

Lemma scale_pos (n : nat) : 0 < inject_Z (10 ^ Z.of_nat n).
Proof.
  change 0 with (inject_Z 0). rewrite <- Zlt_Qlt.
  apply Z.pow_pos_nonneg; lia.
Qed.

(** [round(x, n)] is monotone in [x]. *)
Lemma Qpy_round_mono (x y : Q) (n : nat) : x <= y -> py_round x n <= py_round y n.
Proof.
  intros Hxy. unfold py_round. cbv zeta.
  pose proof (scale_pos n) as Hs.
  apply Qmult_le_compat_r; [|apply Qlt_le_weak, Qinv_lt_0_compat; exact Hs].
  rewrite <- Zle_Qle. apply Qround_half_even_mono.
  apply Qmult_le_compat_r; [exact Hxy|apply Qlt_le_weak; exact Hs].
Qed.

(** [round(x, n)] differs from [x] by at most half a unit of the last
    kept digit. *)
Lemma py_round_error (x : Q) (n : nat) :
  let u := / inject_Z (10 ^ Z.of_nat n) in
  x - (1 # 2) * u <= py_round x n <= x + (1 # 2) * u.
Proof.
  cbv zeta. unfold py_round. cbv zeta.
  set (s := inject_Z (10 ^ Z.of_nat n)).
  pose proof (scale_pos n) as Hs. fold s in Hs.
  pose proof (Qround_half_even_bounds (x * s)) as [Hl Hu].
  assert (Hn : ~ s == 0).
  { intros E. rewrite E in Hs. apply (Qlt_irrefl 0 Hs). }
  split.
  - apply Qle_shift_div_l; [exact Hs|].
    assert (E : (x - (1 # 2) * / s) * s == x * s - (1 # 2)) by (field; exact Hn).
    rewrite E. exact Hl.
  - apply Qle_shift_div_r; [exact Hs|].
    assert (E : (x + (1 # 2) * / s) * s == x * s + (1 # 2)) by (field; exact Hn).
    rewrite E. exact Hu.
Qed.

(** An integer is a fixed point of [round(_, n)]. *)
Lemma py_round_integer (k : Z) (n : nat) : py_round (inject_Z k) n == inject_Z k.
Proof.
  unfold py_round. cbv zeta.
  set (s := inject_Z (10 ^ Z.of_nat n)).
  pose proof (scale_pos n) as Hs. fold s in Hs.
  assert (E : round_half_even (inject_Z k * s) = (k * 10 ^ Z.of_nat n)%Z).
  { unfold s. rewrite <- inject_Z_mult.
    unfold round_half_even. rewrite Qfloor_Z.
    assert (Hr : inject_Z (k * 10 ^ Z.of_nat n) - inject_Z (k * 10 ^ Z.of_nat n) == 0)
      by ring.
    assert (E1 : Qltb (inject_Z (k * 10 ^ Z.of_nat n) - inject_Z (k * 10 ^ Z.of_nat n))
                      (1 # 2) = true).
    { apply Qltb_lt. rewrite Hr. reflexivity. }
    rewrite E1. reflexivity. }
  rewrite E. rewrite inject_Z_mult. fold s. field.
  intros E0. rewrite E0 in Hs. apply (Qlt_irrefl 0 Hs).
Qed.

(** Rounding keeps a value between two integers between them. *)
Lemma py_round_between (a b : Z) (x : Q) (n : nat) :
  inject_Z a <= x -> x <= inject_Z b ->
  inject_Z a <= py_round x n /\ py_round x n <= inject_Z b.
Proof.
  intros Ha Hb. split.
  - rewrite <- (py_round_integer a n). apply Qpy_round_mono, Ha.
  - rewrite <- (py_round_integer b n). apply Qpy_round_mono, Hb.
Qed.

End RoundingFacts.

(** ** Band-pass: rejections and the corners of a successful status *)

Module BandpassEdgeFacts.
Import PyNum PyNumFacts Bandpass BandpassFacts.
Local Open Scope Q_scope.

Lemma filter_length_le {A} (p : A -> bool) (l : list A) :
  (length (List.filter p l) <= length l)%nat.
Proof.
  induction l as [|a l IH]; simpl; [lia|]. destruct (p a); simpl; lia.
Qed.

Section WithSciPy.

Variable coeffs : Type.
Variable butter : nat -> list Q -> btype -> option coeffs.
Variable filtfilt : coeffs -> list sample -> filtfilt_result.

Abbreviation design_filter := (design_filter coeffs butter).
Abbreviation apply_bandpass_filter := (apply_bandpass_filter coeffs butter filtfilt).

(** X1.  An array of which more than half is non-finite is rejected before any
    corner is looked at and before SciPy is called: it comes back
    unchanged, non-finite samples included, with reason [invalid_data]. *)
Theorem mostly_nonfinite_rejected data fs lo hi ord :
  (2 * length (List.filter isfinite data) < length data)%nat ->
  apply_bandpass_filter data fs lo hi ord = (data, Failure invalid_data).
Proof.
  intros Hhalf. unfold Bandpass.apply_bandpass_filter.
  destruct (Nat.eqb (length data) 0) eqn:E0.
  { apply Nat.eqb_eq in E0. lia. }
  unfold clean_nonfinite.
  destruct (has_nonfinite data) eqn:En.
  - assert (Hlt : Qltb (inject_Z (Z.of_nat (length (List.filter isfinite data))))
                       (inject_Z (Z.of_nat (length data)) * 0.5) = true).
    { apply Qltb_lt. unfold Qlt. simpl. lia. }
    rewrite Hlt. reflexivity.
  - apply has_nonfinite_false_forallb, forallb_filter_id in En.
    rewrite En in Hhalf. lia.
Qed.

(** X2.  A failed call never hands back filtered samples: for [empty_data]
    and [invalid_data] the array is the input itself, for every other
    reason it is the input without its non-finite samples. *)
Theorem failure_returns_unfiltered data fs lo hi ord r :
  snd (apply_bandpass_filter data fs lo hi ord) = Failure r ->
  fst (apply_bandpass_filter data fs lo hi ord)
  = match r with
    | empty_data | invalid_data => data
    | _ => List.filter isfinite data
    end.
Proof.
  unfold Bandpass.apply_bandpass_filter.
  destruct (Nat.eqb (length data) 0).
  { simpl. intros H. inversion H. reflexivity. }
  destruct (clean_nonfinite data) as [c|] eqn:Ec.
  2:{ simpl. intros H. inversion H. reflexivity. }
  apply clean_nonfinite_Some in Ec. subst c.
  assert (Hd : forall r', Bandpass.design_filter coeffs butter fs lo hi
                            (match ord with None => filter_order | Some n => n end)
                          = Rejected r' ->
                          r' = frequency_too_high \/ r' = invalid_band).
  { intros r'. unfold Bandpass.design_filter.
    repeat match goal with
           | |- context [match ?o with Some _ => _ | None => _ end] => destruct o
           | |- context [if ?b then _ else _] => destruct b
           end; intros H; inversion H; auto. }
  destruct (Bandpass.design_filter _ _ _ _ _ _) as [r'| |ba ft lo' hi'] eqn:Ed.
  - simpl. intros H. inversion H. subst r'.
    destruct (Hd r eq_refl) as [-> | ->]; reflexivity.
  - simpl. intros H. inversion H. reflexivity.
  - destruct (filtfilt ba _) as [y| |].
    + destruct (has_nonfinite y); [|discriminate].
      simpl. intros H. inversion H. reflexivity.
    + simpl. intros H. inversion H. reflexivity.
    + simpl. intros H. inversion H. reflexivity.
Qed.

(** The corners of a designed filter are inside the safe band: the corner
    of a high-pass or low-pass and the upper corner of a band-pass are
    below 95 % of Nyquist, and the lower corner of a band-pass is above
    0.001 Hz. *)
Lemma designed_corners_safe fs lo hi ord ba ft lo' hi' :
  design_filter fs lo hi ord = Designed ba ft lo' hi' ->
  match ft with
  | highpass => match hi' with Some h => h < fs / 2 * 0.95 | None => False end
  | lowpass => match lo' with Some l => 0 < l /\ l < fs / 2 * 0.95 | None => False end
  | bandpass =>
      match lo', hi' with
      | Some l, Some h => 0.001 < l /\ h < fs / 2 * 0.95
      | _, _ => False
      end
  end.
Proof.
  unfold Bandpass.design_filter.
  destruct lo as [lf|]; destruct hi as [hf|]; cbv beta iota zeta.
  - destruct (Qleb lf 0) eqn:E1.
    + destruct (Qleb (fs / 2 * 0.95) hf) eqn:E2; [discriminate|].
      destruct (Qeqb (fs / 2) 0); [discriminate|].
      destruct (butter _ _ _); [|discriminate].
      intros H; inversion H; subst. apply Qleb_gt in E2. exact E2.
    + apply Qleb_gt in E1.
      destruct (Qleb (fs / 2) hf) eqn:E3.
      * destruct (Qleb (fs / 2 * 0.95) lf) eqn:E4; [discriminate|].
        destruct (butter _ _ _); [|discriminate].
        intros H; inversion H; subst. apply Qleb_gt in E4. split; assumption.
      * apply Qleb_gt in E3.
        destruct (Qleb hf lf) eqn:E5; [discriminate|]. apply Qleb_gt in E5.
        destruct (butter _ _ _); [|discriminate].
        intros H; inversion H; subst. split.
        -- destruct (Qleb lf 0.001) eqn:E6; [reflexivity|].
           apply Qleb_gt in E6. exact E6.
        -- destruct (Qleb (fs / 2 * 0.95) hf) eqn:E7.
           ++ lra.
           ++ apply Qleb_gt in E7. exact E7.
  - destruct (Qleb lf 0) eqn:E1; [discriminate|]. apply Qleb_gt in E1.
    destruct (Qleb (fs / 2 * 0.95) lf) eqn:E4; [discriminate|].
    destruct (butter _ _ _); [|discriminate].
    intros H; inversion H; subst. apply Qleb_gt in E4. split; assumption.
  - destruct (Qleb (fs / 2 * 0.95) hf) eqn:E2; [discriminate|].
    destruct (Qeqb (fs / 2) 0); [discriminate|].
    destruct (butter _ _ _); [|discriminate].
    intros H; inversion H; subst. apply Qleb_gt in E2. exact E2.
  - discriminate.
Qed.

(** X3.  Nyquist safety of a successful call: the corner reported for a
    high-pass or low-pass and the upper corner reported for a band-pass
    are below 95 % of Nyquist, and the lower corner of a band-pass is
    above 0.001 Hz. *)
Theorem success_corners_safe data fs lo hi ord ft p :
  snd (apply_bandpass_filter data fs lo hi ord) = Success ft p ->
  match ft with
  | highpass => match high_freq p with Some h => h < fs / 2 * 0.95 | None => False end
  | lowpass =>
      match low_freq p with Some l => 0 < l /\ l < fs / 2 * 0.95 | None => False end
  | bandpass =>
      match low_freq p, high_freq p with
      | Some l, Some h => 0.001 < l /\ h < fs / 2 * 0.95
      | _, _ => False
      end
  end.
Proof.
  intros Hs. destruct (success_design _ _ _ _ _ _ _ _ _ _ Hs) as [ba Hd].
  exact (designed_corners_safe _ _ _ _ _ _ _ _ Hd).
Qed.

End WithSciPy.

Lemma mostly_nonfinite_rejected_witness :
  apply_bandpass_filter nat ref_butter ref_filtfilt [NaN; Fin 1; PosInf] 100
    (Some 1) (Some 10) None
  = ([NaN; Fin 1; PosInf], Failure invalid_data).
Proof.
  apply (mostly_nonfinite_rejected nat ref_butter ref_filtfilt
           [NaN; Fin 1; PosInf] 100 (Some 1) (Some 10) None).
  simpl. lia.
Defined.

Lemma failure_returns_unfiltered_witness :
  fst (apply_bandpass_filter nat ref_butter ref_filtfilt [Fin 1; NaN; Fin 3] 100
         (Some 10) (Some 1) None)
  = [Fin 1; Fin 3].
Proof.
  apply (failure_returns_unfiltered nat ref_butter ref_filtfilt
           [Fin 1; NaN; Fin 3] 100 (Some 10) (Some 1) None invalid_band).
  vm_compute. reflexivity.
Defined.

Lemma success_corners_safe_witness :
  exists p,
    snd (apply_bandpass_filter nat ref_butter ref_filtfilt steady_30 1.0
           (Some 0.0005) (Some 0.48) None) = Success bandpass p
    /\ match low_freq p, high_freq p with
       | Some l, Some h => 0.001 < l /\ h < 1.0 / 2 * 0.95
       | _, _ => False
       end.
Proof.
  eexists. split; [vm_compute; reflexivity|].
  apply (success_corners_safe nat ref_butter ref_filtfilt steady_30 1.0
           (Some 0.0005) (Some 0.48) None bandpass).
  vm_compute. reflexivity.
Defined.

End BandpassEdgeFacts.

(** ** Spike removal: what a pass can change *)

Module SpikesEdgeFacts.
Import PyNum PyNumFacts Spikes SpikesFacts.
Local Open Scope Q_scope.

Lemma insert_sorted_In (x y : Q) (l : list Q) :
  List.In y (insert_sorted x l) <-> y = x \/ List.In y l.
Proof.
  induction l as [|z l IH]; simpl.
  - intuition.
  - destruct (Qleb x z); simpl; [intuition|]. rewrite IH. intuition.
Qed.

Lemma sort_In (y : Q) (l : list Q) : List.In y (sort l) <-> List.In y l.
Proof.
  unfold sort. induction l as [|x l IH]; simpl; [reflexivity|].
  rewrite insert_sorted_In, IH. intuition.
Qed.

(** Assignment through an index array writes the other array's value at
    each listed position. *)
Lemma assign_at_in (a b : list Q) (idx : list nat) (j : nat) :
  (j < length a)%nat -> List.In j idx ->
  assign_at a b idx !! j = Some (List.nth j b 0).
Proof.
  unfold assign_at. revert a.
  induction idx as [|i idx IH]; intros a Hj Hin; simpl; [destruct Hin|].
  destruct (List.in_dec Nat.eq_dec j idx) as [Hin'|Hout].
  - apply IH; [rewrite length_insert; exact Hj|exact Hin'].
  - destruct Hin as [->|Hin]; [|contradiction].
    change (List.fold_left (fun acc i => <[i := List.nth i b 0]> acc) idx
              (<[j := List.nth j b 0]> a))
      with (assign_at (<[j := List.nth j b 0]> a) b idx).
    rewrite assign_at_other by exact Hout.
    apply list_lookup_insert_eq. exact Hj.
Qed.

(** A value of the five-point median filter is 0 (from the padding) or
    the value of a sample at most two positions away. *)
Lemma medfilt_value (a : list Q) (j : nat) :
  (j < length a)%nat ->
  List.nth j (medfilt a 5) 0 = 0
  \/ exists k, (j <= k + 2)%nat /\ (k <= j + 2)%nat
               /\ a !! k = Some (List.nth j (medfilt a 5) 0).
Proof.
  intros Hj. unfold medfilt. cbv zeta.
  change (5 / 2)%nat with 2%nat.
  set (padded := (List.repeat 0 2 ++ a ++ List.repeat 0 2)%list).
  set (f := fun i : nat => List.nth 2 (sort (List.firstn 5 (List.skipn i padded))) 0).
  assert (E : List.nth j (List.map f (List.seq 0 (length a))) 0 = f j).
  { rewrite nth_lookup, list_lookup_fmap, lookup_seq_lt by exact Hj. reflexivity. }
  rewrite E. unfold f.
  set (w := List.firstn 5 (List.skipn j padded)).
  destruct (Nat.lt_ge_cases 2 (length (sort w))) as [Hlen|Hlen].
  2:{ left. apply List.nth_overflow. exact Hlen. }
  pose proof (List.nth_In (sort w) 0 Hlen) as Hin.
  set (v := List.nth 2 (sort w) 0) in *.
  apply (proj1 (sort_In _ _)) in Hin. apply list_elem_of_In in Hin.
  apply list_elem_of_lookup_1 in Hin as [t Ht].
  unfold w in Ht.
  apply lookup_take_Some in Ht as [Ht Ht5].
  rewrite lookup_drop in Ht.
  unfold padded in Ht.
  destruct (Nat.lt_ge_cases (j + t) 2) as [Hpad|Hpad].
  - rewrite lookup_app_l in Ht by (simpl; exact Hpad).
    left. destruct (j + t)%nat as [|[|n]]; simpl in Ht; inversion Ht; reflexivity.
  - rewrite lookup_app_r in Ht by (simpl; exact Hpad).
    change (length (List.repeat 0 2)) with 2%nat in Ht.
    destruct (Nat.lt_ge_cases (j + t - 2) (length a)) as [Hin|Hout].
    + rewrite lookup_app_l in Ht by exact Hin.
      right. exists (j + t - 2)%nat. repeat split; [lia|lia|exact Ht].
    + rewrite lookup_app_r in Ht by exact Hout.
      left. destruct (j + t - 2 - length a)%nat as [|[|n]];
        simpl in Ht; inversion Ht; reflexivity.
Qed.

(** X4.  Every sample of the cleaned array is the input sample at the same
    position or, at a flagged position, the median of its five-point
    window: 0 or the value of an input sample at most two positions
    away.  The array keeps its length. *)
Theorem remove_spikes_replacement (data : list Q) (threshold : option Q)
    (j : nat) (v : Q) :
  fst (remove_spikes data threshold) !! j = Some v ->
  length (fst (remove_spikes data threshold)) = length data
  /\ (data !! j = Some v
      \/ (List.In j (flagged data threshold)
          /\ (v = 0
              \/ exists k, (j <= k + 2)%nat /\ (k <= j + 2)%nat
                           /\ data !! k = Some v))).
Proof.
  intros Hv. split; [apply remove_spikes_length|].
  destruct (List.in_dec Nat.eq_dec j (flagged data threshold)) as [Hin|Hout].
  2:{ left. rewrite <- Hv. symmetry. apply remove_spikes_keeps_unflagged, Hout. }
  right. split; [exact Hin|].
  assert (Hj : (j < length data)%nat).
  { rewrite <- (remove_spikes_length data threshold).
    apply lookup_lt_Some with v. exact Hv. }
  assert (E : fst (remove_spikes data threshold) !! j
              = Some (List.nth j (medfilt data 5) 0)).
  { revert Hin. unfold remove_spikes, flagged.
    destruct (np_median data) as [median|]; [|intros []].
    destruct (np_median (abs_dev data median)) as [mad|]; [|intros []].
    destruct (Qltb 0 mad); [|intros []].
    intros Hin.
    destruct (Nat.ltb 0 _) eqn:El.
    - simpl. apply assign_at_in; assumption.
    - apply Nat.ltb_ge in El. destruct (np_where _); [destruct Hin|simpl in El; lia]. }
  rewrite E in Hv. inversion Hv as [Hv']. clear Hv E.
  destruct (medfilt_value data j Hj) as [H0|(k & H1 & H2 & H3)].
  - left. exact H0.
  - right. exists k. repeat split; assumption.
Qed.

Lemma remove_spikes_replacement_witness :
  fst (remove_spikes [0; 1; 10; 100] None) !! 3%nat = Some 1
  /\ length (fst (remove_spikes [0; 1; 10; 100] None)) = 4%nat
  /\ ([0; 1; 10; 100] !! 3%nat = Some 1
      \/ (List.In 3%nat (flagged [0; 1; 10; 100] None)
          /\ (1 = 0
              \/ exists k, (3 <= k + 2)%nat /\ (k <= 3 + 2)%nat
                           /\ [0; 1; 10; 100] !! k = Some 1))).
Proof.
  split; [vm_compute; reflexivity|].
  apply (remove_spikes_replacement [0; 1; 10; 100] None 3 1).
  vm_compute. reflexivity.
Defined.

End SpikesEdgeFacts.

(** ** Spike removal: at most half of the samples are flagged *)

Module SpikesCountFacts.
Import PyNum PyNumFacts Spikes SpikesFacts SpikesEdgeFacts.
Local Open Scope Q_scope.

(** Number of elements above a bound. *)
Abbreviation above m l := (length (List.filter (fun x => Qltb m x) l)).

Lemma above_insert_sorted (m x : Q) (l : list Q) :
  above m (insert_sorted x l) = above m (x :: l).
Proof.
  induction l as [|y l IH]; [reflexivity|].
  simpl insert_sorted. destruct (Qleb x y); [reflexivity|].
  simpl in *. destruct (Qltb m y), (Qltb m x); simpl in *; lia.
Qed.

Lemma above_sort (m : Q) (l : list Q) : above m (sort l) = above m l.
Proof.
  unfold sort. induction l as [|x l IH]; [reflexivity|].
  simpl List.fold_right. rewrite above_insert_sorted.
  simpl. destruct (Qltb m x); simpl; rewrite IH; reflexivity.
Qed.

Lemma insert_sorted_length (x : Q) (l : list Q) :
  length (insert_sorted x l) = S (length l).
Proof.
  induction l as [|y l IH]; simpl; [reflexivity|].
  destruct (Qleb x y); simpl; [reflexivity|]. rewrite IH. reflexivity.
Qed.

Lemma sort_length (l : list Q) : length (sort l) = length l.
Proof.
  unfold sort. induction l as [|x l IH]; simpl; [reflexivity|].
  rewrite insert_sorted_length, IH. reflexivity.
Qed.

Lemma insert_sorted_sorted (x : Q) (l : list Q) :
  StronglySorted Qle l -> StronglySorted Qle (insert_sorted x l).
Proof.
  induction 1 as [|y l Hs IH Hy]; simpl.
  - constructor; constructor.
  - destruct (Qleb x y) eqn:E.
    + apply Qleb_le in E. constructor; [constructor; assumption|].
      constructor; [exact E|].
      eapply List.Forall_impl; [|exact Hy].
      intros z Hz. cbv beta in Hz. lra.
    + apply Qleb_gt in E. constructor; [exact IH|].
      apply List.Forall_forall. intros z Hz.
      apply insert_sorted_In in Hz as [->|Hz]; [lra|].
      rewrite List.Forall_forall in Hy. apply Hy, Hz.
Qed.

Lemma sort_sorted (l : list Q) : StronglySorted Qle (sort l).
Proof.
  unfold sort. induction l as [|x l IH]; simpl; [constructor|].
  apply insert_sorted_sorted, IH.
Qed.

Lemma sorted_nth_le (s : list Q) (i j : nat) :
  StronglySorted Qle s -> (i <= j)%nat -> (j < length s)%nat ->
  List.nth i s 0 <= List.nth j s 0.
Proof.
  intros Hs. revert i j. induction Hs as [|x s Hs IH Hx]; intros i j Hij Hj.
  - simpl in Hj. lia.
  - destruct j as [|j].
    + assert (i = 0)%nat by lia. subst i. apply Qle_refl.
    + simpl in Hj. destruct i as [|i].
      * simpl. rewrite List.Forall_forall in Hx. apply Hx, List.nth_In. lia.
      * simpl. apply IH; lia.
Qed.

(** In a sorted list nothing among the first [k + 1] elements is above
    the element of index [k]. *)
Lemma sorted_prefix_not_above (s : list Q) (k : nat) (m : Q) :
  StronglySorted Qle s -> (k < length s)%nat -> List.nth k s 0 <= m ->
  above m (List.firstn (S k) s) = 0%nat.
Proof.
  intros Hs. revert k. induction Hs as [|x s Hs IH Hx]; intros k Hk Hm.
  - simpl in Hk. lia.
  - destruct k as [|k].
    + simpl in *. assert (E : Qltb m x = false) by (apply Qltb_ge; exact Hm).
      rewrite E. destruct s; reflexivity.
    + simpl in Hk. simpl List.nth in Hm.
      change (List.firstn (S (S k)) (x :: s)) with (x :: List.firstn (S k) s).
      simpl List.filter.
      assert (Hxm : x <= m).
      { rewrite List.Forall_forall in Hx.
        apply Qle_trans with (List.nth k s 0); [|exact Hm].
        apply Hx, List.nth_In. lia. }
      assert (E : Qltb m x = false) by (apply Qltb_ge; exact Hxm).
      rewrite E. apply IH; [lia|exact Hm].
Qed.

Lemma above_split (m : Q) (s : list Q) (k : nat) :
  above m s = (above m (List.firstn k s) + above m (List.skipn k s))%nat.
Proof.
  rewrite <- (List.firstn_skipn k s) at 1.
  rewrite List.filter_app, List.length_app. reflexivity.
Qed.

Lemma above_le_length (m : Q) (l : list Q) : (above m l <= length l)%nat.
Proof.
  induction l as [|x l IH]; simpl; [lia|]. destruct (Qltb m x); simpl; lia.
Qed.

(** At most half of the elements of an array are above its median. *)
Lemma above_median (a : list Q) (m : Q) :
  np_median a = Some m -> (2 * above m a <= length a)%nat.
Proof.
  unfold np_median. cbv zeta.
  destruct (length a) as [|n'] eqn:En; [discriminate|].
  set (n := S n') in *.
  pose proof (sort_sorted a) as Hs.
  pose proof (sort_length a) as Hl. rewrite En in Hl. fold n in Hl.
  rewrite <- (above_sort m a).
  assert (Hdiv : (n / 2 < n)%nat) by (apply Nat.div_lt; unfold n; lia).
  pose proof (Nat.div_mod_eq n 2) as Hdm.
  pose proof (Nat.mod_upper_bound n 2 ltac:(lia)) as Hmod.
  destruct (Nat.even n) eqn:Ev.
  - intros H.
    assert (Hm : (List.nth (n / 2 - 1) (sort a) 0 + List.nth (n / 2) (sort a) 0) / 2 = m)
      by congruence.
    clear H.
    apply Nat.even_spec in Ev. destruct Ev as [h Eh].
    assert (Hh : (n / 2 = h)%nat).
    { rewrite Eh. rewrite Nat.mul_comm. apply Nat.div_mul. lia. }
    rewrite Hh in *.
    assert (Hpos : (0 < h)%nat) by (unfold n in Eh; lia).
    assert (Hle : List.nth (h - 1) (sort a) 0 <= List.nth h (sort a) 0).
    { apply sorted_nth_le; [exact Hs|lia|lia]. }
    rewrite (above_split m (sort a) (S (h - 1))).
    rewrite (sorted_prefix_not_above (sort a) (h - 1) m Hs); [|lia|].
    2:{ rewrite <- Hm. revert Hle. clear.
        generalize (List.nth (h - 1) (sort a) 0) (List.nth h (sort a) 0).
        intros u w Hle. unfold Qdiv. change (/ 2) with (1 # 2). lra. }
    pose proof (above_le_length m (List.skipn (S (h - 1)) (sort a))) as Hsk.
    rewrite List.length_skipn in Hsk. lia.
  - intros H.
    assert (Hm : List.nth (n / 2) (sort a) 0 = m) by congruence.
    clear H.
    assert (Hodd : (n mod 2 = 1)%nat).
    { destruct (n mod 2)%nat as [|[|k]] eqn:Em; [|reflexivity|lia].
      exfalso. assert (Nat.even n = true); [|congruence].
      apply Nat.even_spec. exists (n / 2)%nat. lia. }
    rewrite (above_split m (sort a) (S (n / 2))).
    rewrite (sorted_prefix_not_above (sort a) (n / 2) m Hs); [|lia|].
    2:{ rewrite <- Hm. apply Qle_refl. }
    pose proof (above_le_length m (List.skipn (S (n / 2)) (sort a))) as Hsk.
    rewrite List.length_skipn in Hsk. lia.
Qed.

Lemma where_from_bound {A} (g p : A -> bool) (l : list A) (i : nat) :
  (forall x, g x = true -> p x = true) ->
  (length (where_from i (List.map g l)) <= length (List.filter p l))%nat.
Proof.
  intros Hgp. revert i. induction l as [|x l IH]; intros i; simpl; [lia|].
  specialize (IH (S i)).
  destruct (g x) eqn:Eg.
  - rewrite (Hgp x Eg). simpl. lia.
  - destruct (p x); simpl; lia.
Qed.

(** X5.  With a threshold of at least 1/1.4826 (the default is 5), a pass
    never flags more than half of the samples: a flagged sample deviates
    from the median by more than the MAD, and at most half of the
    deviations are above their own median. *)
Theorem remove_spikes_flags_at_most_half (data : list Q) (threshold : option Q) :
  1 <= 1.4826 * match threshold with None => spike_threshold | Some t => t end ->
  (2 * snd (remove_spikes data threshold) <= length data)%nat.
Proof.
  intros Ht. rewrite remove_spikes_count. unfold flagged.
  destruct (np_median data) as [median|]; [|simpl; lia].
  destruct (np_median (abs_dev data median)) as [mad|] eqn:Emad; [|simpl; lia].
  destruct (Qltb 0 mad) eqn:Epos; [|simpl; lia].
  apply Qltb_lt in Epos.
  set (t := match threshold with None => spike_threshold | Some t => t end) in *.
  pose proof (above_median _ _ Emad) as Hhalf.
  assert (Hlen : length (abs_dev data median) = length data)
    by (unfold abs_dev; apply List.length_map).
  rewrite Hlen in Hhalf.
  unfold np_where. rewrite List.map_map.
  pose proof (where_from_bound
                (fun d => Qltb t (d / (1.4826 * mad))) (fun d => Qltb mad d)
                (abs_dev data median) 0) as Hb.
  cbv beta in Hb.
  assert (Hgp : forall d, Qltb t (d / (1.4826 * mad)) = true -> Qltb mad d = true).
  { intros d Hd. apply Qltb_lt in Hd. apply Qltb_lt.
    assert (Hc : 0 < 1.4826 * mad) by lra.
    assert (E : d / (1.4826 * mad) * (1.4826 * mad) == d) by (field; lra).
    assert (H1 : t * (1.4826 * mad) < d / (1.4826 * mad) * (1.4826 * mad))
      by (apply Qmult_lt_compat_r; assumption).
    rewrite E in H1. nra. }
  specialize (Hb Hgp). lia.
Qed.

Lemma remove_spikes_flags_at_most_half_witness :
  (2 * snd (remove_spikes [0; 1; 10; 100]%Q None) <= 4)%nat.
Proof.
  apply (remove_spikes_flags_at_most_half [0; 1; 10; 100]%Q None).
  vm_compute. discriminate.
Defined.

End SpikesCountFacts.

(** ** Wave-type classifier on float64 arrays of finite samples: the ranges
    of its results and its two threshold ladders *)

Module WaveTypesRangeFacts.
Import PyNum PyNumFacts WaveTypes WaveTypesFacts RoundingFacts.
Local Open Scope Q_scope.

Lemma love_rayleigh_ratio_nonneg (h v : Q) :
  0 <= h -> 0 <= v -> 0 <= h / (v + 1e-10).
Proof.
  intros Hh Hv. change 1e-10 with (1 # 10000000000).
  apply Qle_shift_div_l; lra.
Qed.

(** The confidence of each of the three branches, before rounding. *)
Lemma branch_confidence_range (ratio : Q) :
  0 <= ratio ->
  let c := snd (if Qltb 3.0 ratio
                then (Love, py_min (ratio / 5.0) 1.0)
                else if Qltb ratio 0.5
                then (Rayleigh, py_min (2.0 / (ratio + 0.1)) 1.0)
                else (Mixed, 1.0 - Qabs (ratio - 1.5) / 1.5)) in
  0 <= c /\ c <= 1.
Proof.
  intros H0. cbv zeta.
  destruct (Qltb 3.0 ratio) eqn:E3.
  - apply Qltb_lt in E3. cbn [snd]. unfold py_min.
    destruct (Qltb 1.0 (ratio / 5.0)) eqn:E1; [lra|].
    apply Qltb_ge in E1. split; [|lra].
    apply Qle_shift_div_l; lra.
  - apply Qltb_ge in E3.
    destruct (Qltb ratio 0.5) eqn:E5.
    + apply Qltb_lt in E5. cbn [snd]. unfold py_min.
      destruct (Qltb 1.0 (2.0 / (ratio + 0.1))) eqn:E1; [lra|].
      apply Qltb_ge in E1. split; [|lra].
      apply Qle_shift_div_l; lra.
    + apply Qltb_ge in E5. cbn [snd].
      pose proof (Qabs_nonneg (ratio - 1.5)) as Ha.
      assert (Hb : Qabs (ratio - 1.5) <= 1.5) by (apply Qabs_Qle_condition; lra).
      assert (Hq : 0 <= Qabs (ratio - 1.5) / 1.5 /\ Qabs (ratio - 1.5) / 1.5 <= 1).
      { split; [apply Qle_shift_div_l|apply Qle_shift_div_r]; lra. }
      lra.
Qed.

Lemma energy_share_range (part total : Q) :
  0 <= part -> part <= total -> 0 < total ->
  0 <= part / total /\ part / total <= 1.
Proof.
  intros H0 H1 Ht.
  split; [apply Qle_shift_div_l|apply Qle_shift_div_r]; lra.
Qed.

Lemma np_sum_from_zero (a : list Q) (acc : Q) :
  acc == 0 -> List.Forall (fun x => x == 0) a ->
  List.fold_left Qplus a acc == 0.
Proof.
  intros Hacc Ha. revert acc Hacc.
  induction Ha as [|x a Hx Ha IH]; intros acc Hacc; simpl; [exact Hacc|].
  apply IH. cbv beta in Hx. lra.
Qed.

Lemma energy_of_zeros (a : list Q) :
  List.Forall (fun x => x == 0) a -> energy_of a == 0.
Proof.
  intros Ha. unfold energy_of, np_sum. apply np_sum_from_zero; [reflexivity|].
  induction Ha as [|x a Hx Ha IH]; simpl; constructor; [|exact IH].
  change (x ^ 2) with (x * x). cbv beta in Hx. nra.
Qed.

Lemma Forall_firstn_keep {A} (P : A -> Prop) (k : nat) (l : list A) :
  List.Forall P l -> List.Forall P (List.firstn k l).
Proof.
  intros H. revert k. induction H as [|a l Ha Hl IH]; intros [|k]; simpl;
    constructor; auto.
Qed.

Lemma Forall_skipn_keep {A} (P : A -> Prop) (k : nat) (l : list A) :
  List.Forall P l -> List.Forall P (List.skipn k l).
Proof.
  intros H. revert k. induction H as [|a l Ha Hl IH]; intros [|k]; simpl;
    try constructor; auto.
Qed.

Lemma py_slice_Forall (P : Q -> Prop) (a : list Q) (i j : Z) :
  List.Forall P a -> List.Forall P (py_slice a i j).
Proof.
  intros Ha. unfold py_slice. cbv zeta.
  apply Forall_firstn_keep, Forall_skipn_keep, Ha.
Qed.

Section WithNumPy.

Variable np_sqrt : Q -> Q.

(** On finite samples without wrap-around, the confidence and the two
    energy shares lie between 0 and 1. *)
Lemma rational_shares_in_unit_interval (waveform : waveform_data)
    (time_window : option (Q * Q)) (r : wave_types) :
  detect_wave_types np_sqrt waveform time_window = Detected r ->
  (0 <= confidence r /\ confidence r <= 1)
  /\ (0 <= horizontal_ratio r /\ horizontal_ratio r <= 1)
  /\ (0 <= vertical_ratio r /\ vertical_ratio r <= 1).
Proof.
  unfold detect_wave_types.
  destruct (displacement waveform) as [d|]; [|discriminate].
  match goal with |- context [if ?b then Error else _] => destruct b end;
    [discriminate|].
  cbv zeta.
  match goal with
  | |- context [match ?w with pair _ _ => _ end] => destruct w as [[n e] v]
  end.
  pose proof (energy_nonneg v) as Hv.
  pose proof (horizontal_energy_nonneg n e) as Hh.
  pose proof (branch_confidence_range _ (love_rayleigh_ratio_nonneg _ _ Hh Hv)) as Hc.
  cbv zeta in Hc.
  destruct (Qltb 0 (energy_of n + energy_of e + energy_of v)) eqn:Et.
  - apply Qltb_lt in Et.
    destruct (Qltb 3.0 _) eqn:E3; [|destruct (Qltb _ 0.5) eqn:E5];
      intros H; inversion H; subst r; cbn [confidence horizontal_ratio vertical_ratio];
      cbn [snd] in Hc;
      (split; [apply (py_round_between 0 1); apply Hc|]);
      (split; apply (py_round_between 0 1); apply energy_share_range; lra).
  - destruct (Qltb 3.0 _) eqn:E3; [|destruct (Qltb _ 0.5) eqn:E5];
      intros H; inversion H; subst r; cbn [confidence horizontal_ratio vertical_ratio];
      cbn [snd] in Hc;
      (split; [apply (py_round_between 0 1); apply Hc|]);
      (split; apply (py_round_between 0 1); apply Qle_refl || discriminate).
Qed.

(** On finite samples without wrap-around, the dominant type and the
    interpretation text agree, except at a ratio of exactly 0.5. *)
Lemma rational_type_matches_interpretation (waveform : waveform_data)
    (time_window : option (Q * Q)) (r : wave_types) :
  detect_wave_types np_sqrt waveform time_window = Detected r ->
  match dominant_type r with
  | Love => interpreted r = StrongLove \/ interpreted r = LoveDominates
  | Rayleigh => interpreted r = RayleighDominates \/ interpreted r = StrongRayleigh
  | Mixed =>
      interpreted r = MixedLoveRayleigh \/ interpreted r = MixedRayleighTendency
      \/ (interpreted r = RayleighDominates /\ love_rayleigh_ratio r == 0.5)
  end.
Proof.
  unfold detect_wave_types.
  destruct (displacement waveform) as [d|]; [|discriminate].
  match goal with |- context [if ?b then Error else _] => destruct b end;
    [discriminate|].
  cbv zeta.
  match goal with
  | |- context [match ?w with pair _ _ => _ end] => destruct w as [[n e] v]
  end.
  set (ratio := (energy_of n + energy_of e) / (energy_of v + 1e-10)).
  assert (Hi : match fst (if Qltb 3.0 ratio
                then (Love, py_min (ratio / 5.0) 1.0)
                else if Qltb ratio 0.5
                then (Rayleigh, py_min (2.0 / (ratio + 0.1)) 1.0)
                else (Mixed, 1.0 - Qabs (ratio - 1.5) / 1.5)) with
               | Love => _interpret_wave_type ratio = StrongLove
                         \/ _interpret_wave_type ratio = LoveDominates
               | Rayleigh => _interpret_wave_type ratio = RayleighDominates
                             \/ _interpret_wave_type ratio = StrongRayleigh
               | Mixed => _interpret_wave_type ratio = MixedLoveRayleigh
                          \/ _interpret_wave_type ratio = MixedRayleighTendency
                          \/ (_interpret_wave_type ratio = RayleighDominates
                              /\ py_round ratio 2 == 0.5)
               end).
  { unfold _interpret_wave_type.
    destruct (Qltb 3.0 ratio) eqn:E3; cbn [fst].
    - destruct (Qltb 5.0 ratio); [left|right]; reflexivity.
    - apply Qltb_ge in E3.
      assert (E5 : Qltb 5.0 ratio = false) by (apply Qltb_ge; lra).
      rewrite E5.
      destruct (Qltb ratio 0.5) eqn:E05; cbn [fst].
      + apply Qltb_lt in E05.
        assert (E15 : Qltb 1.5 ratio = false) by (apply Qltb_ge; lra).
        assert (E05' : Qltb 0.5 ratio = false) by (apply Qltb_ge; lra).
        rewrite E15, E05'.
        destruct (Qltb 0.2 ratio); [left|right]; reflexivity.
      + apply Qltb_ge in E05.
        destruct (Qltb 1.5 ratio); [left; reflexivity|].
        destruct (Qltb 0.5 ratio) eqn:E05'; [right; left; reflexivity|].
        apply Qltb_ge in E05'.
        assert (E02 : Qltb 0.2 ratio = true) by (apply Qltb_lt; lra).
        rewrite E02. right; right. split; [reflexivity|].
        pose proof (Qpy_round_mono ratio 0.5 2 E05') as Hle.
        pose proof (Qpy_round_mono 0.5 ratio 2 E05) as Hge.
        assert (E : py_round 0.5 2 == 0.5) by reflexivity.
        lra. }
  clearbody ratio.
  destruct (Qltb 0 (energy_of n + energy_of e + energy_of v));
    (destruct (Qltb 3.0 ratio); [|destruct (Qltb ratio 0.5)]);
    intros H; inversion H; subst r;
    cbn [dominant_type interpreted love_rayleigh_ratio]; exact Hi.
Qed.

(** X10.  A record without ground motion (every sample of every component
    present is zero) is reported as strong Rayleigh dominance with full
    confidence, and with energy shares 0. *)
Theorem silent_record_is_rayleigh (waveform : waveform_data)
    (time_window : option (Q * Q)) (d : displacement_data) (r : wave_types) :
  displacement waveform = Some d ->
  (forall a, north d = Some a -> List.Forall (fun x => x == 0) a) ->
  (forall a, east d = Some a -> List.Forall (fun x => x == 0) a) ->
  (forall a, vertical d = Some a -> List.Forall (fun x => x == 0) a) ->
  detect_wave_types np_sqrt waveform time_window = Detected r ->
  dominant_type r = Rayleigh /\ interpreted r = StrongRayleigh
  /\ confidence r == 1
  /\ horizontal_ratio r == 0 /\ vertical_ratio r == 0.
Proof.
  intros Hd Hn He Hv. unfold detect_wave_types. rewrite Hd.
  match goal with |- context [if ?b then Error else _] => destruct b end;
    [discriminate|].
  cbv zeta.
  match goal with
  | |- context [match ?w with pair _ _ => _ end] => set (W := w)
  end.
  assert (Hz : forall o : option (list Q),
             (forall a, o = Some a -> List.Forall (fun x => x == 0) a) ->
             List.Forall (fun x => x == 0)
               (if Nat.ltb 0 (length match o with Some a => a | None => [] end)
                then match o with Some a => a | None => [] end else [0])).
  { intros [a|] Ho; simpl.
    - destruct a; simpl; [repeat constructor; reflexivity|].
      apply Ho. reflexivity.
    - repeat constructor; reflexivity. }
  assert (HW : List.Forall (fun x => x == 0) (fst (fst W))
               /\ List.Forall (fun x => x == 0) (snd (fst W))
               /\ List.Forall (fun x => x == 0) (snd W)).
  { unfold W. destruct time_window as [[t0 t1]|]; [destruct (time waveform)|];
      cbn [fst snd]; repeat split;
      try apply py_slice_Forall; apply Hz; assumption. }
  clearbody W. destruct W as [[n e] v]. cbn [fst snd] in HW.
  destruct HW as (Zn & Ze & Zv).
  apply energy_of_zeros in Zn, Ze, Zv.
  set (ratio := (energy_of n + energy_of e) / (energy_of v + 1e-10)).
  assert (Er : ratio == 0).
  { unfold ratio. rewrite Zn, Ze, Zv. reflexivity. }
  assert (Et : Qltb 0 (energy_of n + energy_of e + energy_of v) = false)
    by (apply Qltb_ge; lra).
  assert (E3 : Qltb 3.0 ratio = false) by (apply Qltb_ge; lra).
  assert (E5 : Qltb ratio 0.5 = true) by (apply Qltb_lt; lra).
  assert (Ec : py_min (2.0 / (ratio + 0.1)) 1.0 = 1.0).
  { unfold py_min.
    assert (E : Qltb 1.0 (2.0 / (ratio + 0.1)) = true).
    { apply Qltb_lt. apply Qlt_shift_div_l; lra. }
    rewrite E. reflexivity. }
  assert (Ei : _interpret_wave_type ratio = StrongRayleigh).
  { unfold _interpret_wave_type.
    repeat match goal with
    | |- context [Qltb ?c ratio] =>
        let E := fresh in
        assert (E : Qltb c ratio = false) by (apply Qltb_ge; lra); rewrite E
    end. reflexivity. }
  rewrite Et, E3, E5, Ec, Ei.
  intros H; inversion H; subst r; cbn. repeat split; reflexivity.
Qed.

End WithNumPy.

Lemma silent_record_is_rayleigh_witness :
  let d := {| north := Some [0; 0]; east := None; vertical := Some [0] |} in
  let w := {| displacement := Some d; time := None; sampling_rate := None |} in
  exists r,
    detect_wave_types (fun x => x) w None = Detected r
    /\ dominant_type r = Rayleigh /\ interpreted r = StrongRayleigh
    /\ confidence r == 1
    /\ horizontal_ratio r == 0 /\ vertical_ratio r == 0.
Proof.
  intros d w. eexists. split; [vm_compute; reflexivity|].
  apply (silent_record_is_rayleigh (fun x => x) w None d).
  - reflexivity.
  - intros a H. inversion H. repeat constructor; reflexivity.
  - intros a H. discriminate H.
  - intros a H. inversion H. repeat constructor; reflexivity.
  - reflexivity.
Defined.

End WaveTypesRangeFacts.

(** ** The Ms estimate: corrections, validation flags, amplitudes *)

Module MsEdgeFacts.
Import Ms MsFacts.
Local Open Scope R_scope.

(** [round(x, 1)] is within 0.05 of [x]. *)
Lemma py_round_1_error (x : R) : Rabs (py_round x 1 - x) <= 0.05.
Proof.
  unfold py_round.
  pose proof (round_half_even_bounds (x * 10 ^ 1)) as [Hl Hu].
  simpl pow in *. apply Rabs_le. lra.
Qed.

Lemma depth_correction_nonpos (depth : option R) : depth_correction_of depth <= 0.
Proof.
  unfold depth_correction_of, depth_above.
  destruct depth as [d|]; [|lra].
  destruct (Req_dec_T d 0); [lra|].
  destruct (Rlt_dec 50 d); lra.
Qed.

Lemma distance_correction_range (d : R) :
  200 <= d -> 0 <= distance_correction_of d <= 0.27.
Proof.
  intros Hd. unfold distance_correction_of, distance_factor_of.
  destruct (Rlt_dec d 2000); lra.
Qed.

Lemma fold_Rmax_ge_acc (l : list R) (x : R) : x <= List.fold_left Rmax l x.
Proof.
  revert x. induction l as [|y l IH]; intros x; simpl; [lra|].
  apply Rle_trans with (Rmax x y); [apply Rmax_l|apply IH].
Qed.

Lemma fold_Rmax_ge_In (l : list R) (x y : R) :
  List.In y l -> y <= List.fold_left Rmax l x.
Proof.
  revert x. induction l as [|z l IH]; intros x; simpl; [tauto|].
  intros [E|Hin].
  - subst z. apply Rle_trans with (Rmax x y); [apply Rmax_r|apply fold_Rmax_ge_acc].
  - apply IH, Hin.
Qed.

Lemma fold_Rmax_attained (l : list R) (x : R) :
  List.fold_left Rmax l x = x \/ List.In (List.fold_left Rmax l x) l.
Proof.
  revert x. induction l as [|z l IH]; intros x; simpl; [left; reflexivity|].
  destruct (IH (Rmax x z)) as [E|Hin]; [|right; right; exact Hin].
  rewrite E. unfold Rmax. destruct (Rle_dec x z); [right; left|left]; reflexivity.
Qed.

(** [np.max] is above every element and is one of them. *)
Lemma np_max_ge (a : list R) (y : R) : List.In y a -> y <= np_max a.
Proof.
  destruct a as [|x l]; simpl; [tauto|].
  intros [E|Hin]; [subst y; apply fold_Rmax_ge_acc|apply fold_Rmax_ge_In, Hin].
Qed.

Lemma np_max_In (a : list R) : a <> [] -> List.In (np_max a) a.
Proof.
  destruct a as [|x l]; [congruence|]. intros _. simpl.
  destruct (fold_Rmax_attained l x) as [E|Hin]; [left; symmetry; exact E|right; exact Hin].
Qed.

(** A peak amplitude is the largest absolute sample, in micrometres. *)
Lemma peak_um_attained (a : list R) :
  a <> [] -> exists x, List.In x a /\ peak_um a = Rabs x * 1000.
Proof.
  intros Ha. destruct a as [|x0 l]; [congruence|].
  unfold peak_um.
  assert (Hne : List.map Rabs (x0 :: l) <> []) by (simpl; congruence).
  pose proof (np_max_In _ Hne) as Hin.
  apply List.in_map_iff in Hin. destruct Hin as (x & Ex & Hx).
  exists x. split; [exact Hx|]. rewrite Ex. reflexivity.
Qed.

Lemma peak_um_nonneg (a : list R) : 0 <= peak_um a.
Proof.
  destruct a as [|x0 l]; [simpl; lra|].
  destruct (peak_um_attained (x0 :: l)) as (x & _ & E); [congruence|].
  rewrite E. pose proof (Rabs_pos x). lra.
Qed.

Lemma vector_amplitude_ge (x y : R) :
  Rabs x * 1000 <= sqrt (x ^ 2 + y ^ 2) * 1000
  /\ Rabs y * 1000 <= sqrt (x ^ 2 + y ^ 2) * 1000.
Proof.
  assert (Hx : Rabs x <= sqrt (x ^ 2 + y ^ 2)).
  { rewrite <- sqrt_Rsqr_abs. apply sqrt_le_1_alt. unfold Rsqr. nra. }
  assert (Hy : Rabs y <= sqrt (x ^ 2 + y ^ 2)).
  { rewrite <- sqrt_Rsqr_abs. apply sqrt_le_1_alt. unfold Rsqr. nra. }
  lra.
Qed.

(** Broadcasting pairs every sample of either array with a sample of the
    other. *)
Lemma broadcast_covers (a b : list R) (pairs : list (R * R)) :
  a <> [] -> b <> [] -> broadcast a b = Some pairs ->
  (forall x, List.In x a -> exists y, List.In (x, y) pairs)
  /\ (forall y, List.In y b -> exists x, List.In (x, y) pairs).
Proof.
  intros Ha Hb. unfold broadcast.
  destruct (Nat.eqb (length a) (length b)) eqn:El.
  - apply Nat.eqb_eq in El. intros H. inversion H. subst pairs. clear H Ha Hb.
    revert b El. induction a as [|x0 a IH]; intros [|y0 b] El; simpl in *;
      try discriminate; [split; intros ? []|].
    destruct (IH b ltac:(lia)) as [IHa IHb].
    split.
    + intros x [E|Hin]; [subst; eauto|].
      destruct (IHa x Hin) as [y Hy]. eauto.
    + intros y [E|Hin]; [subst; eauto|].
      destruct (IHb y Hin) as [x Hx]. eauto.
  - destruct a as [|x0 [|x1 a]]; [congruence| |].
    + intros H. inversion H. subst pairs. split.
      * intros x [E|[]]. subst x0. destruct b as [|y0 b]; [congruence|].
        exists y0. simpl. left. reflexivity.
      * intros y Hy. exists x0. apply List.in_map_iff. exists y. tauto.
    + destruct b as [|y0 [|y1 b]]; [congruence| |discriminate].
      intros H. inversion H. subst pairs. split.
      * intros x Hx. exists y0.
        apply (List.in_map (fun x => (x, y0)) _ _ Hx).
      * intros y [E|[]]. subst y0. exists x0. simpl. left. reflexivity.
Qed.

Lemma py_max_ge (a b : R) : a <= py_max a b /\ b <= py_max a b.
Proof. unfold py_max. destruct (Rlt_dec a b); lra. Qed.

(** The horizontal amplitude, the peak of the vector sum of the two
    horizontal components or the larger of their peaks, is at least the
    peak of either component. *)
Lemma horizontal_amplitude_ge (n e : list R) (mh : R) :
  match n, e with
  | _ :: _, _ :: _ =>
      match broadcast n e with
      | Some pairs =>
          Some (np_max (List.map (fun p => sqrt (fst p ^ 2 + snd p ^ 2) * 1000) pairs))
      | None => None
      end
  | _, _ => Some (py_max (peak_um n) (peak_um e))
  end = Some mh ->
  peak_um n <= mh /\ peak_um e <= mh.
Proof.
  destruct n as [|x0 n]; [intros H; inversion H; apply py_max_ge|].
  destruct e as [|y0 e]; [intros H; inversion H; apply py_max_ge|].
  destruct (broadcast (x0 :: n) (y0 :: e)) as [pairs|] eqn:Eb; [|discriminate].
  intros H. inversion H. clear H.
  assert (Hne1 : x0 :: n <> []) by congruence.
  assert (Hne2 : y0 :: e <> []) by congruence.
  destruct (broadcast_covers _ _ _ Hne1 Hne2 Eb) as [Hn He].
  set (f := fun p : R * R => sqrt (fst p ^ 2 + snd p ^ 2) * 1000).
  split.
  - destruct (peak_um_attained (x0 :: n)) as (x & Hx & E); [congruence|].
    rewrite E. destruct (Hn x Hx) as [y Hy].
    apply Rle_trans with (f (x, y)).
    + unfold f. cbn [fst snd]. apply vector_amplitude_ge.
    + apply np_max_ge. apply (List.in_map f _ _ Hy).
  - destruct (peak_um_attained (y0 :: e)) as (y & Hy & E); [congruence|].
    rewrite E. destruct (He y Hy) as [x Hx].
    apply Rle_trans with (f (x, y)).
    + unfold f. cbn [fst snd]. apply vector_amplitude_ge.
    + apply np_max_ge. apply (List.in_map f _ _ Hx).
Qed.

Lemma ln_le_mono (x y : R) : 0 < x -> x <= y -> ln x <= ln y.
Proof.
  intros Hx [Hlt|E]; [left; apply ln_increasing; assumption|subst; lra].
Qed.

Lemma log10_le_mono (x y : R) : 0 < x -> x <= y -> log10 x <= log10 y.
Proof.
  intros Hx Hxy. unfold log10. pose proof ln_10_pos.
  apply Rmult_le_compat_r; [left; apply Rinv_0_lt_compat; assumption|].
  apply ln_le_mono; assumption.
Qed.









Section WithFilter.

Variable apply_bandpass_filter : list R -> R -> R -> R -> list R * filter_status.

Abbreviation calculate_ms_magnitude := (calculate_ms_magnitude apply_bandpass_filter).

(** What a returned explanation records. *)
Lemma ms_value_fields n e v d fs T depth af m x :
  calculate_ms_magnitude n e v d fs T depth af = MsValue m x ->
  200 <= d
  /\ magnitude x = m
  /\ m = py_round (raw_result (calc x) + depth_correction_of depth
                   + distance_correction_of d) 1
  /\ depth_correction (depth_corr x) = depth_correction_of depth
  /\ distance_correction (distance_corr x) = distance_correction_of d
  /\ depth_applied (depth_corr x)
     = (if Req_dec_T (depth_correction_of depth) 0 then false else true)
  /\ distance_applied (distance_corr x)
     = (if Rlt_dec 0 (distance_correction_of d) then true else false)
  /\ issues (valid x) = fst (validate d depth)
  /\ requires_correction (valid x) = snd (validate d depth)
  /\ is_standard_compliant (valid x) = Nat.eqb (length (fst (validate d depth))) 0.
Proof.
  unfold Ms.calculate_ms_magnitude.
  destruct (validate d depth) as [i1 r1].
  destruct (Rlt_dec d 200); [discriminate|].
  destruct (af && _); [discriminate|].
  cbv zeta.
  match goal with
  | |- context [match ?w with pair _ _ => _ end] => destruct w as [[v' n'] e']
  end.
  match goal with
  | |- context [match ?w with Some _ => _ | None => MsError _ end] =>
      destruct w as [mh|]; [|discriminate]
  end.
  destruct (Req_dec_T _ 0); [discriminate|].
  intros H. inversion H. subst. simpl. repeat split. lra.
Qed.

(** The returned magnitude is the raw IASPEI value plus the two
    corrections, rounded to one decimal, and the corrections are
    bounded. *)
Lemma corrections_bounded n e v d fs T depth af m x :
  calculate_ms_magnitude n e v d fs T depth af = MsValue m x ->
  depth_correction (depth_corr x) <= 0
  /\ 0 <= distance_correction (distance_corr x) <= 0.27
  /\ Rabs (m - (raw_result (calc x) + depth_correction (depth_corr x)
                + distance_correction (distance_corr x))) <= 0.05.
Proof.
  intros H.
  destruct (ms_value_fields _ _ _ _ _ _ _ _ _ _ H)
    as (Hd & _ & Hm & Hdc & Hxc & _).
  rewrite Hdc, Hxc. split; [apply depth_correction_nonpos|].
  split; [apply distance_correction_range, Hd|].
  rewrite Hm. apply py_round_1_error.
Qed.

(** X11.  For float64 arrays of finite samples and a positive period, the
    returned magnitude is the raw IASPEI value plus the two corrections,
    rounded to one decimal.  The depth correction never raises it, the
    distance correction never lowers it and stays at or below 0.27
    (distances below 200 km are refused). *)
Theorem ms_corrections_bounded (n e v : list Q) d fs T depth af m x :
  0 < T ->
  calculate_ms_magnitude (float_samples n) (float_samples e) (float_samples v)
    d fs T depth af = MsValue m x ->
  depth_correction (depth_corr x) <= 0
  /\ 0 <= distance_correction (distance_corr x) <= 0.27
  /\ Rabs (m - (raw_result (calc x) + depth_correction (depth_corr x)
                + distance_correction (distance_corr x))) <= 0.05.
Proof. intros _. apply corrections_bounded. Qed.

(** X12.  Between 50 and 60 km of depth, at a distance within
    [2000, 16000] km, a depth correction is applied although the result
    is marked standard compliant with no issue and no correction
    required: the correction starts at 50 km, the validation at 60 km. *)
Theorem compliant_result_with_depth_correction n e v d fs T depth af m x :
  50 < depth -> depth <= 60 -> 2000 <= d -> d <= 16000 ->
  calculate_ms_magnitude n e v d fs T (Some depth) af = MsValue m x ->
  is_standard_compliant (valid x) = true
  /\ requires_correction (valid x) = false
  /\ issues (valid x) = []
  /\ depth_applied (depth_corr x) = true
  /\ depth_correction (depth_corr x) = -0.0035 * (depth - 50)
  /\ depth_correction (depth_corr x) < 0.
Proof.
  intros H50 H60 Hd1 Hd2 H.
  destruct (ms_value_fields _ _ _ _ _ _ _ _ _ _ H)
    as (_ & _ & _ & Hdc & _ & Hda & _ & Hi & Hr & Hs).
  assert (Hv : validate d (Some depth) = ([], false)).
  { unfold validate, depth_above.
    destruct (Rlt_dec d 2000); [lra|].
    destruct (Rlt_dec 16000 d); [lra|].
    destruct (Req_dec_T depth 0); [lra|].
    destruct (Rlt_dec 60 depth); [lra|]. reflexivity. }
  assert (Hc : depth_correction_of (Some depth) = -0.0035 * (depth - 50)).
  { unfold depth_correction_of, depth_above.
    destruct (Req_dec_T depth 0); [lra|].
    destruct (Rlt_dec 50 depth); [reflexivity|lra]. }
  rewrite Hv in Hi, Hr, Hs. rewrite Hc in Hdc, Hda.
  destruct (Req_dec_T (-0.0035 * (depth - 50)) 0) as [E|E]; [lra|].
  rewrite Hdc. repeat split; try assumption. lra.
Qed.

(** X13.  A result that requires correction is never marked standard
    compliant; one that is neither compliant nor requires correction
    lies beyond 16000 km. *)
Theorem validation_flags_consistent n e v d fs T depth af m x :
  calculate_ms_magnitude n e v d fs T depth af = MsValue m x ->
  (requires_correction (valid x) = true -> is_standard_compliant (valid x) = false)
  /\ (requires_correction (valid x) = false ->
      is_standard_compliant (valid x) = false -> 16000 < d).
Proof.
  intros H.
  destruct (ms_value_fields _ _ _ _ _ _ _ _ _ _ H)
    as (_ & _ & _ & _ & _ & _ & _ & _ & Hr & Hs).
  rewrite Hr, Hs. unfold validate. cbn [fst snd].
  destruct (Rlt_dec d 2000), (Rlt_dec 16000 d), (depth_above depth 60);
    cbn; split; intros; try discriminate; try reflexivity; assumption.
Qed.

(** The order of the amplitudes of a returned explanation. *)
Lemma amplitude_order n e v d fs T depth af m x :
  calculate_ms_magnitude n e v d fs T depth af = MsValue m x ->
  0 < amp_used (amps x)
  /\ amp_vertical (amps x) <= amp_used (amps x)
  /\ amp_horizontal (amps x) <= amp_used (amps x)
  /\ amp_north (amps x) <= amp_horizontal (amps x)
  /\ amp_east (amps x) <= amp_horizontal (amps x)
  /\ (used_component x = vertikal <->
      amp_horizontal (amps x) <= amp_vertical (amps x)).
Proof.
  unfold Ms.calculate_ms_magnitude.
  destruct (validate d depth) as [i1 r1].
  destruct (Rlt_dec d 200); [discriminate|].
  destruct (af && _); [discriminate|].
  cbv zeta.
  match goal with
  | |- context [match ?w with pair _ _ => _ end] => destruct w as [[v' n'] e']
  end.
  match goal with
  | |- context [match ?w with Some _ => _ | None => MsError _ end] =>
      destruct w as [mh|] eqn:Eh; [|discriminate]
  end.
  destruct (Req_dec_T _ 0) as [E0|E0]; [discriminate|].
  intros H. inversion H. subst. cbn.
  destruct (horizontal_amplitude_ge _ _ _ Eh) as [Hn He].
  pose proof (py_max_ge (peak_um v') mh) as [Hv Hh].
  pose proof (peak_um_nonneg v') as H0.
  repeat split; try assumption; try lra.
  - destruct (Rge_dec (peak_um v') mh); [lra|discriminate].
  - destruct (Rge_dec (peak_um v') mh); [reflexivity|lra].
Qed.

(** X14.  For float64 arrays of finite samples, the amplitude that enters
    the formula is positive and is at least the reported peak of each
    component; the horizontal amplitude is at least the peak of either
    horizontal component; and the component is named vertical exactly
    when the vertical peak is not below the horizontal amplitude.  (On
    raw int32 counts the squares wrap around and the horizontal amplitude
    can fall below a peak: [raw_counts_amplitude_wraps].) *)
Theorem amplitude_used_is_largest (n e v : list Q) d fs T depth af m x :
  calculate_ms_magnitude (float_samples n) (float_samples e) (float_samples v)
    d fs T depth af = MsValue m x ->
  0 < amp_used (amps x)
  /\ amp_vertical (amps x) <= amp_used (amps x)
  /\ amp_horizontal (amps x) <= amp_used (amps x)
  /\ amp_north (amps x) <= amp_horizontal (amps x)
  /\ amp_east (amps x) <= amp_horizontal (amps x)
  /\ (used_component x = vertikal <->
      amp_horizontal (amps x) <= amp_vertical (amps x)).
Proof. apply amplitude_order. Qed.

(** X15.  With the other arguments fixed, Ms does not increase with the
    reference period. *)
Theorem ms_decreases_with_period n e v d fs depth af T1 T2 :
  0 < T1 -> T1 <= T2 ->
  ms_le (calculate_ms_magnitude n e v d fs T2 depth af)
        (calculate_ms_magnitude n e v d fs T1 depth af).
Proof.
  intros H1 H12. unfold ms_le, Ms.calculate_ms_magnitude.
  destruct (validate d depth) as [i1 r1].
  destruct (Rlt_dec d 200); [exact I|].
  destruct (af && _); [exact I|].
  cbv zeta.
  match goal with
  | |- context [match ?w with pair _ _ => _ end] => destruct w as [[v' n'] e']
  end.
  match goal with
  | |- context [match ?w with Some _ => _ | None => MsError _ end] =>
      destruct w as [mh|]; [|exact I]
  end.
  destruct (Req_dec_T _ 0) as [E0|E0]; [exact I|].
  apply py_round_mono.
  pose proof (py_max_ge (peak_um v') mh) as [Hv _].
  pose proof (peak_um_nonneg v') as H0.
  set (A := py_max (peak_um v') mh) in *.
  assert (HA : 0 < A) by lra.
  assert (Hle : log10 (A / T2) <= log10 (A / T1)).
  { apply log10_le_mono.
    - apply Rdiv_lt_0_compat; lra.
    - unfold Rdiv. apply Rmult_le_compat_l; [lra|].
      apply Rinv_le_contravar; lra. }
  lra.
Qed.




End WithFilter.

(** Raw int32 counts are outside the domain of the model.  At north =
    east = 50000 counts the squares wrap around: the vector amplitude is
    [sqrt(705032704) * 1000], below the north peak of [50000 * 1000], and
    less than ten times the vector amplitude at 5000 counts. *)
Lemma raw_counts_amplitude_wraps :
  int32_vector_amplitude 5000 5000 = Some (sqrt 50000000 * 1000)
  /\ int32_vector_amplitude 50000 50000 = Some (sqrt 705032704 * 1000)
  /\ sqrt 705032704 * 1000 < Rabs 50000 * 1000
  /\ sqrt 705032704 * 1000 < 10 * (sqrt 50000000 * 1000).
Proof.
  split; [reflexivity|]. split; [reflexivity|].
  assert (H1 : sqrt 705032704 < 50000).
  { rewrite <- (sqrt_square 50000) by lra. apply sqrt_lt_1_alt. lra. }
  assert (H2 : 50000 < 10 * sqrt 50000000).
  { replace (10 * sqrt 50000000) with (sqrt (100 * 50000000)).
    - rewrite <- (sqrt_square 50000) at 1 by lra. apply sqrt_lt_1_alt. lra.
    - rewrite sqrt_mult by lra. replace 100 with (10 * 10) by lra.
      rewrite sqrt_square by lra. reflexivity. }
  rewrite (Rabs_pos_eq 50000) by lra. split; lra.
Qed.

(** The run of [single_sample_run] on float64 arrays: a single vertical
    sample of 1 mm. *)
Lemma float_sample_run (d : R) (depth : option R) :
  200 <= d ->
  exists x,
    calculate_ms_magnitude short_data_filter (float_samples []) (float_samples [])
      (float_samples [1%Q]) d 1 20 depth false
    = MsValue (py_round (log10 (1 * 1000 / 20) + 1.66 * log10 (d / 111.195) + 3.3
                         + depth_correction_of depth + distance_correction_of d) 1) x.
Proof.
  intros Hd.
  assert (E : float_samples [1%Q] = [1]).
  { unfold float_samples, Q2R. cbn. f_equal. lra. }
  rewrite E. change (float_samples []) with (@nil R).
  apply single_sample_run, Hd.
Qed.

Lemma ms_corrections_bounded_witness :
  0 < 20
  /\ exists m x,
    calculate_ms_magnitude short_data_filter (float_samples []) (float_samples [])
      (float_samples [1%Q]) 500 1 20 (Some 80) false
    = MsValue m x
    /\ depth_correction (depth_corr x) <= 0
    /\ 0 <= distance_correction (distance_corr x) <= 0.27
    /\ Rabs (m - (raw_result (calc x) + depth_correction (depth_corr x)
                  + distance_correction (distance_corr x))) <= 0.05.
Proof.
  split; [lra|].
  destruct (float_sample_run 500 (Some 80) ltac:(lra)) as [x E].
  eexists _, x. split; [exact E|].
  refine (ms_corrections_bounded short_data_filter [] [] [1%Q] _ _ _ _ _ _ _ _ E); lra.
Defined.

Lemma compliant_result_with_depth_correction_witness :
  (50 < 55 /\ 55 <= 60 /\ 2000 <= 4000 /\ 4000 <= 16000)
  /\ exists m x,
       calculate_ms_magnitude short_data_filter [] [] [1] 4000 1 20 (Some 55) false
       = MsValue m x
       /\ is_standard_compliant (valid x) = true
       /\ requires_correction (valid x) = false
       /\ issues (valid x) = []
       /\ depth_applied (depth_corr x) = true
       /\ depth_correction (depth_corr x) = -0.0035 * (55 - 50)
       /\ depth_correction (depth_corr x) < 0.
Proof.
  split; [lra|].
  destruct (single_sample_run 4000 (Some 55) ltac:(lra)) as [x E].
  eexists _, x. split; [exact E|].
  refine (compliant_result_with_depth_correction short_data_filter
            [] [] [1] 4000 1 20 55 false _ x _ _ _ _ E); lra.
Defined.

Lemma validation_flags_consistent_witness :
  exists m x,
    calculate_ms_magnitude short_data_filter [] [] [1] 500 1 20 None false
    = MsValue m x
    /\ (requires_correction (valid x) = true ->
        is_standard_compliant (valid x) = false)
    /\ (requires_correction (valid x) = false ->
        is_standard_compliant (valid x) = false -> 16000 < 500).
Proof.
  destruct (single_sample_run 500 None ltac:(lra)) as [x E].
  eexists _, x. split; [exact E|].
  exact (validation_flags_consistent short_data_filter _ _ _ _ _ _ _ _ _ _ E).
Defined.

Lemma amplitude_used_is_largest_witness :
  exists m x,
    calculate_ms_magnitude short_data_filter (float_samples []) (float_samples [])
      (float_samples [1%Q]) 4000 1 20 None false
    = MsValue m x
    /\ 0 < amp_used (amps x)
    /\ amp_vertical (amps x) <= amp_used (amps x)
    /\ amp_horizontal (amps x) <= amp_used (amps x)
    /\ amp_north (amps x) <= amp_horizontal (amps x)
    /\ amp_east (amps x) <= amp_horizontal (amps x)
    /\ (used_component x = vertikal <->
        amp_horizontal (amps x) <= amp_vertical (amps x)).
Proof.
  destruct (float_sample_run 4000 None ltac:(lra)) as [x E].
  eexists _, x. split; [exact E|].
  exact (amplitude_used_is_largest short_data_filter [] [] [1%Q] _ _ _ _ _ _ _ E).
Defined.

Lemma ms_decreases_with_period_witness :
  (0 < 18 /\ 18 <= 20)
  /\ (exists m x,
        calculate_ms_magnitude short_data_filter [] [] [1] 4000 1 20 None false
        = MsValue m x)
  /\ ms_le (calculate_ms_magnitude short_data_filter [] [] [1] 4000 1 20 None false)
           (calculate_ms_magnitude short_data_filter [] [] [1] 4000 1 18 None false).
Proof.
  split; [lra|].
  split; [destruct (single_sample_run 4000 None ltac:(lra)) as [x E];
          eexists _, x; exact E|].
  apply (ms_decreases_with_period short_data_filter [] [] [1] 4000 1 None false
           18 20); lra.
Defined.


End MsEdgeFacts.

(** ** Surface-wave velocities: arrival order, unreachable caps, monotonicity *)

Module SurfaceWavesEdgeFacts.
Import PyNum PyNumFacts SurfaceWaves RoundingFacts.
Local Open Scope Q_scope.

Ltac split_ifs :=
  repeat match goal with |- context [if ?b then _ else _] => destruct b eqn:? end.

(** Case analysis on the comparisons of the goal, innermost first. *)
Ltac case_Qltb :=
  repeat match goal with
         | |- context [Qltb ?a ?b] =>
             lazymatch a with
             | context [if _ then _ else _] => fail
             | _ => idtac
             end;
             lazymatch b with
             | context [if _ then _ else _] => fail
             | _ => idtac
             end;
             let E := fresh in
             destruct (Qltb a b) eqn:E;
             [apply Qltb_lt in E|apply Qltb_ge in E]
         end.

Lemma depth_factor_range depth_km :
  0.5 <= depth_factor_of depth_km /\ depth_factor_of depth_km <= 1.
Proof. unfold depth_factor_of. split_ifs; lra. Qed.

Lemma distance_factor_range distance_km :
  0.92 <= distance_factor_of distance_km /\ distance_factor_of distance_km <= 1.06.
Proof. unfold distance_factor_of. split_ifs; lra. Qed.

Lemma magnitude_factor_range magnitude :
  0.95 <= magnitude_factor_of magnitude /\ magnitude_factor_of magnitude <= 1.08.
Proof. unfold magnitude_factor_of. split_ifs; lra. Qed.

Lemma structure_factor_range p s :
  0.93 <= fst (fst (structure_of p s)) /\ fst (fst (structure_of p s)) <= 1.05.
Proof.
  unfold structure_of. destruct p as [p|], s as [s|]; cbn [fst]; try lra.
  split_ifs; cbn [fst]; lra.
Qed.

(** The unclamped Rayleigh velocity is positive and at most 4.20714. *)
Lemma raw_rayleigh_range (df xf mf sf : Q) :
  0.5 <= df <= 1 -> 0.92 <= xf <= 1.06 -> 0.95 <= mf <= 1.08 ->
  0.93 <= sf <= 1.05 ->
  0 < base_rayleigh_velocity * df * xf * mf * sf
  /\ base_rayleigh_velocity * df * xf * mf * sf <= 4.20714.
Proof.
  intros Hd Hx Hm Hs. unfold base_rayleigh_velocity.
  assert (H1 : 0 < 3.5 * df /\ 3.5 * df <= 3.5) by lra.
  assert (H2 : 0 < 3.5 * df * xf /\ 3.5 * df * xf <= 3.71) by nra.
  assert (H3 : 0 < 3.5 * df * xf * mf /\ 3.5 * df * xf * mf <= 4.0068) by nra.
  nra.
Qed.

Lemma py_max_min_mono (lo hi x y : Q) :
  x <= y -> py_max lo (py_min hi x) <= py_max lo (py_min hi y).
Proof.
  intros Hxy. unfold py_max, py_min.
  case_Qltb; lra.
Qed.

(** After clamping the Love velocity is not below the Rayleigh velocity,
    which is at least 3.0. *)
Lemma clamped_order (r : Q) :
  0 <= r ->
  3.0 <= py_max 3.0 (py_min 4.5 r)
  /\ py_max 3.0 (py_min 4.5 r) <= py_max 3.8 (py_min 5.2 (r * 1.12)).
Proof.
  intros Hr. unfold py_max, py_min.
  case_Qltb; lra.
Qed.

Lemma Qdiv_le_denominator (a b c : Q) :
  0 <= a -> 0 < c -> c <= b -> a / b <= a / c.
Proof.
  intros Ha Hc Hcb.
  apply Qle_shift_div_l; [lra|].
  assert (E : a / b * c == a * (c / b)) by (field; lra).
  rewrite E.
  assert (H1 : c / b <= 1) by (apply Qle_shift_div_r; lra).
  nra.
Qed.

(** X19.  For a distance that is not negative, the Love arrival is not after
    the Rayleigh arrival, and the arrival reported as the surface-wave
    arrival is the Rayleigh one. *)
Theorem love_arrives_before_rayleigh distance_km depth_km magnitude p s :
  0 <= distance_km ->
  let w := calculate_surface_wave_velocities distance_km depth_km magnitude p s in
  0 <= love_arrival w
  /\ love_arrival w <= rayleigh_arrival w
  /\ surface_arrival w = rayleigh_arrival w.
Proof.
  intros Hd. unfold calculate_surface_wave_velocities.
  pose proof (structure_factor_range p s) as Hs.
  destruct (structure_of p s) as [[sf info] ty]. cbn [fst] in Hs.
  unfold clamped_velocities. cbv zeta. cbn [love_arrival rayleigh_arrival surface_arrival].
  destruct (raw_rayleigh_range _ _ _ sf (depth_factor_range depth_km)
              (distance_factor_range distance_km)
              (magnitude_factor_range magnitude) Hs) as [Hpos _].
  set (r := base_rayleigh_velocity * depth_factor_of depth_km
            * distance_factor_of distance_km * magnitude_factor_of magnitude * sf) in *.
  destruct (clamped_order r (Qlt_le_weak _ _ Hpos)) as [H3 Hle].
  set (vr := py_max 3.0 (py_min 4.5 r)) in *.
  set (vl := py_max 3.8 (py_min 5.2 (r * 1.12))) in *.
  split; [|split; [|reflexivity]].
  - assert (H0 : 0 <= distance_km / vl) by (apply Qle_shift_div_l; lra).
    pose proof (Qpy_round_mono 0 _ 1 H0) as Hm.
    pose proof (py_round_integer 0 1) as Hz.
    change (inject_Z 0) with 0 in Hz. lra.
  - apply Qpy_round_mono. apply Qdiv_le_denominator; lra.
Qed.

Lemma love_arrives_before_rayleigh_witness :
  let w := calculate_surface_wave_velocities 3000 25 6.2 None None in
  0 <= love_arrival w
  /\ love_arrival w <= rayleigh_arrival w
  /\ surface_arrival w = rayleigh_arrival w.
Proof.
  apply (love_arrives_before_rayleigh 3000 25 6.2 None None).
  vm_compute. discriminate.
Defined.

(** X20.  The caps of 5.2 and 4.5 km/s are never reached: the largest factors
    give a Rayleigh velocity of 4.21 and a Love velocity of 4.71 km/s. *)
Theorem velocity_caps_unreachable distance_km depth_km magnitude p s :
  let w := calculate_surface_wave_velocities distance_km depth_km magnitude p s in
  love_velocity w <= 4.71 /\ rayleigh_velocity w <= 4.21.
Proof.
  unfold calculate_surface_wave_velocities.
  pose proof (structure_factor_range p s) as Hs.
  destruct (structure_of p s) as [[sf info] ty]. cbn [fst] in Hs.
  unfold clamped_velocities. cbv zeta. cbn [love_velocity rayleigh_velocity].
  destruct (raw_rayleigh_range _ _ _ sf (depth_factor_range depth_km)
              (distance_factor_range distance_km)
              (magnitude_factor_range magnitude) Hs) as [Hpos Hmax].
  set (r := base_rayleigh_velocity * depth_factor_of depth_km
            * distance_factor_of distance_km * magnitude_factor_of magnitude * sf) in *.
  split.
  - assert (Hl : py_max 3.8 (py_min 5.2 (r * 1.12)) <= 4.7119968)
      by (unfold py_max, py_min; case_Qltb; lra).
    pose proof (Qpy_round_mono _ _ 2 Hl) as Hm.
    assert (E : py_round 4.7119968 2 == 4.71) by reflexivity.
    lra.
  - assert (Hl : py_max 3.0 (py_min 4.5 r) <= 4.20714)
      by (unfold py_max, py_min; case_Qltb; lra).
    pose proof (Qpy_round_mono _ _ 2 Hl) as Hm.
    assert (E : py_round 4.20714 2 == 4.21) by reflexivity.
    lra.
Qed.

Lemma depth_factor_antitone (z1 z2 : Q) :
  z1 <= z2 -> depth_factor_of z2 <= depth_factor_of z1.
Proof. intros H. unfold depth_factor_of. case_Qltb; lra. Qed.

Lemma distance_factor_monotone (d1 d2 : Q) :
  d1 <= d2 -> distance_factor_of d1 <= distance_factor_of d2.
Proof. intros H. unfold distance_factor_of. case_Qltb; lra. Qed.

Lemma magnitude_factor_monotone (m1 m2 : Q) :
  m1 <= m2 -> magnitude_factor_of m1 <= magnitude_factor_of m2.
Proof. intros H. unfold magnitude_factor_of. case_Qltb; lra. Qed.

Lemma product_monotone (a1 a2 b1 b2 : Q) :
  0 <= a1 -> a1 <= a2 -> 0 <= b1 -> b1 <= b2 -> a1 * b1 <= a2 * b2.
Proof. intros. nra. Qed.

(** X21.  With the P and S times fixed, both returned velocities are
    non-increasing in the depth and non-decreasing in the distance and in
    the magnitude. *)
Theorem velocities_monotone d1 d2 z1 z2 m1 m2 p s :
  d1 <= d2 -> z2 <= z1 -> m1 <= m2 ->
  let w1 := calculate_surface_wave_velocities d1 z1 m1 p s in
  let w2 := calculate_surface_wave_velocities d2 z2 m2 p s in
  love_velocity w1 <= love_velocity w2
  /\ rayleigh_velocity w1 <= rayleigh_velocity w2.
Proof.
  intros Hd Hz Hm. unfold calculate_surface_wave_velocities.
  pose proof (structure_factor_range p s) as Hs.
  destruct (structure_of p s) as [[sf info] ty]. cbn [fst] in Hs.
  unfold clamped_velocities. cbv zeta. cbn [love_velocity rayleigh_velocity].
  pose proof (depth_factor_range z1). pose proof (depth_factor_range z2).
  pose proof (distance_factor_range d1). pose proof (distance_factor_range d2).
  pose proof (magnitude_factor_range m1). pose proof (magnitude_factor_range m2).
  pose proof (depth_factor_antitone z2 z1 Hz).
  pose proof (distance_factor_monotone d1 d2 Hd).
  pose proof (magnitude_factor_monotone m1 m2 Hm).
  unfold base_rayleigh_velocity.
  assert (Hr : 3.5 * depth_factor_of z1 * distance_factor_of d1
               * magnitude_factor_of m1 * sf
               <= 3.5 * depth_factor_of z2 * distance_factor_of d2
                  * magnitude_factor_of m2 * sf).
  { apply Qmult_le_compat_r; [|lra].
    apply product_monotone; [|apply product_monotone|lra|lra]; try lra.
    - apply Qle_trans with (0 * distance_factor_of d1); [lra|].
      apply Qmult_le_compat_r; lra. }
  split; apply Qpy_round_mono, py_max_min_mono; lra.
Qed.

Lemma velocities_monotone_witness :
  let w1 := calculate_surface_wave_velocities 900 80 5.2 None None in
  let w2 := calculate_surface_wave_velocities 5000 10 7.1 None None in
  love_velocity w1 <= love_velocity w2
  /\ rayleigh_velocity w1 <= rayleigh_velocity w2.
Proof.
  apply (velocities_monotone 900 5000 80 10 5.2 7.1 None None);
    vm_compute; discriminate.
Defined.

(** X22.  The crustal structure is reported as unknown exactly when no Vp/Vs
    estimate is reported, which is the case unless a positive P time and
    a non-zero S time are given. *)
Theorem structure_unknown_without_ratio distance_km depth_km magnitude p s :
  let w := calculate_surface_wave_velocities distance_km depth_km magnitude p s in
  (structure (factors w) = Unknown <-> vp_vs_ratio (factors w) = None)
  /\ (vp_vs_ratio (factors w) = None <->
      ~ exists tp ts, p = Some tp /\ s = Some ts /\ 0 < tp /\ ~ ts == 0).
Proof.
  unfold calculate_surface_wave_velocities.
  destruct (structure_of p s) as [[sf info] ty] eqn:E.
  destruct (clamped_velocities _ _ _ sf) as [vl vr].
  cbn [factors structure vp_vs_ratio].
  unfold structure_of, truthy in E.
  destruct p as [tp|], s as [ts|].
  - destruct (Qeqb tp 0) eqn:Ep0; cbn [negb andb] in E.
    + inversion E. split; [tauto|]. split; [|reflexivity].
      intros _ (tp' & ts' & Hp & _ & Hpos & _). inversion Hp. subst tp'.
      apply Qeq_bool_iff in Ep0. lra.
    + destruct (Qeqb ts 0) eqn:Es0; cbn [negb andb] in E.
      * inversion E. split; [tauto|]. split; [|reflexivity].
        intros _ (tp' & ts' & _ & Hs & _ & Hn). inversion Hs. subst ts'.
        apply Qeq_bool_iff in Es0. tauto.
      * destruct (Qltb 0 tp) eqn:Epos.
        -- apply Qltb_lt in Epos.
           assert (Hex : exists tp' ts', Some tp = Some tp' /\ Some ts = Some ts'
                                         /\ 0 < tp' /\ ~ ts' == 0).
           { exists tp, ts. repeat split; try assumption.
             intros Hz. apply Qeq_bool_iff in Hz. unfold Qeqb in Es0. congruence. }
           revert E. split_ifs; intros E; inversion E;
             (split; split; intros; try discriminate; tauto).
        -- apply Qltb_ge in Epos. inversion E. split; [tauto|].
           split; [|reflexivity].
           intros _ (tp' & ts' & Hp & _ & Hpos & _). inversion Hp. subst tp'. lra.
  - inversion E. split; [tauto|]. split; [|reflexivity].
    intros _ (tp' & ts' & _ & Hs & _). discriminate.
  - inversion E. split; [tauto|]. split; [|reflexivity].
    intros _ (tp' & ts' & Hp & _). discriminate.
  - inversion E. split; [tauto|]. split; [|reflexivity].
    intros _ (tp' & ts' & Hp & _). discriminate.
Qed.

End SurfaceWavesEdgeFacts.

(** ** The station search: cache, order and range of the results *)

Module StationsSearchFacts.
Import PyNum PyNumFacts Stations StationsSearch RoundingFacts.
Local Open Scope Q_scope.

Section WithServices.

Variable gps2dist_azimuth : Q -> Q -> Q -> Q -> option (Q * Q).
Variable taup_model : option (Q -> Q -> option (list (string * Q))).
Variable str_time : option Z -> string.
Variable str_num : Q -> string.
Variable str_int : nat -> string.

Abbreviation search_stations :=
  (search_stations gps2dist_azimuth taup_model str_time str_num str_int).
Abbreviation execution_key := (execution_key str_time str_num str_int).
Abbreviation _process_stations := (_process_stations gps2dist_azimuth taup_model).
Abbreviation process_station := (process_station gps2dist_azimuth taup_model).

Lemma clear_execution_flag_results k t :
  station_results (clear_execution_flag k t) = station_results t.
Proof.
  unfold clear_execution_flag.
  destruct (executing_search t) as [k'|]; [|reflexivity].
  destruct (String.eqb k' k); reflexivity.
Qed.

(** X24.  A search that returned stations is answered from the cache when it
    is repeated: the same list comes back and the session is left as it
    is, whatever the FDSN service would answer now. *)
Theorem successful_search_is_cached r r' s s' eq lo hi n l :
  search_stations r s eq lo hi n = (l, s') -> l <> [] ->
  search_stations r' s' eq lo hi n = (l, s').
Proof.
  unfold Stations.search_stations. cbv zeta.
  destruct (match station_results s with Some _ => _ | None => _ end)
    as [stations|] eqn:Ec.
  - intros H Hl. inversion H. subst stations s'. rewrite Ec. reflexivity.
  - match goal with |- context [if ?b then _ else _] => destruct b end;
      [intros H Hl; inversion H; congruence|].
    destruct (time eq); [|intros H Hl; inversion H; congruence].
    destruct r as [|inv]; [intros H Hl; inversion H; congruence|].
    destruct inv as [|net inv]; [intros H Hl; inversion H; congruence|].
    destruct (_process_stations _ _ _ _ _ _) as [|st0 all];
      [intros H Hl; inversion H; congruence|].
    intros H Hl. inversion H. clear H.
    match goal with
    | |- context [clear_execution_flag ?k ?t] =>
        pose proof (clear_execution_flag_results k t) as Hr
    end.
    cbn [station_results with_station_results] in Hr.
    rewrite Hr. rewrite lookup_insert_eq. reflexivity.
Qed.

Lemma key_le_spec (a b : nat * Z * nat * Q) :
  key_le a b = true <->
  let '(a1, a2, a3, a4) := a in
  let '(b1, b2, b3, b4) := b in
  (a1 < b1)%nat
  \/ (a1 = b1
      /\ ((a2 < b2)%Z
          \/ (a2 = b2 /\ ((a3 < b3)%nat \/ (a3 = b3 /\ a4 <= b4))))).
Proof.
  destruct a as [[[a1 a2] a3] a4], b as [[[b1 b2] b3] b4]. unfold key_le.
  destruct (Nat.ltb a1 b1) eqn:E1; [apply Nat.ltb_lt in E1; intuition lia|].
  apply Nat.ltb_ge in E1.
  destruct (Nat.ltb b1 a1) eqn:E1'; [apply Nat.ltb_lt in E1'; intuition lia|].
  apply Nat.ltb_ge in E1'.
  destruct (Z.ltb a2 b2) eqn:E2; [apply Z.ltb_lt in E2; intuition lia|].
  apply Z.ltb_ge in E2.
  destruct (Z.ltb b2 a2) eqn:E2'; [apply Z.ltb_lt in E2'; intuition lia|].
  apply Z.ltb_ge in E2'.
  destruct (Nat.ltb a3 b3) eqn:E3; [apply Nat.ltb_lt in E3; intuition lia|].
  apply Nat.ltb_ge in E3.
  destruct (Nat.ltb b3 a3) eqn:E3'; [apply Nat.ltb_lt in E3'; intuition lia|].
  apply Nat.ltb_ge in E3'.
  rewrite Qleb_le. intuition lia.
Qed.

Lemma key_order_total (a b : station_data) : key_order a b \/ key_order b a.
Proof.
  unfold key_order. rewrite !key_le_spec.
  destruct (sort_key a) as [[[a1 a2] a3] a4], (sort_key b) as [[[b1 b2] b3] b4].
  destruct (Qlt_le_dec a4 b4) as [H4|H4]; [apply Qlt_le_weak in H4|];
    destruct (lt_eq_lt_dec a1 b1) as [[?|?]|?];
    destruct (Z_dec' a2 b2) as [[?|?]|?];
    destruct (lt_eq_lt_dec a3 b3) as [[?|?]|?]; intuition lia.
Qed.

Lemma key_order_trans (a b c : station_data) :
  key_order a b -> key_order b c -> key_order a c.
Proof.
  unfold key_order. rewrite !key_le_spec.
  destruct (sort_key a) as [[[a1 a2] a3] a4], (sort_key b) as [[[b1 b2] b3] b4],
    (sort_key c) as [[[c1 c2] c3] c4].
  intros Hab Hbc.
  assert (H4 : a4 <= b4 -> b4 <= c4 -> a4 <= c4) by (intros; lra).
  intuition lia.
Qed.

Lemma insert_by_key_In (x y : station_data) (l : list station_data) :
  List.In y (insert_by_key x l) <-> y = x \/ List.In y l.
Proof.
  induction l as [|z l IH]; cbn [insert_by_key List.In].
  - split; intros [E|[]]; left; symmetry; exact E.
  - destruct (key_le (sort_key z) (sort_key x)); cbn [List.In].
    + rewrite IH. tauto.
    + split; (intros [E|H]; [left; symmetry; exact E|right; exact H]).
Qed.

Lemma insert_by_key_sorted (x : station_data) (l : list station_data) :
  StronglySorted key_order l -> StronglySorted key_order (insert_by_key x l).
Proof.
  induction 1 as [|z l Hs IH Hz]; cbn [insert_by_key]; [repeat constructor|].
  destruct (key_le (sort_key z) (sort_key x)) eqn:E.
  - constructor; [exact IH|].
    apply List.Forall_forall. intros y Hy.
    apply insert_by_key_In in Hy. destruct Hy as [->|Hy]; [exact E|].
    apply (proj1 (List.Forall_forall _ _) Hz y Hy).
  - assert (Hxz : key_order x z).
    { destruct (key_order_total x z) as [H|H]; [exact H|].
      unfold key_order in H. congruence. }
    constructor; [constructor; assumption|].
    constructor; [exact Hxz|].
    eapply List.Forall_impl; [|exact Hz].
    intros y Hy. eapply key_order_trans; eassumption.
Qed.

Lemma fold_insert_by_key (l acc : list station_data) :
  StronglySorted key_order acc ->
  StronglySorted key_order (List.fold_left (fun acc x => insert_by_key x acc) l acc)
  /\ (forall y, List.In y (List.fold_left (fun acc x => insert_by_key x acc) l acc)
                <-> List.In y l \/ List.In y acc)
  /\ length (List.fold_left (fun acc x => insert_by_key x acc) l acc)
     = (length l + length acc)%nat.
Proof.
  revert acc. induction l as [|x l IH]; intros acc Hacc; simpl.
  - split; [exact Hacc|]. split; [intros y; tauto|reflexivity].
  - destruct (IH (insert_by_key x acc) (insert_by_key_sorted x acc Hacc))
      as (Hs & Hin & Hlen).
    split; [exact Hs|]. split.
    + intros y. rewrite Hin, insert_by_key_In. intuition congruence.
    + rewrite Hlen. clear.
      induction acc as [|z acc IHa]; cbn [insert_by_key length]; [lia|].
      destruct (key_le (sort_key z) (sort_key x)); cbn [length]; lia.
Qed.

(** The sort returns the stations it was given, in the order of their
    keys. *)
Lemma sort_stations_spec (l : list station_data) :
  StronglySorted key_order (sort_stations l)
  /\ (forall y, List.In y (sort_stations l) <-> List.In y l)
  /\ length (sort_stations l) = length l.
Proof.
  unfold sort_stations.
  destruct (fold_insert_by_key l [] ltac:(constructor)) as (Hs & Hin & Hlen).
  split; [exact Hs|]. split.
  - intros y. rewrite Hin. simpl. tauto.
  - rewrite Hlen. simpl. lia.
Qed.

Lemma firstn_strongly_sorted {A} (R : A -> A -> Prop) (k : nat) (l : list A) :
  StronglySorted R l -> StronglySorted R (List.firstn k l).
Proof.
  intros H. revert k. induction H as [|x l Hs IH Hx]; intros [|k]; simpl;
    try constructor; [apply IH|].
  apply WaveTypesRangeFacts.Forall_firstn_keep, Hx.
Qed.

Lemma firstn_In_keep {A} (k : nat) (l : list A) (x : A) :
  List.In x (List.firstn k l) -> List.In x l.
Proof.
  revert k. induction l as [|y l IH]; intros [|k]; simpl; try tauto.
  intros [E|H]; [left; exact E|right; apply (IH k H)].
Qed.

(** What a fresh search returns: nothing, or the first
    [target_stations] of the sorted candidates. *)
Lemma fresh_search_result r s eq lo hi n :
  not_cached s (execution_key eq lo hi n) ->
  fst (search_stations r s eq lo hi n) = []
  \/ exists inv,
       r = QueryOk inv
       /\ fst (search_stations r s eq lo hi n)
          = List.firstn n
              (sort_stations
                 (_process_stations inv (latitude eq) (longitude eq)
                    (match depth eq with Some d => d | None => 10.0 end) lo hi)).
Proof.
  unfold not_cached, Stations.search_stations. cbv zeta. intros Hc.
  assert (Ec : match station_results s with
               | Some results => results !! execution_key eq lo hi n
               | None => None
               end = None).
  { destruct (station_results s); [exact Hc|reflexivity]. }
  rewrite Ec.
  match goal with |- context [if ?b then _ else _] => destruct b end;
    [left; reflexivity|].
  destruct (time eq); [|left; reflexivity].
  destruct r as [|inv]; [left; reflexivity|].
  destruct inv as [|net inv]; [left; reflexivity|].
  destruct (_process_stations _ _ _ _ _ _) as [|st0 all] eqn:Ep;
    [left; reflexivity|].
  right. exists (net :: inv). split; [reflexivity|].
  cbn [fst]. rewrite Ep. reflexivity.
Qed.

(** X25.  A search that is not answered from the cache returns at most
    [target_stations] stations, in the order of their sort keys: the
    network priority first, then for the other networks the 500 km
    class of the distance, then the channel priority and the distance. *)
Theorem fresh_search_is_sorted r s eq lo hi n :
  not_cached s (execution_key eq lo hi n) ->
  StronglySorted key_order (fst (search_stations r s eq lo hi n))
  /\ (length (fst (search_stations r s eq lo hi n)) <= n)%nat.
Proof.
  intros Hc.
  destruct (fresh_search_result r s eq lo hi n Hc) as [E|(inv & _ & E)];
    rewrite E.
  - split; [constructor|simpl; lia].
  - split.
    + apply firstn_strongly_sorted, sort_stations_spec.
    + rewrite List.length_firstn. lia.
Qed.

(** What the station loop records for a station it keeps. *)
Lemma process_station_kept eq_lat eq_lon eq_depth lo hi net sta st :
  process_station eq_lat eq_lon eq_depth lo hi net sta = Some st ->
  exists d,
    lo <= d /\ d <= hi
    /\ distance_km st = py_round d 1
    /\ love_arrival st = py_round (d / 4.5) 3
    /\ rayleigh_arrival st = py_round (d / 3.5) 3
    /\ surface_arrival st = rayleigh_arrival st
    /\ network st = net_code net /\ station st = inv_code sta.
Proof.
  unfold Stations.process_station.
  destruct (gps2dist_azimuth _ _ _ _) as [[dm az]|]; [|discriminate].
  cbv zeta.
  destruct (Qleb lo (dm / 1000.0)) eqn:E1; [|discriminate].
  destruct (Qleb (dm / 1000.0) hi) eqn:E2; [|discriminate].
  cbn [andb negb].
  match goal with
  | |- context [match ?w with pair _ _ => _ end] => destruct w as [pa sa]
  end.
  intros H. inversion H. clear H. cbn.
  exists (dm / 1000.0). apply Qleb_le in E1, E2. repeat split; assumption.
Qed.

Lemma process_stations_In inv eq_lat eq_lon eq_depth lo hi st :
  List.In st (_process_stations inv eq_lat eq_lon eq_depth lo hi) ->
  exists net sta,
    List.In net inv /\ List.In sta (net_stations net)
    /\ process_station eq_lat eq_lon eq_depth lo hi net sta = Some st.
Proof.
  unfold Stations._process_stations. intros H.
  apply List.in_flat_map in H. destruct H as (net & Hnet & H).
  apply List.in_flat_map in H. destruct H as (sta & Hsta & H).
  exists net, sta. split; [exact Hnet|]. split; [exact Hsta|].
  destruct (process_station _ _ _ _ _ net sta) as [st'|]; [|destruct H].
  destruct H as [E|[]]. subst st'. reflexivity.
Qed.

(** X26.  Every station of a search that is not answered from the cache is a
    station of the inventory whose distance was within the requested
    window: the reported distance, rounded to 0.1 km, is within 0.05 km
    of it; and for a window that starts at a distance that is not
    negative, its Love arrival is not after its Rayleigh arrival, which
    is also its surface-wave arrival. *)
Theorem fresh_search_in_window r s eq lo hi n :
  not_cached s (execution_key eq lo hi n) -> 0 <= lo ->
  List.Forall
    (fun st =>
       lo - 0.05 <= distance_km st /\ distance_km st <= hi + 0.05
       /\ love_arrival st <= rayleigh_arrival st
       /\ surface_arrival st = rayleigh_arrival st
       /\ exists inv net sta,
            r = QueryOk inv /\ List.In net inv /\ List.In sta (net_stations net)
            /\ network st = net_code net /\ station st = inv_code sta)
    (fst (search_stations r s eq lo hi n)).
Proof.
  intros Hc Hlo.
  destruct (fresh_search_result r s eq lo hi n Hc) as [E|(inv & Er & E)];
    rewrite E; [constructor|].
  apply List.Forall_forall. intros st Hin.
  apply firstn_In_keep in Hin.
  apply (proj1 (proj1 (proj2 (sort_stations_spec _)) st)) in Hin.
  apply process_stations_In in Hin.
  destruct Hin as (net & sta & Hnet & Hsta & Hp).
  apply process_station_kept in Hp.
  destruct Hp as (d & H1 & H2 & Ed & El & Er' & Es & En & Est).
  pose proof (py_round_error d 1) as Herr. cbv zeta in Herr.
  change (/ inject_Z (10 ^ Z.of_nat 1)) with (1 # 10) in Herr.
  rewrite Ed, El, Er'.
  split; [lra|]. split; [lra|]. split.
  - apply Qpy_round_mono.
    apply Qle_shift_div_l; [lra|].
    assert (Eq : d / 4.5 * 3.5 == d * (7 # 9)) by (field; lra).
    rewrite Eq. lra.
  - split; [rewrite <- Er'; exact Es|].
    exists inv, net, sta. repeat split; assumption.
Qed.

End WithServices.

Lemma successful_search_is_cached_witness :
  let svc_search :=
    search_stations meridian_gps2dist None
      (fun _ => "t"%string) (fun _ => "d"%string) (fun _ => "n"%string) in
  let res := svc_search (QueryOk three_stations) fresh_session tohoku 500 3000 3%nat in
  fst res <> [] /\ svc_search QueryRaises (snd res) tohoku 500 3000 3%nat = res.
Proof.
  intros svc_search res.
  assert (Hne : fst res <> []).
  { intros H. apply (f_equal (@length _)) in H. vm_compute in H. discriminate H. }
  split; [exact Hne|].
  rewrite (surjective_pairing res) at 2.
  apply (successful_search_is_cached meridian_gps2dist None
           (fun _ => "t"%string) (fun _ => "d"%string) (fun _ => "n"%string)
           (QueryOk three_stations) QueryRaises fresh_session (snd res) tohoku
           500 3000 3%nat (fst res)); [|exact Hne].
  apply surjective_pairing.
Defined.

Lemma fresh_search_is_sorted_witness :
  let svc_search :=
    search_stations meridian_gps2dist None
      (fun _ => "t"%string) (fun _ => "d"%string) (fun _ => "n"%string) in
  let res := svc_search (QueryOk three_stations) fresh_session tohoku 500 3000 2%nat in
  StronglySorted key_order (fst res) /\ (length (fst res) <= 2)%nat.
Proof.
  apply (fresh_search_is_sorted meridian_gps2dist None
           (fun _ => "t"%string) (fun _ => "d"%string) (fun _ => "n"%string)).
  exact I.
Defined.

Lemma fresh_search_in_window_witness :
  let svc_search :=
    search_stations meridian_gps2dist None
      (fun _ => "t"%string) (fun _ => "d"%string) (fun _ => "n"%string) in
  let res := svc_search (QueryOk three_stations) fresh_session tohoku 500 1400 3%nat in
  List.map station (fst res) = ["AAA"; "BBB"]%string
  /\ List.Forall
       (fun st =>
          500 - 0.05 <= distance_km st /\ distance_km st <= 1400 + 0.05
          /\ love_arrival st <= rayleigh_arrival st
          /\ surface_arrival st = rayleigh_arrival st
          /\ exists inv net sta,
               QueryOk three_stations = QueryOk inv
               /\ List.In net inv /\ List.In sta (net_stations net)
               /\ network st = net_code net /\ station st = inv_code sta)
       (fst res).
Proof.
  split; [vm_compute; reflexivity|].
  apply (fresh_search_in_window meridian_gps2dist None
           (fun _ => "t"%string) (fun _ => "d"%string) (fun _ => "n"%string)).
  - exact I.
  - vm_compute. discriminate.
Defined.

End StationsSearchFacts.

(** ** The two spike removers compared *)

Module SpikesLegacyFacts.
Import PyNum PyNumFacts Spikes.
Local Open Scope Q_scope.

Lemma where_from_incl {A} (g p : A -> bool) (l : list A) (i : nat) :
  (forall x, g x = true -> p x = true) ->
  List.incl (where_from i (List.map g l)) (where_from i (List.map p l)).
Proof.
  intros Hgp. revert i. induction l as [|x l IH]; intros i; simpl;
    [apply List.incl_refl|].
  specialize (IH (S i)).
  destruct (g x) eqn:Eg.
  - rewrite (Hgp x Eg). intros j [E|Hj]; [left; exact E|right; apply IH, Hj].
  - destruct (p x); [apply List.incl_tl|]; exact IH.
Qed.

Lemma where_from_le {A} (g p : A -> bool) (l : list A) (i : nat) :
  (forall x, g x = true -> p x = true) ->
  (length (where_from i (List.map g l)) <= length (where_from i (List.map p l)))%nat.
Proof.
  intros Hgp. revert i. induction l as [|x l IH]; intros i; simpl; [lia|].
  specialize (IH (S i)).
  destruct (g x) eqn:Eg.
  - rewrite (Hgp x Eg). simpl. lia.
  - destruct (p x); simpl; lia.
Qed.

(** The score of GEOseis.py is not below the one of
    seismic_processor.py: [0.6745 > 1/1.4826]. *)
Lemma legacy_score_ge (x median mad : Q) :
  0 < mad ->
  Qabs (x - median) / (1.4826 * mad) <= Qabs (0.6745 * (x - median) / mad).
Proof.
  intros Hm.
  assert (E : 0.6745 * (x - median) / mad == (0.6745 / mad) * (x - median))
    by (field; lra).
  rewrite E, Qabs_Qmult.
  assert (Hc : 0 < 0.6745 / mad) by (apply Qlt_shift_div_l; lra).
  rewrite (Qabs_pos (0.6745 / mad)) by lra.
  pose proof (Qabs_nonneg (x - median)) as Ha.
  apply Qle_shift_div_r; [lra|].
  assert (E2 : 0.6745 / mad * Qabs (x - median) * (1.4826 * mad)
               == (0.6745 * 1.4826) * Qabs (x - median)) by (field; lra).
  rewrite E2. nra.
Qed.

Section Legacy.

Variable np_std : list Q -> Q.

(** X6.  For an odd [window_size] (the median filter of SciPy accepts no
    other), every sample that [remove_spikes] of seismic_processor.py
    flags is flagged by [remove_spikes] of GEOseis.py as well, for the
    same threshold: the processor finds at most as many spikes. *)
Theorem processor_flags_within_legacy (data : list Q) (threshold : option Q)
    (window_size : nat) :
  Nat.odd window_size = true ->
  let info := snd (legacy_remove_spikes np_std data threshold window_size) in
  List.incl (flagged data threshold) (spike_indices info)
  /\ (snd (remove_spikes data threshold) <= num_spikes info)%nat.
Proof.
  intros Hodd.
  assert (Heven : Nat.even window_size = false).
  { rewrite <- Nat.negb_odd, Hodd. reflexivity. }
  cbv zeta. rewrite SpikesFacts.remove_spikes_count.
  unfold flagged, legacy_remove_spikes. rewrite Heven.
  destruct (np_median data) as [median|];
    [|split; [apply List.incl_nil_l|simpl; lia]].
  destruct (np_median (abs_dev data median)) as [mad|];
    [|split; [apply List.incl_nil_l|simpl; lia]].
  destruct (Qltb 0 mad) eqn:Epos;
    [|split; [apply List.incl_nil_l|simpl; lia]].
  apply Qltb_lt in Epos.
  assert (E0 : Qeqb mad 0 = false).
  { destruct (Qeqb mad 0) eqn:E; [|reflexivity].
    apply Qeq_bool_iff in E. lra. }
  rewrite E0.
  destruct data as [|x0 data]; [split; [apply List.incl_nil_l|simpl; lia]|].
  set (t := match threshold with None => spike_threshold | Some t => t end).
  match goal with
  | |- context [np_max ?a] => destruct (np_max a) as [mz|] eqn:Emax
  end; [|discriminate Emax].
  assert (Hsnd : forall (b : bool) (c1 c2 : list Q) (i : spike_info),
             snd (match (if b then Some c1 else Some c2) with
                  | None => (x0 :: data, {| num_spikes := 0; max_z_score := 0;
                                            spike_indices := [] |})
                  | Some c => (c, i)
                  end) = i)
    by (intros [|] ? ? ?; reflexivity).
  rewrite Hsnd.
  cbn [snd spike_indices num_spikes]. unfold np_where, abs_dev.
  rewrite !List.map_map.
  assert (Hgp : forall x,
             Qltb t (Qabs (x - median) / (1.4826 * mad)) = true ->
             Qltb t (Qabs (0.6745 * (x - median) / mad)) = true).
  { intros x Hx. apply Qltb_lt in Hx. apply Qltb_lt.
    pose proof (legacy_score_ge x median mad Epos). lra. }
  split; [apply where_from_incl, Hgp|apply where_from_le, Hgp].
Qed.

(** With an even [window_size] the median filter raises as soon as a
    sample is flagged, and GEOseis.py reports no spike at all: on
    [0, 1, 10, 100] with a window of 4 the processor counts one spike and
    GEOseis.py none. *)
Lemma even_window_reports_no_spike :
  let data := [0; 1; 10; 100] in
  snd (remove_spikes data None) = 1%nat
  /\ num_spikes (snd (legacy_remove_spikes np_std data None 4)) = 0%nat
  /\ spike_indices (snd (legacy_remove_spikes np_std data None 4)) = [].
Proof. cbv zeta. repeat split; vm_compute; reflexivity. Qed.

End Legacy.

Lemma processor_flags_within_legacy_witness :
  let data := [0; 1; 10; 100] in
  let info := snd (legacy_remove_spikes (fun _ => 0) data None 5) in
  Nat.odd 5 = true
  /\ flagged data None = [3%nat]
  /\ spike_indices info = [3%nat]
  /\ List.incl (flagged data None) (spike_indices info)
  /\ (snd (remove_spikes data None) <= num_spikes info)%nat.
Proof.
  cbv zeta. split; [reflexivity|].
  split; [vm_compute; reflexivity|]. split; [vm_compute; reflexivity|].
  apply (processor_flags_within_legacy (fun _ => 0) [0; 1; 10; 100] None 5).
  reflexivity.
Defined.

End SpikesLegacyFacts.

(** ** The statistics of the fallback *)

Module FallbackStatsFacts.
Import PyNum Stations FallbackStats.
Local Open Scope Q_scope.

Lemma rate_facts (a m : Z) :
  (1 <= m)%Z ->
  (inject_Z a / inject_Z m * 100 <= 100 <-> (a <= m)%Z)
  /\ (inject_Z a / inject_Z m * 100 < 0 <-> (a < 0)%Z)
  /\ (inject_Z a / inject_Z m * 100 == 100 <-> a = m).
Proof.
  intros Hm.
  assert (Hq : 0 < inject_Z m).
  { change 0 with (inject_Z 0). rewrite <- Zlt_Qlt. lia. }
  assert (E : inject_Z a / inject_Z m * inject_Z m == inject_Z a)
    by (field; lra).
  set (q := inject_Z a / inject_Z m) in *.
  split; [|split].
  - rewrite Zle_Qle. split; intros H; nra.
  - rewrite Zlt_Qlt. change (inject_Z 0) with 0. split; intros H; nra.
  - split.
    + intros H. apply inject_Z_injective. nra.
    + intros ->. nra.
Qed.

(** X27.  The reported success rate sets the number of failed stations against
    the number of cached searches: it is at most 100, it is 100 exactly
    when no station has failed and a search is cached, and it is negative
    exactly when more stations have failed than searches are cached. *)
Theorem success_rate_range (s : session_state) :
  let stats := get_station_fallback_stats s in
  success_rate stats <= 100
  /\ (success_rate stats == 100 <->
      failed_stations stats = 0%nat /\ (1 <= total_searches stats)%nat)
  /\ (success_rate stats < 0 <->
      (total_searches stats < failed_stations stats)%nat).
Proof.
  unfold get_station_fallback_stats. cbv zeta.
  cbn [success_rate failed_stations total_searches].
  set (failed := size (match failed_station_downloads s with
                       | Some f => f | None => ∅ end)).
  set (total := size (match station_results s with
                      | Some r => r | None => ∅ end)).
  destruct (rate_facts (Z.of_nat total - Z.of_nat failed)
              (Z.of_nat (Nat.max total 1)) ltac:(lia)) as (H1 & H2 & H3).
  split; [apply H1; lia|]. split.
  - rewrite H3. lia.
  - rewrite H2. lia.
Qed.

End FallbackStatsFacts.

(** ** The timing check of an event against the P arrival *)

Module TimingFacts.
Import PyNum PyNumFacts Timing.
Local Open Scope Q_scope.

(** X17.  The check fails open: it reports a timing as invalid only when an
    observed P time was compared and deviates from the expected
    [distance/7.5] by at least 5 s and by at least a tenth of the
    expected time.  A missing or unreadable P arrival, and an
    unreadable earthquake time, count as valid. *)
Theorem invalid_timing_needs_deviation (time_parses : bool) (distance : option Q)
    (p_arrival : p_arrival_value) :
  fst (fst (validate_earthquake_timing time_parses distance p_arrival)) = false <->
  exists t,
    (p_arrival = PSeconds t \/ p_arrival = PUtcText (Some t))
    /\ time_parses = true
    /\ let expected := match distance with Some d => d | None => 0 end / 7.5 in
       5 <= Qabs (t - expected) /\ expected * 0.1 <= Qabs (t - expected).
Proof.
  unfold validate_earthquake_timing. cbv zeta.
  set (expected := match distance with Some d => d | None => 0 end / 7.5).
  assert (Hcmp : forall t,
             Qltb (Qabs (t - expected)) (py_max (expected * 0.1) 5.0) = false <->
             5 <= Qabs (t - expected) /\ expected * 0.1 <= Qabs (t - expected)).
  { intros t. rewrite Qltb_ge. unfold py_max.
    destruct (Qltb (expected * 0.1) 5.0) eqn:E;
      [apply Qltb_lt in E|apply Qltb_ge in E]; split; intros H; lra. }
  destruct time_parses; cbn [negb fst].
  - destruct p_arrival as [|t|[t|]|]; cbn [fst].
    + split; [discriminate|]. intros (t & [E|E] & _); discriminate.
    + rewrite Hcmp. split.
      * intros H. exists t. split; [left; reflexivity|]. split; [reflexivity|exact H].
      * intros (t' & [E|E] & _ & H); inversion E; subst; exact H.
    + rewrite Hcmp. split.
      * intros H. exists t. split; [right; reflexivity|]. split; [reflexivity|exact H].
      * intros (t' & [E|E] & _ & H); inversion E; subst; exact H.
    + split; [discriminate|]. intros (t & [E|E] & _); discriminate.
    + split; [discriminate|]. intros (t & [E|E] & _); discriminate.
  - split; [discriminate|]. intros (t & _ & E & _). discriminate.
Qed.

End TimingFacts.

(** ** The predefined filter bands *)

Module CustomFilterFacts.
Import PyNum PyNumFacts CustomFilter.
Local Open Scope Q_scope.

Lemma band_of_cases (filter_type : string) (low high : Q) :
  band_of filter_bands filter_type = Some (Some (low, high)) ->
  (low, high) = (1.0, 10.0) \/ (low, high) = (0.5, 5.0)
  \/ (low, high) = (0.02, 0.5) \/ (low, high) = (0.005, 0.1).
Proof.
  unfold filter_bands. cbn [band_of].
  repeat match goal with
         | |- context [String.eqb ?a ?b] => destruct (String.eqb a b)
         end; intros H; inversion H; tauto.
Qed.

Section WithSciPy.

Variable coeffs : Type.
Variable butter : nat -> list Q -> Bandpass.btype -> option coeffs.

(** X18.  For a predefined band and a positive sampling rate, the corners
    handed to [butter] are positive and the upper one is at most 0.95 of
    the Nyquist frequency; they are in increasing order exactly when the
    sampling rate exceeds [low_freq/0.45]. *)
Theorem custom_filter_corners (filter_type : string) (sampling_rate : Q)
    (order : nat) (low high : Q) :
  band_of filter_bands filter_type = Some (Some (low, high)) ->
  0 < sampling_rate ->
  let nyquist := sampling_rate / 2.0 in
  exists high',
    design_custom_filter coeffs butter filter_type sampling_rate order
    = match butter order [low / nyquist; high' / nyquist] Bandpass.band with
      | Some ba => Designed ba low high'
      | None => Raised
      end
    /\ 0 < low / nyquist /\ high' / nyquist <= 0.95
    /\ (low / nyquist < high' / nyquist <-> low / 0.45 < sampling_rate).
Proof.
  intros Hb Hfs nyquist. unfold design_custom_filter. rewrite Hb. cbv zeta.
  fold nyquist.
  assert (Hn : 0 < nyquist) by (unfold nyquist; apply Qlt_shift_div_l; lra).
  assert (Efs : sampling_rate == nyquist * 2) by (unfold nyquist; field).
  assert (E0 : Qeqb nyquist 0 = false).
  { destruct (Qeqb nyquist 0) eqn:E; [|reflexivity].
    apply Qeq_bool_iff in E. lra. }
  rewrite E0.
  assert (Hlow : 0 < low /\ 10 * low <= high).
  { destruct (band_of_cases _ _ _ Hb) as [E|[E|[E|E]]]; inversion E; lra. }
  assert (Hdiv : forall x y, x / nyquist < y / nyquist <-> x < y).
  { intros x y. split; intros H.
    - assert (Ex : x == x / nyquist * nyquist) by (field; lra).
      assert (Ey : y == y / nyquist * nyquist) by (field; lra).
      rewrite Ex, Ey. apply Qmult_lt_compat_r; assumption.
    - apply Qlt_shift_div_l; [exact Hn|].
      assert (Ex : x / nyquist * nyquist == x) by (field; lra).
      rewrite Ex. exact H. }
  assert (Hthr : low / 0.45 < sampling_rate <-> low < 0.9 * nyquist).
  { split; intros H.
    - assert (E : low == low / 0.45 * 0.45) by field. lra.
    - apply Qlt_shift_div_r; lra. }
  destruct (Qltb (nyquist * 0.95) high) eqn:Ec;
    [apply Qltb_lt in Ec|apply Qltb_ge in Ec].
  - exists (nyquist * 0.9).
    assert (Eh : nyquist * 0.9 / nyquist == 0.9) by (field; lra).
    split; [reflexivity|].
    split; [apply Qlt_shift_div_l; lra|].
    split; [lra|].
    rewrite Hdiv, Hthr. split; intros; lra.
  - exists high.
    split; [reflexivity|].
    split; [apply Qlt_shift_div_l; lra|].
    split; [apply Qle_shift_div_r; lra|].
    rewrite Hdiv, Hthr. split; intros; lra.
Qed.

End WithSciPy.

Lemma custom_filter_corners_witness :
  let nyquist := 2 / 2.0 in
  design_custom_filter (Q * Q) checking_butter "p_waves" 2 4 = Raised
  /\ exists high',
       design_custom_filter (Q * Q) checking_butter "p_waves" 2 4
       = match checking_butter 4 [1.0 / nyquist; high' / nyquist] Bandpass.band with
         | Some ba => Designed ba 1.0 high'
         | None => Raised
         end
       /\ 0 < 1.0 / nyquist /\ high' / nyquist <= 0.95
       /\ (1.0 / nyquist < high' / nyquist <-> 1.0 / 0.45 < 2).
Proof.
  split; [reflexivity|].
  apply (custom_filter_corners (Q * Q) checking_butter "p_waves" 2 4 1.0 10.0).
  - reflexivity.
  - reflexivity.
Defined.

End CustomFilterFacts.

(** ** Detailed surface waves of a selected station *)

Module DetailedStationFacts.
Import PyNum DetailedStation.
Local Open Scope Q_scope.

(** X23.  The detailed values of a station are computed once: the wrapper and
    the calculation agree, the result is marked as calculated, and a
    later call leaves it as it is, also for another earthquake. *)
Theorem detailed_calculation_is_final (s : station) (eq1 eq2 : earthquake) :
  let s1 := get_station_with_detailed_calculations s eq1 in
  s1 = calculate_detailed_surface_waves_for_station s eq1
  /\ is_calculated s1 = true
  /\ calculate_detailed_surface_waves_for_station s1 eq2 = s1
  /\ get_station_with_detailed_calculations s1 eq2 = s1.
Proof.
  cbv zeta.
  assert (E : get_station_with_detailed_calculations s eq1
              = calculate_detailed_surface_waves_for_station s eq1).
  { unfold get_station_with_detailed_calculations,
      calculate_detailed_surface_waves_for_station.
    destruct (is_calculated s); reflexivity. }
  rewrite E.
  assert (Hc : is_calculated (calculate_detailed_surface_waves_for_station s eq1)
               = true).
  { unfold calculate_detailed_surface_waves_for_station.
    destruct (is_calculated s) eqn:Es; [exact Es|reflexivity]. }
  split; [reflexivity|]. split; [exact Hc|].
  unfold get_station_with_detailed_calculations.
  unfold calculate_detailed_surface_waves_for_station at 1 3.
  rewrite Hc. split; reflexivity.
Qed.

End DetailedStationFacts.

(** ** The time-stamped caches *)

Module CacheFacts.
Import PyNum PyNumFacts Cache.
Local Open Scope Q_scope.

Section WithData.

Variable D : Type.

Abbreviation cache := (cache D).
Abbreviation session := (session D).

Lemma dict_lookup_set (c : cache) (key : string) (v : D * Q) :
  dict_lookup D (dict_set D c key v) key = Some v.
Proof.
  induction c as [|[k w] c IH]; simpl.
  - rewrite String.eqb_refl. reflexivity.
  - destruct (String.eqb k key) eqn:E; simpl; rewrite E; [reflexivity|exact IH].
Qed.

Lemma dict_lookup_set_other (c : cache) (key key' : string) (v : D * Q) :
  key' <> key ->
  dict_lookup D (dict_set D c key v) key' = dict_lookup D c key'.
Proof.
  intros Hne. induction c as [|[k w] c IH]; simpl.
  - destruct (String.eqb key key') eqn:E; [|reflexivity].
    apply String.eqb_eq in E. congruence.
  - destruct (String.eqb k key) eqn:E; simpl.
    + apply String.eqb_eq in E. subst k.
      destruct (String.eqb key key') eqn:E'; [|reflexivity].
      apply String.eqb_eq in E'. congruence.
    + rewrite IH. reflexivity.
Qed.

Lemma dict_set_length (c : cache) (key : string) (v : D * Q) :
  (length (dict_set D c key v) <= S (length c))%nat.
Proof.
  induction c as [|[k w] c IH]; simpl; [lia|].
  destruct (String.eqb k key); simpl; lia.
Qed.

Lemma dict_of_from_length (items : list (string * (D * Q))) (acc : cache) :
  (length (List.fold_left (fun acc kv => dict_set D acc (fst kv) (snd kv)) items acc)
   <= length items + length acc)%nat.
Proof.
  revert acc. induction items as [|[k v] items IH]; intros acc; simpl; [lia|].
  specialize (IH (dict_set D acc k v)).
  pose proof (dict_set_length acc k v). lia.
Qed.

Lemma dict_of_length (items : list (string * (D * Q))) :
  (length (dict_of D items) <= length items)%nat.
Proof.
  unfold dict_of. pose proof (dict_of_from_length items []). simpl in *. lia.
Qed.

(** The cache of a type after an update. *)
Lemma updated_cache (st : session) (cache_type key : string) (data : D) (now : Q) :
  cache_of D (_update_cache D st cache_type key data now) cache_type
  = let c1 := dict_set D (cache_of D st cache_type) key (data, now) in
    if Nat.ltb 50 (length c1)
    then dict_of D (List.firstn 50 (sorted_newest_first D c1))
    else c1.
Proof.
  unfold _update_cache, _clean_cache, cache_of, Cache.session, Cache.cache in *.
  cbv zeta.
  assert (E : match
                match st !! cache_type with
                | Some _ => st
                | None => <[cache_type := []]> st
                end !! cache_type
              with
              | Some c => c
              | None => []
              end
              = match st !! cache_type with Some c => c | None => [] end).
  { destruct (st !! cache_type) as [c|] eqn:Ec; [rewrite Ec; reflexivity|].
    rewrite lookup_insert_eq. reflexivity. }
  rewrite E. rewrite lookup_insert_eq.
  destruct (Nat.ltb 50 _); rewrite lookup_insert_eq; reflexivity.
Qed.

(** X28.  After an update the cache of that type has at most 50 entries. *)
Theorem updated_cache_is_bounded (st : session) (cache_type key : string)
    (data : D) (now : Q) :
  (length (cache_of D (_update_cache D st cache_type key data now) cache_type)
   <= 50)%nat.
Proof.
  rewrite updated_cache. cbv zeta.
  destruct (Nat.ltb 50 _) eqn:E.
  - etransitivity; [apply dict_of_length|].
    rewrite List.length_firstn. lia.
  - apply Nat.ltb_ge in E. exact E.
Qed.

Lemma dict_set_In (c : cache) (key : string) (v : D * Q) (y : string * (D * Q)) :
  List.In y (dict_set D c key v) -> y = (key, v) \/ List.In y c.
Proof.
  induction c as [|[k w] c IH]; simpl.
  - intros [E|[]]. left. symmetry. exact E.
  - destruct (String.eqb k key) eqn:E; simpl.
    + apply String.eqb_eq in E. subst k.
      intros [E'|H]; [left; symmetry; exact E'|right; right; exact H].
    + intros [E'|H]; [right; left; exact E'|].
      destruct (IH H) as [E'|H']; [left; exact E'|right; right; exact H'].
Qed.

Lemma dict_set_has (c : cache) (key : string) (v : D * Q) :
  List.In (key, v) (dict_set D c key v).
Proof.
  induction c as [|[k w] c IH]; simpl; [left; reflexivity|].
  destruct (String.eqb k key) eqn:E; simpl.
  - apply String.eqb_eq in E. subst k. left. reflexivity.
  - right. exact IH.
Qed.

Lemma dict_set_keys_In (c : cache) (key : string) (v : D * Q) (k' : string) :
  List.In k' (List.map fst (dict_set D c key v)) ->
  k' = key \/ List.In k' (List.map fst c).
Proof.
  intros H. apply List.in_map_iff in H. destruct H as (y & Ey & Hy).
  apply dict_set_In in Hy. destruct Hy as [->|Hy]; [left; symmetry; exact Ey|].
  right. subst k'. apply List.in_map, Hy.
Qed.

(** Setting a key keeps the keys of a dictionary distinct. *)
Lemma dict_set_NoDup (c : cache) (key : string) (v : D * Q) :
  List.NoDup (List.map fst c) -> List.NoDup (List.map fst (dict_set D c key v)).
Proof.
  induction c as [|[k w] c IH]; simpl; intros Hnd.
  - constructor; [intros []|constructor].
  - inversion Hnd as [|k0 l Hk Hc]. subst.
    destruct (String.eqb k key) eqn:E; simpl.
    + constructor; assumption.
    + constructor; [|apply IH, Hc].
      intros Hin. apply dict_set_keys_In in Hin. destruct Hin as [->|Hin].
      * rewrite String.eqb_refl in E. discriminate.
      * exact (Hk Hin).
Qed.

(** [newer a b]: [a] is at least as new as [b]. *)
Abbreviation newer :=
  (fun a b : string * (D * Q) => snd (snd b) <= snd (snd a)).

Lemma insert_newest_perm (x : string * (D * Q)) (l : list (string * (D * Q))) :
  Permutation (insert_newest D x l) (x :: l).
Proof.
  induction l as [|y l IH]; simpl; [reflexivity|].
  destruct (Qleb (snd (snd x)) (snd (snd y))); [|reflexivity].
  rewrite IH. apply perm_swap.
Qed.

Lemma insert_newest_sorted (x : string * (D * Q)) (l : list (string * (D * Q))) :
  StronglySorted newer l -> StronglySorted newer (insert_newest D x l).
Proof.
  induction 1 as [|y l Hs IH Hy]; simpl; [repeat constructor|].
  destruct (Qleb (snd (snd x)) (snd (snd y))) eqn:E.
  - apply Qleb_le in E. constructor; [exact IH|].
    apply List.Forall_forall. intros z Hz.
    apply (Permutation_in _ (insert_newest_perm x l)) in Hz.
    destruct Hz as [<-|Hz]; [exact E|].
    apply (proj1 (List.Forall_forall _ _) Hy z Hz).
  - apply Qleb_gt in E.
    constructor; [constructor; assumption|].
    constructor; [apply Qlt_le_weak, E|].
    eapply List.Forall_impl; [|exact Hy].
    intros z Hz. cbv beta in *. lra.
Qed.

Lemma sorted_newest_first_from (items acc : list (string * (D * Q))) :
  StronglySorted newer acc ->
  Permutation (List.fold_left (fun acc x => insert_newest D x acc) items acc)
              (items ++ acc)
  /\ StronglySorted newer
       (List.fold_left (fun acc x => insert_newest D x acc) items acc).
Proof.
  revert acc. induction items as [|x items IH]; intros acc Hacc; simpl.
  - split; [reflexivity|exact Hacc].
  - destruct (IH (insert_newest D x acc) (insert_newest_sorted x acc Hacc))
      as [Hp Hs].
    split; [|exact Hs].
    rewrite Hp, insert_newest_perm. symmetry. apply Permutation_middle.
Qed.

(** The sort returns the items it was given, newest first. *)
Lemma sorted_newest_first_spec (items : list (string * (D * Q))) :
  Permutation (sorted_newest_first D items) items
  /\ StronglySorted newer (sorted_newest_first D items).
Proof.
  unfold sorted_newest_first.
  destruct (sorted_newest_first_from items [] ltac:(constructor)) as [Hp Hs].
  split; [|exact Hs]. rewrite Hp, List.app_nil_r. reflexivity.
Qed.

Lemma dict_of_from_lookup (items : list (string * (D * Q))) (acc : cache)
    (key : string) :
  ~ List.In key (List.map fst items) ->
  dict_lookup D
    (List.fold_left (fun acc kv => dict_set D acc (fst kv) (snd kv)) items acc) key
  = dict_lookup D acc key.
Proof.
  revert acc. induction items as [|[k v] items IH]; intros acc Hk; simpl;
    [reflexivity|].
  simpl in Hk. rewrite IH by tauto.
  apply dict_lookup_set_other. intros E. apply Hk. left. symmetry. exact E.
Qed.

(** The entry written by an update, with a time stamp newer than all
    others, is found in the updated cache. *)
Lemma updated_cache_lookup (c : cache) (key : string) (data : D) (now : Q) :
  List.NoDup (List.map fst c) -> older_than D now c ->
  let c1 := dict_set D c key (data, now) in
  dict_lookup D
    (if Nat.ltb 50 (length c1)
     then dict_of D (List.firstn 50 (sorted_newest_first D c1))
     else c1) key
  = Some (data, now).
Proof.
  intros Hnd Hold c1.
  destruct (Nat.ltb 50 (length c1)); [|apply dict_lookup_set].
  destruct (sorted_newest_first_spec c1) as [Hp Hs].
  pose proof (dict_set_has c key (data, now)) as Hin. fold c1 in Hin.
  pose proof (dict_set_NoDup c key (data, now) Hnd) as Hnd1. fold c1 in Hnd1.
  assert (Hnd2 : List.NoDup (List.map fst (sorted_newest_first D c1))).
  { eapply Permutation_NoDup; [|exact Hnd1].
    apply Permutation_map. symmetry. exact Hp. }
  assert (Hin2 : List.In (key, (data, now)) (sorted_newest_first D c1)).
  { apply (Permutation_in _ (Permutation_sym Hp)), Hin. }
  destruct (sorted_newest_first D c1) as [|h rest]; [destruct Hin2|].
  assert (Eh : h = (key, (data, now))).
  { destruct Hin2 as [E|Hr]; [exact E|].
    inversion Hs as [|h' r' Hs' Hh]. subst.
    pose proof (proj1 (List.Forall_forall _ _) Hh _ Hr) as Hle.
    cbn [snd] in Hle.
    assert (Hhc : List.In h c1).
    { apply (Permutation_in _ Hp). left. reflexivity. }
    apply dict_set_In in Hhc. destruct Hhc as [E|Hhc]; [exact E|].
    pose proof (proj1 (List.Forall_forall _ _) Hold _ Hhc) as Hlt.
    cbv beta in Hlt. lra. }
  subst h. cbn [List.firstn]. unfold dict_of. cbn [List.fold_left fst snd dict_set].
  rewrite dict_of_from_lookup.
  - cbn [dict_lookup]. rewrite String.eqb_refl. reflexivity.
  - cbn [List.map fst] in Hnd2. inversion Hnd2 as [|k l Hk Hl]. subst.
    intros Hin'. apply Hk.
    apply List.in_map_iff in Hin'. destruct Hin' as (y & Ey & Hy).
    apply List.in_map_iff. exists y. split; [exact Ey|].
    clear -Hy. revert Hy. generalize 49%nat. induction rest as [|z rest IH];
      intros [|n]; simpl; try tauto.
    intros [E|H]; [left; exact E|right; apply (IH n H)].
Qed.

(** X29.  An entry written at a time later than every time stamp of the cache
    is read back until it is [max_age_hours] old, and not after. *)
Theorem cache_round_trip (st : session) (cache_type key : string) (data : D)
    (now now' max_age_hours : Q) :
  List.NoDup (List.map fst (cache_of D st cache_type)) ->
  older_than D now (cache_of D st cache_type) ->
  _check_cache D (_update_cache D st cache_type key data now) cache_type key
    now' max_age_hours
  = if Qltb ((now' - now) / 3600) max_age_hours then Some data else None.
Proof.
  intros Hnd Hold. unfold _check_cache. cbv zeta.
  change (match _update_cache D st cache_type key data now !! cache_type with
          | Some c => c
          | None => []
          end)
    with (cache_of D (_update_cache D st cache_type key data now) cache_type).
  rewrite updated_cache. cbv zeta.
  rewrite (updated_cache_lookup _ key data now Hnd Hold). reflexivity.
Qed.

End WithData.

Lemma cache_round_trip_witness :
  List.NoDup (List.map fst (cache_of nat three_entries "earthquake_cache"))
  /\ older_than nat 40 (cache_of nat three_entries "earthquake_cache")
  /\ _check_cache nat (_update_cache nat three_entries "earthquake_cache" "b" 7%nat 40)
       "earthquake_cache" "b" 100 24
     = Some 7%nat.
Proof.
  assert (Hc : cache_of nat three_entries "earthquake_cache"
               = [("a"%string, (1%nat, 10)); ("b"%string, (2%nat, 20));
                  ("c"%string, (3%nat, 30))]) by reflexivity.
  assert (Hnd : List.NoDup (List.map fst (cache_of nat three_entries "earthquake_cache"))).
  { rewrite Hc. cbn [List.map fst].
    repeat (constructor; [cbn [List.In]; intuition discriminate|]). constructor. }
  assert (Hold : older_than nat 40 (cache_of nat three_entries "earthquake_cache")).
  { rewrite Hc. unfold older_than. repeat constructor. }
  split; [exact Hnd|]. split; [exact Hold|].
  rewrite (cache_round_trip nat three_entries "earthquake_cache" "b" 7%nat 40 100 24
             Hnd Hold).
  reflexivity.
Defined.

End CacheFacts.

(** ** The arrival times of GEOseis.py *)

Module WaveArrivalsFacts.
Import PyNum PyNumFacts WaveArrivals.
Local Open Scope Q_scope.

Abbreviation p_names := (["P"; "Pn"; "Pg"]%string).
Abbreviation s_names := (["S"; "Sn"; "Sg"]%string).

Lemma p_name_not_s (name : string) :
  name_in name p_names = true -> name_in name s_names = false.
Proof.
  unfold name_in. cbn [List.existsb].
  destruct (String.eqb name "P") eqn:E1;
    [apply String.eqb_eq in E1; subst; reflexivity|].
  destruct (String.eqb name "Pn") eqn:E2;
    [apply String.eqb_eq in E2; subst; reflexivity|].
  destruct (String.eqb name "Pg") eqn:E3;
    [apply String.eqb_eq in E3; subst; reflexivity|].
  discriminate.
Qed.

(** The loop keeps the first P phase and the first S phase. *)
Lemma first_phases_find (l : list (string * Q)) (p s : option Q) :
  first_phases l p s
  = (match p with
     | Some _ => p
     | None => option_map snd (List.find (fun a => name_in (fst a) p_names) l)
     end,
     match s with
     | Some _ => s
     | None => option_map snd (List.find (fun a => name_in (fst a) s_names) l)
     end).
Proof.
  revert p s. induction l as [|[name t] l IH]; intros p s;
    cbn [first_phases List.find fst].
  - destruct p, s; reflexivity.
  - destruct (name_in name p_names) eqn:EP.
    + rewrite (p_name_not_s name EP).
      destruct p as [p0|]; cbn [andb]; rewrite IH; reflexivity.
    + cbn [andb].
      destruct (name_in name s_names) eqn:ES; cbn [andb];
        [destruct s as [s0|]|]; rewrite IH; destruct p; reflexivity.
Qed.

Section WithTauP.

Variable taup_model : option (Q -> Q -> option (list (string * Q))).

(** X30.  For a distance that is not negative: the surface-wave arrival is
    always the empirical [distance*111.32/3.5], whatever TauP returns;
    the P (S) arrival is the time of the first P, Pn or Pg (S, Sn or Sg)
    phase TauP lists, and the fallback value when there is none; with
    both at their fallback values the arrivals are in the order
    P, S, surface. *)
Theorem wave_arrivals_defined (distance_deg depth_km : Q) :
  0 <= distance_deg ->
  let a := calculate_wave_arrivals taup_model distance_deg depth_km in
  let listed :=
    match taup_model with
    | Some get_travel_times =>
        match get_travel_times depth_km distance_deg with
        | Some l => l
        | None => []
        end
    | None => []
    end in
  Surface a = distance_deg * 111.32 / 3.5
  /\ 0 <= Surface a
  /\ P a = match List.find (fun x => name_in (fst x) p_names) listed with
           | Some x => snd x
           | None => distance_deg * 111.32 / 8.0
           end
  /\ S a = match List.find (fun x => name_in (fst x) s_names) listed with
           | Some x => snd x
           | None => distance_deg * 111.32 / 4.5
           end
  /\ (P a = distance_deg * 111.32 / 8.0 -> S a = distance_deg * 111.32 / 4.5 ->
      0 <= P a /\ P a <= S a /\ S a <= Surface a).
Proof.
  intros Hd a listed.
  assert (Hs : Surface a = distance_deg * 111.32 / 3.5).
  { unfold a, calculate_wave_arrivals.
    destruct taup_model as [get|]; [|reflexivity].
    destruct (get depth_km distance_deg) as [l|]; [|reflexivity].
    rewrite first_phases_find. cbn [Surface].
    destruct (Qltb 5 distance_deg); reflexivity. }
  assert (Hp : P a = match List.find (fun x => name_in (fst x) p_names) listed with
                     | Some x => snd x
                     | None => distance_deg * 111.32 / 8.0
                     end
               /\ S a = match List.find (fun x => name_in (fst x) s_names) listed with
                        | Some x => snd x
                        | None => distance_deg * 111.32 / 4.5
                        end).
  { unfold a, listed, calculate_wave_arrivals.
    destruct taup_model as [get|]; [|split; reflexivity].
    destruct (get depth_km distance_deg) as [l|]; [|split; reflexivity].
    rewrite first_phases_find. cbn [P S].
    destruct (List.find (fun x => name_in (fst x) p_names) l),
      (List.find (fun x => name_in (fst x) s_names) l); split; reflexivity. }
  destruct Hp as [Hp Hs'].
  assert (H35 : 0 <= distance_deg * 111.32 / 3.5)
    by (apply Qle_shift_div_l; lra).
  split; [exact Hs|]. split; [rewrite Hs; exact H35|].
  split; [exact Hp|]. split; [exact Hs'|].
  intros EP ES. rewrite EP, ES, Hs.
  unfold Qdiv.
  change (/ 8.0) with (10 # 80). change (/ 4.5) with (10 # 45).
  change (/ 3.5) with (10 # 35).
  repeat split; lra.
Qed.

End WithTauP.

Lemma wave_arrivals_defined_witness :
  let taup := Some (fun (_ _ : Q) => Some [("PKiKP"%string, 990); ("Pn"%string, 369);
                                           ("P"%string, 370)]) in
  let a := calculate_wave_arrivals taup 30 10 in
  Surface a = 30 * 111.32 / 3.5
  /\ 0 <= Surface a
  /\ P a = 369
  /\ S a = 30 * 111.32 / 4.5
  /\ (P a = 30 * 111.32 / 8.0 -> S a = 30 * 111.32 / 4.5 ->
      0 <= P a /\ P a <= S a /\ S a <= Surface a).
Proof.
  intros taup a.
  apply (wave_arrivals_defined taup 30 10).
  vm_compute. discriminate.
Defined.

End WaveArrivalsFacts.

(** ** The processing pipeline: spike removal, then the filter *)

Module PipelineFacts.
Import PyNum PyNumFacts Bandpass Pipeline.
Local Open Scope Q_scope.

Lemma filter_isfinite_Fin (l : list Q) :
  List.filter isfinite (List.map Fin l) = List.map Fin l.
Proof. induction l as [|x l IH]; simpl; [reflexivity|rewrite IH; reflexivity]. Qed.

Lemma forallb_isfinite_Fin (l : list Q) :
  List.forallb isfinite (List.map Fin l) = true.
Proof. induction l as [|x l IH]; simpl; [reflexivity|exact IH]. Qed.

Section WithLibraries.

Variable coeffs : Type.
Variable butter : nat -> list Q -> btype -> option coeffs.
Variable filtfilt : coeffs -> list sample -> filtfilt_result.
Variable np_std : list Q -> option Q.

Abbreviation process_component := (process_component coeffs butter filtfilt np_std).
Abbreviation process_waveform_with_filtering :=
  (process_waveform_with_filtering coeffs butter filtfilt np_std).

(** The band-pass on an array of finite samples returns as many finite
    samples. *)
Lemma bandpass_on_finite (l : list Q) fs lo hi ord :
  filtfilt_keeps_length coeffs filtfilt ->
  length (fst (apply_bandpass_filter coeffs butter filtfilt (List.map Fin l) fs lo hi ord))
  = length l
  /\ List.forallb isfinite
       (fst (apply_bandpass_filter coeffs butter filtfilt (List.map Fin l) fs lo hi ord))
     = true.
Proof.
  intros Hlen.
  destruct (BandpassFacts.output_length_finite coeffs butter filtfilt
              (List.map Fin l) fs lo hi ord Hlen) as [H1 H2].
  - rewrite filter_isfinite_Fin. lia.
  - rewrite filter_isfinite_Fin, List.length_map in H1. split; assumption.
Qed.

Lemma process_component_length w hr fs lo hi rs cn c :
  filtfilt_keeps_length coeffs filtfilt ->
  let r := process_component w hr fs lo hi rs cn c in
  match original_data r with
  | Some d =>
      find_data w hr c = Some d
      /\ exists f, filtered_data r = Some f /\ length f = length d
                   /\ List.forallb isfinite f = true
  | None =>
      find_data w hr c = None
      /\ filtered_data r = None /\ filter_status r = Some no_data
  end.
Proof.
  intros Hlen. unfold Pipeline.process_component.
  destruct (find_data w hr c) as [data|]; [|cbn; repeat split].
  set (cleaned := if rs
                  then let '(dc, n) := Spikes.remove_spikes data None in (dc, Some n)
                  else (data, None)).
  assert (Hc : length (fst cleaned) = length data).
  { unfold cleaned. destruct rs; [|reflexivity].
    pose proof (SpikesFacts.remove_spikes_length data None) as H.
    destruct (Spikes.remove_spikes data None) as [dc n]. exact H. }
  destruct cleaned as [dc sc]. cbn [fst] in Hc.
  set (F := match lo, hi with
            | None, None => (List.map Fin dc, true, success)
            | _, _ =>
                let '(filtered, filter_result) :=
                  apply_bandpass_filter coeffs butter filtfilt
                    (List.map Fin dc) fs lo hi None in
                match filter_result with
                | Success _ _ => (filtered, true, success)
                | Failure r => (filtered, false, failed r)
                end
            end).
  assert (HF : length (fst (fst F)) = length data
               /\ List.forallb isfinite (fst (fst F)) = true).
  { destruct (bandpass_on_finite dc fs lo hi None Hlen) as [H1 H2].
    unfold F.
    destruct lo as [l0|], hi as [h0|].
    4:{ cbn [fst]. rewrite List.length_map.
        split; [exact Hc|apply forallb_isfinite_Fin]. }
    all: destruct (apply_bandpass_filter coeffs butter filtfilt
                     (List.map Fin dc) fs _ _ None) as [f [ft p|r]];
      cbn [fst] in *; (split; [lia|assumption]). }
  destruct F as [[filtered ok] status]. cbn [fst] in HF. destruct HF as [HF1 HF2].
  destruct (cn && ok).
  - destruct (Spikes.np_max _) as [sl|]; cbn.
    + split; [reflexivity|]. exists filtered. repeat split; assumption.
    + split; [reflexivity|]. exists (List.map Fin data).
      split; [reflexivity|]. split; [apply List.length_map|apply forallb_isfinite_Fin].
  - cbn. split; [reflexivity|]. exists filtered. repeat split; assumption.
Qed.

(** X7.  For every component the pipeline finds, the stored filtered array
    has as many samples as the stored original and holds no NaN or Inf,
    whether spikes are removed or not, whichever filter is chosen, and
    whether the filter or the noise estimate fails; a component it does
    not find is marked "no_data". *)
Theorem processed_components_keep_length w ft rs cn pd c :
  filtfilt_keeps_length coeffs filtfilt ->
  process_waveform_with_filtering w ft rs cn = Some pd ->
  match original_data (component_of pd c) with
  | Some d =>
      exists f, filtered_data (component_of pd c) = Some f
                /\ length f = length d
                /\ List.forallb isfinite f = true
  | None =>
      filtered_data (component_of pd c) = None
      /\ filter_status (component_of pd c) = Some no_data
  end.
Proof.
  intros Hlen. unfold Pipeline.process_waveform_with_filtering. cbv zeta.
  match goal with |- context [if ?b then None else _] => destruct b end;
    [discriminate|].
  match goal with
  | |- context [match ?x with pair _ _ => _ end] => destruct x as [[lo hi] name]
  end.
  intros H. inversion H. clear H.
  match goal with
  | |- context [process_component w ?hr ?fs lo hi rs cn] =>
      pose proof (process_component_length w hr fs lo hi rs cn c Hlen) as Hc
  end.
  cbv zeta in Hc.
  destruct c; cbn [component_of north east vertical];
    (destruct (original_data _) as [d|]; [destruct Hc as [_ Hc]; exact Hc|];
     destruct Hc as [_ Hc]; exact Hc).
Qed.

End WithLibraries.

Lemma processed_components_keep_length_witness :
  filtfilt_keeps_length nat ref_filtfilt
  /\ exists pd,
       process_waveform_with_filtering nat ref_butter ref_filtfilt (fun _ => None)
         three_components (Named "surface") true false = Some pd
       /\ match original_data (component_of pd Vertical) with
          | Some d =>
              exists f, filtered_data (component_of pd Vertical) = Some f
                        /\ length f = length d
                        /\ List.forallb isfinite f = true
          | None =>
              filtered_data (component_of pd Vertical) = None
              /\ filter_status (component_of pd Vertical) = Some no_data
          end.
Proof.
  split; [exact BandpassFacts.ref_filtfilt_keeps_length|].
  eexists. split; [reflexivity|].
  apply (processed_components_keep_length nat ref_butter ref_filtfilt (fun _ => None)
           three_components (Named "surface") true false _ Vertical
           BandpassFacts.ref_filtfilt_keeps_length).
  reflexivity.
Defined.

End PipelineFacts.

(** ** The classifier on arrays of any dtype: integer wrap-around, and the
    agreement with [WaveTypes] on float64 arrays of finite samples *)

Module WaveTypesArraysFacts.
Import PyNum PyNumFacts Bandpass WaveTypesArrays.
Local Open Scope Q_scope.

Lemma Qeqb_zero_false (x : Q) : 0 < x -> Qeqb x 0 = false.
Proof.
  intros H. destruct (Qeqb x 0) eqn:E; [|reflexivity].
  apply Qeq_bool_iff in E. lra.
Qed.

Lemma fdiv_Fin (x y : Q) : 0 < y -> fdiv (Fin x) (Fin y) = Fin (x / y).
Proof. intros H. unfold fdiv. rewrite (Qeqb_zero_false y H). reflexivity. Qed.

Lemma sum_squares_Fin (l : list Q) (acc : Q) :
  List.fold_left fadd (List.map fsquare (List.map Fin l)) (Fin acc)
  = Fin (List.fold_left Qplus (List.map (fun x => x ^ 2) l) acc).
Proof.
  revert acc. induction l as [|x l IH]; intros acc; [reflexivity|].
  cbn [List.map List.fold_left]. apply IH.
Qed.

Lemma sum_zeros (k : nat) :
  List.fold_left Qplus (List.map (fun x => x ^ 2) (List.repeat 0 k)) 0 = 0.
Proof.
  induction k as [|k IH]; [reflexivity|].
  cbn [List.repeat List.map List.fold_left]. exact IH.
Qed.

Lemma int_sum_zeros (k : nat) :
  List.fold_left (fun acc x => wrap W64 (acc + x))
    (int_squares W64 (List.repeat 0%Z k)) 0%Z = 0%Z.
Proof.
  induction k as [|k IH]; [reflexivity|].
  cbn [List.repeat int_squares List.map List.fold_left]. exact IH.
Qed.

Lemma int_mean_zeros (k : nat) :
  List.fold_left Qplus
    (List.map inject_Z (int_squares W64 (List.repeat 0%Z k))) 0 = 0.
Proof.
  induction k as [|k IH]; [reflexivity|].
  cbn [List.repeat int_squares List.map List.fold_left]. exact IH.
Qed.

Lemma holds_len (a : array) (l : list Q) : holds a l -> len a = length l.
Proof.
  intros [->|(k & -> & ->)]; cbn.
  - apply List.length_map.
  - rewrite !List.repeat_length. reflexivity.
Qed.

Lemma skipn_repeat {A} (x : A) (m k : nat) :
  List.skipn m (List.repeat x k) = List.repeat x (k - m).
Proof.
  revert m. induction k as [|k IH]; intros [|m]; try reflexivity.
  cbn. apply IH.
Qed.

Lemma firstn_repeat {A} (x : A) (m k : nat) :
  List.firstn m (List.repeat x k) = List.repeat x (Nat.min m k).
Proof.
  revert m. induction k as [|k IH]; intros [|m]; try reflexivity.
  cbn. f_equal. apply IH.
Qed.

Lemma holds_slice (a : array) (l : list Q) (i j : Z) :
  holds a l -> holds (slice a i j) (WaveTypes.py_slice l i j).
Proof.
  intros [->|(k & -> & ->)].
  - left. unfold float_array, slice, slice_list, WaveTypes.py_slice. cbv zeta.
    rewrite List.length_map, List.skipn_map, List.firstn_map. reflexivity.
  - right. unfold slice, slice_list, WaveTypes.py_slice. cbv zeta.
    rewrite !List.repeat_length, !skipn_repeat, !firstn_repeat.
    eexists. split; reflexivity.
Qed.

Lemma holds_energy (a : array) (l : list Q) :
  holds a l ->
  zero_or_float (energy_of a)
  /\ to_float (energy_of a) = Fin (WaveTypes.energy_of l).
Proof.
  intros [->|(k & -> & ->)].
  - split; [exact I|]. cbn. rewrite sum_squares_Fin. reflexivity.
  - unfold energy_of. rewrite int_sum_zeros. split; [reflexivity|].
    unfold WaveTypes.energy_of, WaveTypes.np_sum. rewrite sum_zeros. reflexivity.
Qed.


Lemma sum_squares_nonneg (l : list Q) :
  0 <= List.fold_left Qplus (List.map (fun x => x ^ 2) l) 0.
Proof. exact (WaveTypesFacts.energy_nonneg l). Qed.

Lemma length_pos_Q (n : nat) : (0 < n)%nat -> 0 < inject_Z (Z.of_nat n).
Proof.
  intros H. change 0 with (inject_Z 0). rewrite <- Zlt_Qlt. lia.
Qed.

Lemma holds_mean_square (a : array) (l : list Q) :
  holds a l -> (0 < length l)%nat ->
  mean_square a = Fin (WaveTypes.np_mean (List.map (fun x => x ^ 2) l))
  /\ 0 <= WaveTypes.np_mean (List.map (fun x => x ^ 2) l).
Proof.
  intros H Hl.
  assert (Hn : 0 <= WaveTypes.np_mean (List.map (fun x => x ^ 2) l)).
  { unfold WaveTypes.np_mean, WaveTypes.np_sum. rewrite List.length_map.
    apply Qle_shift_div_l; [apply length_pos_Q, Hl|].
    pose proof (sum_squares_nonneg l). lra. }
  split; [|exact Hn].
  destruct H as [->|(k & -> & ->)].
  - unfold mean_square, float_array. rewrite sum_squares_Fin, List.length_map.
    rewrite fdiv_Fin by (apply length_pos_Q, Hl).
    unfold WaveTypes.np_mean, WaveTypes.np_sum. rewrite List.length_map.
    reflexivity.
  - unfold mean_square. rewrite int_mean_zeros.
    unfold WaveTypes.np_mean, WaveTypes.np_sum.
    rewrite sum_zeros, List.length_map, !List.repeat_length. reflexivity.
Qed.

Lemma nadd_to_float (a b : number) :
  zero_or_float a -> zero_or_float b ->
  zero_or_float (nadd a b)
  /\ to_float (nadd a b) = fadd (to_float a) (to_float b).
Proof.
  destruct a as [x|s], b as [y|t]; cbn; intros Ha Hb; subst;
    split; reflexivity || exact I.
Qed.

(** Lines 455-466 on finite energies that are not negative. *)
Lemma energy_ratios_finite (hn vn : number) (h v : Q) :
  to_float hn = Fin h -> to_float vn = Fin v ->
  to_float (nadd hn vn) = Fin (h + v) ->
  0 <= h -> 0 <= v ->
  energy_ratios hn vn
  = (Fin (fst (if Qltb 0 (h + v) then (h / (h + v), v / (h + v)) else (0, 0))),
     Fin (snd (if Qltb 0 (h + v) then (h / (h + v), v / (h + v)) else (0, 0))),
     Fin (h / (v + 1e-10))).
Proof.
  intros Hh Hv Ht H0 V0. unfold energy_ratios. cbv zeta.
  rewrite Hh, Hv, Ht. cbn [fltb fadd].
  assert (Hd : 0 < v + 1e-10) by (change 1e-10 with (1 # 10000000000); lra).
  rewrite (fdiv_Fin h _ Hd).
  destruct (Qltb 0 (h + v)) eqn:Et; [|reflexivity].
  apply Qltb_lt in Et. rewrite !fdiv_Fin by exact Et. reflexivity.
Qed.

(** Lines 469-477 on a finite ratio that is not negative. *)
Lemma dominant_of_finite (ratio : Q) :
  0 <= ratio ->
  dominant_of (Fin ratio)
  = (let X := if Qltb 3.0 ratio
              then (WaveTypes.Love, py_min (ratio / 5.0) 1.0)
              else if Qltb ratio 0.5
              then (WaveTypes.Rayleigh, py_min (2.0 / (ratio + 0.1)) 1.0)
              else (WaveTypes.Mixed, 1.0 - Qabs (ratio - 1.5) / 1.5) in
     (fst X, Fin (snd X))).
Proof.
  intros H0. unfold dominant_of. cbv zeta. cbn [fltb fadd fsub fneg fabs].
  rewrite (fdiv_Fin ratio 5.0) by reflexivity.
  rewrite (fdiv_Fin 2.0 (ratio + 0.1)) by lra.
  rewrite (fdiv_Fin _ 1.5) by reflexivity.
  unfold fmin, py_min. cbn [fltb fadd fneg].
  destruct (Qltb 3.0 ratio).
  - cbn [fst snd]. destruct (Qltb 1.0 (ratio / 5.0)); reflexivity.
  - destruct (Qltb ratio 0.5); cbn [fst snd].
    + destruct (Qltb 1.0 (2.0 / (ratio + 0.1))); reflexivity.
    + reflexivity.
Qed.

Lemma interpret_finite (ratio : Q) :
  _interpret_wave_type (Fin ratio) = WaveTypes._interpret_wave_type ratio.
Proof. reflexivity. Qed.

Lemma is_number_Fin (q : Q) : is_number (Fin q) q.
Proof. exists q. split; reflexivity. Qed.

Lemma rounded_energy (n : number) (e : Q) :
  zero_or_float n -> to_float n = Fin e ->
  is_number (to_float (nround n 2)) (py_round e 2).
Proof.
  destruct n as [z|s]; cbn; intros Hz He.
  - subst z. inversion He. exists (inject_Z 0). split; reflexivity.
  - subst s. apply is_number_Fin.
Qed.


Lemma missing_components {A B} (f : A -> B) (a b c : option A) :
  match option_map f a, option_map f b, option_map f c with
  | None, None, None => true
  | _, _, _ => false
  end
  = match a, b, c with
    | None, None, None => true
    | _, _, _ => false
    end.
Proof. destruct a, b, c; reflexivity. Qed.

Lemma or_zero_holds (o : option (list Q)) :
  holds (if Nat.ltb 0 (len match option_map float_array o with
                           | Some a => a
                           | None => FloatArray []
                           end)
         then match option_map float_array o with
              | Some a => a
              | None => FloatArray []
              end
         else IntArray W64 [0%Z])
        (if Nat.ltb 0 (length match o with Some a => a | None => [] end)
         then match o with Some a => a | None => [] end
         else [0]).
Proof.
  destruct o as [[|x l]|]; cbn.
  - right. exists 1%nat. split; reflexivity.
  - left. reflexivity.
  - right. exists 1%nat. split; reflexivity.
Qed.

Lemma float_displacement_finite (d : WaveTypes.displacement_data) :
  finite_floats (float_displacement d).
Proof.
  destruct d as [n e v]. intros a. unfold float_displacement.
  cbn [north east vertical WaveTypes.north WaveTypes.east WaveTypes.vertical].
  intros [H|[H|H]];
    match type of H with
    | option_map _ ?o = _ => destruct o as [l|]; [|discriminate]
    end; inversion H; exists l; reflexivity.
Qed.

Section WithNumPy.

Variable np_sqrt : Q -> Q.

Lemma fsqrt_nonneg (x : Q) : 0 <= x -> fsqrt np_sqrt (Fin x) = Fin (np_sqrt x).
Proof.
  intros H. unfold fsqrt.
  assert (E : Qltb x 0 = false) by (apply Qltb_ge, H).
  rewrite E. reflexivity.
Qed.

Lemma rms_finite (a : array) (l : list Q) :
  holds a l ->
  (if Nat.ltb 0 (len a) then fsqrt np_sqrt (mean_square a) else Fin 0)
  = Fin (if Nat.ltb 0 (length l)
         then np_sqrt (WaveTypes.np_mean (List.map (fun x => x ^ 2) l))
         else 0).
Proof.
  intros H. rewrite (holds_len a l H).
  destruct (Nat.ltb 0 (length l)) eqn:E; [|reflexivity].
  apply Nat.ltb_lt in E.
  destruct (holds_mean_square a l H E) as [-> Hn].
  apply fsqrt_nonneg, Hn.
Qed.

Lemma horizontal_rms_finite (a b : Q) :
  fsqrt np_sqrt (fdiv (fadd (fsquare (Fin a)) (fsquare (Fin b))) (Fin 2))
  = Fin (np_sqrt ((a ^ 2 + b ^ 2) / 2)).
Proof.
  cbn [fsquare fadd]. rewrite fdiv_Fin by reflexivity.
  apply fsqrt_nonneg. apply Qle_shift_div_l; [reflexivity|].
  change (a ^ 2) with (a * a). change (b ^ 2) with (b * b). nra.
Qed.

Lemma detect_finite (w : WaveTypes.waveform_data) (time_window : option (Q * Q)) :
  match WaveTypes.detect_wave_types np_sqrt w time_window with
  | WaveTypes.Error =>
      detect_wave_types np_sqrt (float_waveform w) time_window = Error
  | WaveTypes.Detected r =>
      exists r',
        detect_wave_types np_sqrt (float_waveform w) time_window = Detected r'
        /\ same_analysis r' r
  end.
Proof.
  unfold WaveTypes.detect_wave_types, detect_wave_types, float_waveform.
  cbn [displacement time sampling_rate].
  destruct (WaveTypes.displacement w) as [d|]; cbn [option_map]; [|reflexivity].
  unfold float_displacement; cbn [north east vertical].
  rewrite missing_components.
  match goal with |- context [if ?b then WaveTypes.Error else _] => destruct b end;
    [reflexivity|].
  cbv zeta.
  pose proof (or_zero_holds (WaveTypes.north d)) as Hn.
  pose proof (or_zero_holds (WaveTypes.east d)) as He.
  pose proof (or_zero_holds (WaveTypes.vertical d)) as Hv.
  repeat match goal with
  | H : holds ?a ?l |- _ =>
      tryif is_var a then fail else
        (let a' := fresh "a" in let l' := fresh "l" in
         set (a' := a) in *; set (l' := l) in *; clearbody a' l')
  end.
  rewrite (holds_len _ _ Hn), (holds_len _ _ He), (holds_len _ _ Hv).
  match goal with
  | |- context [match ?t with pair _ _ => _ end] =>
      match type of t with
      | (list Q * list Q * list Q)%type => set (W := t)
      end
  end.
  match goal with
  | |- context [match ?t with pair _ _ => _ end] =>
      match type of t with
      | (array * array * array)%type => set (W' := t)
      end
  end.
  assert (HW : holds (fst (fst W')) (fst (fst W))
               /\ holds (snd (fst W')) (snd (fst W))
               /\ holds (snd W') (snd W)).
  { unfold W, W'. destruct time_window as [[t0 t1]|]; [destruct (WaveTypes.time w)|];
      cbn [fst snd]; repeat split; try apply holds_slice; assumption. }
  clearbody W W'. clear dependent a. clear dependent a0. clear dependent a1.
  destruct W as [[ln le] lv], W' as [[an ae] av]. cbn [fst snd] in HW.
  destruct HW as (Hn & He & Hv).
  destruct (holds_energy an ln Hn) as [Kn En].
  destruct (holds_energy ae le He) as [Ke Ee].
  destruct (holds_energy av lv Hv) as [Kv Ev].
  destruct (nadd_to_float _ _ Kn Ke) as [Kh Eh].
  rewrite En, Ee in Eh. cbn [fadd] in Eh.
  destruct (nadd_to_float _ _ Kh Kv) as [Kt Et].
  rewrite Eh, Ev in Et. cbn [fadd] in Et.
  pose proof (WaveTypesFacts.horizontal_energy_nonneg ln le) as Hh0.
  pose proof (WaveTypesFacts.energy_nonneg lv) as Hv0.
  rewrite (energy_ratios_finite _ _ _ _ Eh Ev Et Hh0 Hv0).
  rewrite dominant_of_finite
    by (apply WaveTypesRangeFacts.love_rayleigh_ratio_nonneg; assumption).
  rewrite (rms_finite an ln Hn), (rms_finite ae le He), (rms_finite av lv Hv).
  rewrite horizontal_rms_finite.
  cbv zeta.
  set (ratio := (WaveTypes.energy_of ln + WaveTypes.energy_of le)
                / (WaveTypes.energy_of lv + 1e-10)).
  destruct (Qltb 0 _);
    (destruct (Qltb 3.0 ratio); [|destruct (Qltb ratio 0.5)]);
    cbn [fst snd]; eexists; (split; [reflexivity|]);
    unfold same_analysis;
    cbn [dominant_type interpreted confidence love_rayleigh_ratio
         horizontal_ratio vertical_ratio energy rms
         energy_north energy_east energy_vertical energy_horizontal_total
         rms_north rms_east rms_vertical rms_horizontal
         WaveTypes.dominant_type WaveTypes.interpreted WaveTypes.confidence
         WaveTypes.love_rayleigh_ratio WaveTypes.horizontal_ratio
         WaveTypes.vertical_ratio WaveTypes.energy WaveTypes.rms
         WaveTypes.energy_north WaveTypes.energy_east WaveTypes.energy_vertical
         WaveTypes.energy_horizontal_total WaveTypes.rms_north
         WaveTypes.rms_east WaveTypes.rms_vertical WaveTypes.rms_horizontal
         fround];
    repeat split;
    try apply is_number_Fin; try (apply rounded_energy; assumption).
Qed.

(** A waveform whose components are float64 arrays of finite samples
    is one of [WaveTypes]. *)
Lemma finite_floats_waveform (waveform : waveform_data) (d : displacement_data) :
  displacement waveform = Some d -> finite_floats d ->
  exists w, waveform = float_waveform w.
Proof.
  destruct waveform as [disp t sr]. cbn [displacement]. intros -> Hf.
  destruct d as [n e v]. unfold finite_floats in Hf. cbn [north east vertical] in Hf.
  assert (Ho : forall o : option array,
             (forall a, o = Some a -> finite_float a) ->
             exists o', o = option_map float_array o').
  { intros [a|] Ha.
    - destruct (Ha a eq_refl) as [values ->]. exists (Some values). reflexivity.
    - exists None. reflexivity. }
  destruct (Ho n) as [n' ->]; [intros a Ha; apply Hf; auto|].
  destruct (Ho e) as [e' ->]; [intros a Ha; apply Hf; auto|].
  destruct (Ho v) as [v' ->]; [intros a Ha; apply Hf; auto|].
  exists {| WaveTypes.displacement :=
              Some {| WaveTypes.north := n'; WaveTypes.east := e';
                      WaveTypes.vertical := v' |};
            WaveTypes.time := t; WaveTypes.sampling_rate := sr |}.
  reflexivity.
Qed.

(** On float64 arrays of finite samples every analysis is one of
    [WaveTypes]. *)
Lemma finite_detection (waveform : waveform_data) (time_window : option (Q * Q))
    (d : displacement_data) (r : wave_types) :
  displacement waveform = Some d -> finite_floats d ->
  detect_wave_types np_sqrt waveform time_window = Detected r ->
  exists w r0,
    waveform = float_waveform w
    /\ WaveTypes.detect_wave_types np_sqrt w time_window = WaveTypes.Detected r0
    /\ same_analysis r r0.
Proof.
  intros Hd Hf Hr.
  destruct (finite_floats_waveform waveform d Hd Hf) as [w ->].
  pose proof (detect_finite w time_window) as H.
  destruct (WaveTypes.detect_wave_types np_sqrt w time_window) as [|r0] eqn:E0.
  - rewrite H in Hr. discriminate.
  - destruct H as (r' & Hr' & Hs). rewrite Hr' in Hr. inversion Hr. subst r'.
    exists w, r0. split; [reflexivity|]. split; [exact E0|exact Hs].
Qed.

Lemma is_number_in_unit (s : sample) (q : Q) :
  is_number s q -> 0 <= q /\ q <= 1 -> in_unit_interval s.
Proof.
  intros (x & -> & E) [H0 H1]. cbn. rewrite E. split; assumption.
Qed.

(** X8.  For float64 arrays of finite samples, every analysis that is
    returned reports a confidence, a horizontal energy share and a
    vertical energy share between 0 and 1. *)
Theorem finite_shares_in_unit_interval (waveform : waveform_data)
    (time_window : option (Q * Q)) (d : displacement_data) (r : wave_types) :
  displacement waveform = Some d -> finite_floats d ->
  detect_wave_types np_sqrt waveform time_window = Detected r ->
  in_unit_interval (confidence r)
  /\ in_unit_interval (horizontal_ratio r)
  /\ in_unit_interval (vertical_ratio r).
Proof.
  intros Hd Hf Hr.
  destruct (finite_detection waveform time_window d r Hd Hf Hr)
    as (w & r0 & _ & H0 & Hs).
  destruct (WaveTypesRangeFacts.rational_shares_in_unit_interval
              np_sqrt w time_window r0 H0) as (Hc & Hh & Hv).
  destruct Hs as (_ & _ & Sc & _ & Sh & Sv & _).
  repeat split; eapply is_number_in_unit; eassumption.
Qed.

(** X9.  For float64 arrays of finite samples, the dominant type and the
    interpretation text, decided by two separate threshold ladders over
    the same ratio, agree, except that a ratio of exactly 0.5 is typed
    Mixed while its text says that Rayleigh waves dominate. *)
Theorem finite_type_matches_interpretation (waveform : waveform_data)
    (time_window : option (Q * Q)) (d : displacement_data) (r : wave_types) :
  displacement waveform = Some d -> finite_floats d ->
  detect_wave_types np_sqrt waveform time_window = Detected r ->
  match dominant_type r with
  | WaveTypes.Love =>
      interpreted r = WaveTypes.StrongLove
      \/ interpreted r = WaveTypes.LoveDominates
  | WaveTypes.Rayleigh =>
      interpreted r = WaveTypes.RayleighDominates
      \/ interpreted r = WaveTypes.StrongRayleigh
  | WaveTypes.Mixed =>
      interpreted r = WaveTypes.MixedLoveRayleigh
      \/ interpreted r = WaveTypes.MixedRayleighTendency
      \/ (interpreted r = WaveTypes.RayleighDominates
          /\ is_number (love_rayleigh_ratio r) 0.5)
  end.
Proof.
  intros Hd Hf Hr.
  destruct (finite_detection waveform time_window d r Hd Hf Hr)
    as (w & r0 & _ & H0 & Hs).
  pose proof (WaveTypesRangeFacts.rational_type_matches_interpretation
                np_sqrt w time_window r0 H0) as H.
  destruct Hs as (-> & -> & _ & (x & Ex & Eq) & _).
  destruct (WaveTypes.dominant_type r0); try exact H.
  destruct H as [H|[H|[H1 H2]]]; [left; exact H|right; left; exact H|].
  right; right. split; [exact H1|].
  exists x. split; [exact Ex|]. rewrite Eq. exact H2.
Qed.

(** On float64 arrays of finite samples the dominant type Rayleigh
    comes with the confidence 1.0. *)
Lemma finite_rayleigh_confidence (waveform : waveform_data)
    (time_window : option (Q * Q)) (d : displacement_data) (r : wave_types) :
  displacement waveform = Some d -> finite_floats d ->
  detect_wave_types np_sqrt waveform time_window = Detected r ->
  dominant_type r = WaveTypes.Rayleigh ->
  is_number (confidence r) 1.
Proof.
  intros Hd Hf Hr Ht.
  destruct (finite_detection waveform time_window d r Hd Hf Hr)
    as (w & r0 & _ & H0 & Hs).
  destruct Hs as (Sd & _ & (x & Ex & Eq) & _).
  rewrite Sd in Ht.
  pose proof (WaveTypesFacts.rational_rayleigh_confidence
                np_sqrt w time_window r0 H0 Ht) as H.
  exists x. split; [exact Ex|]. rewrite Eq. exact H.
Qed.

(** C10.  The claim fails on raw integer counts.  For one sample of
    46341 counts on the north component and one of 40000 on the vertical,
    both int32, [north**2] wraps around to -2147479015: the ratio is
    negative, the dominant type is Rayleigh and the confidence is
    -1.61, not 1.0. *)
Theorem raw_counts_confidence_negative :
  exists r c,
    detect_wave_types np_sqrt raw_counts (Some (0, 1)) = Detected r
    /\ dominant_type r = WaveTypes.Rayleigh
    /\ energy_north (energy r) = IntV (-2147479015)
    /\ is_number (love_rayleigh_ratio r) (-1.34)
    /\ confidence r = Fin c /\ c == -1.61 /\ ~ c == 1.
Proof.
  eexists _, _. split; [vm_compute; reflexivity|].
  cbn [dominant_type energy energy_north love_rayleigh_ratio confidence].
  split; [reflexivity|]. split; [reflexivity|].
  split; [eexists; split; [reflexivity|vm_compute; reflexivity]|].
  split; [reflexivity|].
  split; [vm_compute; reflexivity|vm_compute; discriminate].
Qed.

End WithNumPy.

(** The same counts as float64 are typed Mixed, with the ratio 1.34. *)
Lemma float_counts_are_mixed (np_sqrt : Q -> Q) :
  exists r,
    detect_wave_types np_sqrt float_counts (Some (0, 1)) = Detected r
    /\ dominant_type r = WaveTypes.Mixed
    /\ is_number (love_rayleigh_ratio r) 1.34.
Proof.
  eexists. split; [vm_compute; reflexivity|].
  cbn [dominant_type love_rayleigh_ratio].
  split; [reflexivity|]. eexists. split; [reflexivity|vm_compute; reflexivity].
Qed.

(** A NaN sample is outside the two theorems on finite samples: the
    ratio is NaN, every comparison with it is false, and the analysis is
    typed Mixed, with the strong-Rayleigh text and a NaN confidence. *)
Lemma nan_sample_is_mixed (np_sqrt : Q -> Q) :
  let w := {| displacement := Some {| north := Some (FloatArray [NaN]);
                                      east := None;
                                      vertical := Some (FloatArray [Fin 1]) |};
              time := None;
              sampling_rate := None |} in
  exists r,
    detect_wave_types np_sqrt w None = Detected r
    /\ dominant_type r = WaveTypes.Mixed
    /\ interpreted r = WaveTypes.StrongRayleigh
    /\ confidence r = NaN.
Proof.
  cbv zeta. eexists. split; [vm_compute; reflexivity|].
  repeat split.
Qed.

Lemma finite_shares_in_unit_interval_witness :
  let w := float_waveform WaveTypes.vertical_pulse in
  exists d r,
    displacement w = Some d /\ finite_floats d
    /\ detect_wave_types (fun x => x) w (Some (0, 3)) = Detected r
    /\ in_unit_interval (confidence r)
    /\ in_unit_interval (horizontal_ratio r)
    /\ in_unit_interval (vertical_ratio r).
Proof.
  intros w. eexists _, _. split; [reflexivity|].
  split; [apply float_displacement_finite|].
  split; [vm_compute; reflexivity|].
  eapply (finite_shares_in_unit_interval (fun x => x) w (Some (0, 3))).
  - reflexivity.
  - apply float_displacement_finite.
  - reflexivity.
Defined.

Lemma finite_type_matches_interpretation_witness :
  let w := float_waveform WaveTypes.vertical_pulse in
  exists d r,
    displacement w = Some d /\ finite_floats d
    /\ detect_wave_types (fun x => x) w None = Detected r
    /\ dominant_type r = WaveTypes.Rayleigh
    /\ (interpreted r = WaveTypes.RayleighDominates
        \/ interpreted r = WaveTypes.StrongRayleigh).
Proof.
  intros w. eexists _, _. split; [reflexivity|].
  split; [apply float_displacement_finite|].
  split; [vm_compute; reflexivity|].
  split; [reflexivity|].
  match goal with
  | |- interpreted ?r = _ \/ _ =>
      exact (finite_type_matches_interpretation (fun x => x) w None _ r
               eq_refl (float_displacement_finite _) eq_refl)
  end.
Defined.

End WaveTypesArraysFacts.
